(** * WebUtils: a shallow embedding of [src/WebUtils/core/core.py]

    The development follows the layout of the Python module: the
    [Authorization] credential holder, the [HTTPMethod] enumeration, the
    [HTTPResponse] record with its factory and builder, and the
    [HTTPService] verb functions.  The library functions the module calls
    ([base64.b64encode], [datetime] arithmetic and formatting, the aiohttp
    response object) are modelled next to the class that uses them.

    Conventions.
    - A Python [str] is held as a Rocq [string] containing the UTF-8
      encoding of the text.  Concatenation, equality and [startswith] commute
      with that encoding, [str.encode('utf-8')] is [list_byte_of_string] and
      [bytes.decode('utf-8')] is [string_of_list_byte].
    - A Python [dict] with string keys is a [gmap string _].
    - A Python [int] is a [Z].
    - An exception is a value of [exn]; a call that may raise returns
      [result]. *)

From Stdlib Require Import ZArith QArith Qabs Qpower Lia List.
From Stdlib Require Import Strings.String Strings.Ascii Strings.Byte.
From stdpp Require Import base option gmap strings list fin_maps.

Local Open Scope Z_scope.

(** ** Exceptions and results *)

Inductive exn : Type :=
| KeyError (key : string)
| AttributeError (name : string)
| TypeError (msg : string)
| ValueError (msg : string)
| ClientResponseError (status : Z) (message : string)
| ClientError (msg : string).

Inductive result (A : Type) : Type :=
| Ok (a : A)
| Raise (e : exn).
Arguments Ok {A} a.
Arguments Raise {A} e.

#[global] Instance result_ret : MRet result := @Ok.

#[global] Instance result_bind : MBind result := λ A B k m,
  match m with
  | Ok a => k a
  | Raise e => Raise e
  end.

#[global] Instance result_fmap : FMap result := λ A B f m,
  match m with
  | Ok a => Ok (f a)
  | Raise e => Raise e
  end.

(** ** Bytes as numbers *)

Definition byte_val (b : byte) : Z := Z.of_N (Byte.to_N b).

Definition byte_of_val (z : Z) : byte :=
  match Byte.of_N (Z.to_N z) with
  | Some b => b
  | None => x00
  end.

(** ** [base64.b64encode] and [base64.b64decode]

    RFC 4648 section 4, the standard alphabet: every group of three bytes is
    cut into four 6-bit values, each written as one character of the
    alphabet; a final group of one or two bytes is padded with [=]. *)

Module Base64.

Definition alphabet : list byte :=
  list_byte_of_string
    "ABCDEFGHIJKLMNOPQRSTUVWXYZabcdefghijklmnopqrstuvwxyz0123456789+/".

Definition pad : byte := "="%byte.

Definition char (n : Z) : byte := nth (Z.to_nat n) alphabet x00.

Fixpoint position (c : byte) (l : list byte) (i : Z) : option Z :=
  match l with
  | [] => None
  | x :: l' => if Byte.eqb c x then Some i else position c l' (i + 1)
  end.

Definition index (c : byte) : option Z := position c alphabet 0.

Fixpoint b64encode (bs : list byte) : list byte :=
  match bs with
  | [] => []
  | [x] =>
      let a := byte_val x in
      [char (a / 4); char (a mod 4 * 16); pad; pad]
  | [x; y] =>
      let a := byte_val x in
      let b := byte_val y in
      [char (a / 4); char (a mod 4 * 16 + b / 16); char (b mod 16 * 4); pad]
  | x :: y :: z :: rest =>
      let a := byte_val x in
      let b := byte_val y in
      let c := byte_val z in
      char (a / 4) :: char (a mod 4 * 16 + b / 16)
        :: char (b mod 16 * 4 + c / 64) :: char (c mod 64)
        :: b64encode rest
  end.

(** One group of four characters. *)
Definition quad (c1 c2 c3 c4 : byte) : option (list byte) :=
  s1 ← index c1;
  s2 ← index c2;
  if Byte.eqb c3 pad then
    if Byte.eqb c4 pad then Some [byte_of_val (s1 * 4 + s2 / 16)] else None
  else
    s3 ← index c3;
    if Byte.eqb c4 pad then
      Some [byte_of_val (s1 * 4 + s2 / 16);
            byte_of_val (s2 mod 16 * 16 + s3 / 4)]
    else
      s4 ← index c4;
      Some [byte_of_val (s1 * 4 + s2 / 16);
            byte_of_val (s2 mod 16 * 16 + s3 / 4);
            byte_of_val (s3 mod 4 * 64 + s4)].

(** The decoder on canonical input: groups of four, padding only in the
    last group. *)
Fixpoint b64decode (cs : list byte) : option (list byte) :=
  match cs with
  | [] => Some []
  | c1 :: c2 :: c3 :: c4 :: rest =>
      out ← quad c1 c2 c3 c4;
      if Byte.eqb c4 pad then
        match rest with
        | [] => Some out
        | _ :: _ => None
        end
      else
        tl ← b64decode rest;
        Some (out ++ tl)
  | _ => None
  end.

End Base64.

(** ** [datetime]

    The naive (timezone-free) datetimes that [datetime.now()] returns.  The
    constructor of the Python class rejects fields out of range, so every
    datetime object carries the range facts. *)

Definition _is_leap (year : Z) : bool :=
  (year mod 4 =? 0) && (negb (year mod 100 =? 0) || (year mod 400 =? 0)).

Definition _DAYS_IN_MONTH : list Z :=
  [-1; 31; 28; 31; 30; 31; 30; 31; 31; 30; 31; 30; 31].

Definition _DAYS_BEFORE_MONTH : list Z :=
  [-1; 0; 31; 59; 90; 120; 151; 181; 212; 243; 273; 304; 334].

Definition _days_before_year (year : Z) : Z :=
  let y := year - 1 in
  y * 365 + y / 4 - y / 100 + y / 400.

Definition _days_in_month (year month : Z) : Z :=
  if (month =? 2) && _is_leap year then 29
  else nth (Z.to_nat month) _DAYS_IN_MONTH 0.

Definition _days_before_month (year month : Z) : Z :=
  nth (Z.to_nat month) _DAYS_BEFORE_MONTH 0
  + (if (2 <? month) && _is_leap year then 1 else 0).

Definition _ymd2ord (year month day : Z) : Z :=
  _days_before_year year + _days_before_month year month + day.

Definition MINYEAR : Z := 1.
Definition MAXYEAR : Z := 9999.

Definition _check_date_fields (year month day : Z) : bool :=
  (MINYEAR <=? year) && (year <=? MAXYEAR)
  && (1 <=? month) && (month <=? 12)
  && (1 <=? day) && (day <=? _days_in_month year month).

Definition _check_time_fields (hour minute second microsecond : Z) : bool :=
  (0 <=? hour) && (hour <=? 23)
  && (0 <=? minute) && (minute <=? 59)
  && (0 <=? second) && (second <=? 59)
  && (0 <=? microsecond) && (microsecond <=? 999999).

Record datetime : Type := mk_datetime {
  year : Z;
  month : Z;
  day : Z;
  hour : Z;
  minute : Z;
  second : Z;
  microsecond : Z;
  datetime_fields :
    _check_date_fields year month day
    && _check_time_fields hour minute second microsecond = true
}.

(** [timedelta(days, seconds, microseconds)]: the constructor normalises so
    that [0 <= seconds < 86400] and [0 <= microseconds < 1000000]. *)
Record timedelta : Type := mk_timedelta {
  days : Z;
  seconds : Z;
  microseconds : Z
}.

Definition timedelta_new (d s us : Z) : timedelta :=
  let s' := s + us / 1000000 in
  {| days := d + s' / 86400;
     seconds := s' mod 86400;
     microseconds := us mod 1000000 |}.

Definition toordinal (t : datetime) : Z :=
  _ymd2ord (year t) (month t) (day t).

(** [datetime.__sub__] on two naive datetimes. *)
Definition datetime_sub (self other : datetime) : timedelta :=
  let days1 := toordinal self in
  let days2 := toordinal other in
  let secs1 := second self + minute self * 60 + hour self * 3600 in
  let secs2 := second other + minute other * 60 + hour other * 3600 in
  timedelta_new (days1 - days2) (secs1 - secs2)
                (microsecond self - microsecond other).

(** [int / int]: CPython's [long_true_divide] returns the double nearest to
    the quotient, ties going to the even significand.  A double is held as
    the rational it denotes, in lowest terms.  The exponent [e] puts the
    scaled quotient between [2 ** 52] and [2 ** 53], so the rounded integer
    has the 53 bits of a significand; the sign is put back at the end.  Only
    positive divisors and quotients in the range of normal doubles occur in
    the module (the one division is by [10 ** 6]), so division by zero,
    overflow and subnormal results are left out. *)
Definition round_half_even (num den : Z) : Z :=
  let q := num / den in
  let r := num mod den in
  if (den <? 2 * r) || ((2 * r =? den) && Z.odd q) then q + 1 else q.

Definition long_true_divide (a b : Z) : Q :=
  if a =? 0 then 0%Q
  else
    let n := Z.abs a in
    let shift := Z.log2 n - Z.log2 b - 53 in
    let scaled (e : Z) : Z * Z :=
      if 0 <=? e then (n, b * 2 ^ e) else (n * 2 ^ (- e), b) in
    let e :=
      if fst (scaled shift) <? 2 ^ 53 * snd (scaled shift) then shift
      else shift + 1 in
    let m := Z.sgn a * round_half_even (fst (scaled e)) (snd (scaled e)) in
    Qred (if 0 <=? e then inject_Z (m * 2 ^ e)
          else Qmake m (Z.to_pos (2 ^ (- e)))).

(** [timedelta.total_seconds()]:
    [((self.days * 86400 + self.seconds) * 10**6 + self.microseconds) / 10**6],
    a float. *)
Definition total_seconds (td : timedelta) : Q :=
  long_true_divide
    ((days td * 86400 + seconds td) * 1000000 + microseconds td) 1000000.

(** [strftime]: the directives the module uses.  CPython hands the format
    to the C library, which prints [%m], [%d], [%H], [%M] and [%S] on two
    digits and [%Y] as the plain decimal number of the year, without
    leading zeros (years 1 to 999 come out on one to three digits). *)
Definition digit (n : Z) : ascii := ascii_of_N (Z.to_N (48 + n)).

Definition pad2 (n : Z) : string :=
  String (digit (n / 10)) (String (digit (n mod 10)) EmptyString).

Fixpoint decimal_from (fuel : nat) (n : Z) (acc : string) : string :=
  match fuel with
  | O => acc
  | S fuel' =>
      let acc' := String (digit (n mod 10)) acc in
      if n <? 10 then acc' else decimal_from fuel' (n / 10) acc'
  end.

(** [n] in decimal, for [0 <= n]; a number has at most as many digits as
    its size plus one. *)
Definition decimal (n : Z) : string :=
  decimal_from (S (Z.to_nat n)) n EmptyString.

Definition directive (c : ascii) (t : datetime) : string :=
  if Ascii.eqb c "Y" then decimal (year t)
  else if Ascii.eqb c "m" then pad2 (month t)
  else if Ascii.eqb c "d" then pad2 (day t)
  else if Ascii.eqb c "H" then pad2 (hour t)
  else if Ascii.eqb c "M" then pad2 (minute t)
  else if Ascii.eqb c "S" then pad2 (second t)
  else if Ascii.eqb c "%" then "%"
  else String "%" (String c EmptyString).

Fixpoint strftime_from (fmt : string) (t : datetime) : string :=
  match fmt with
  | EmptyString => EmptyString
  | String c EmptyString => String c EmptyString
  | String c (String c' rest as fmt') =>
      if Ascii.eqb c "%" then directive c' t +:+ strftime_from rest t
      else String c (strftime_from fmt' t)
  end.

Definition strftime (t : datetime) (fmt : string) : string :=
  strftime_from fmt t.

(** ** [class HTTPMethod(Enum)] *)

Module HTTPMethod.

Inductive t : Type :=
| GET | POST | PUT | DELETE | PATCH | HEAD | OPTIONS | TRACE.

#[global] Instance eq_dec : EqDecision t.
Proof. solve_decision. Defined.

(** The value each member is declared with. *)
Definition value (m : t) : string :=
  match m with
  | GET => "GET"
  | POST => "POST"
  | PUT => "PUT"
  | DELETE => "DELETE"
  | PATCH => "PATCH"
  | HEAD => "HEAD"
  | OPTIONS => "OPTIONS"
  | TRACE => "TRACE"
  end.

(** [__str__] returns [self.value]. *)
Definition __str__ (m : t) : string := value m.

(** The members in declaration order, as iterating the enum yields them. *)
Definition members : list t :=
  [GET; POST; PUT; DELETE; PATCH; HEAD; OPTIONS; TRACE].

(** [HTTPMethod(v)]: the member declared with value [v], otherwise
    [ValueError]. *)
Definition call (v : string) : result t :=
  match find (λ m, String.eqb (value m) v) members with
  | Some m => Ok m
  | None => Raise (ValueError v)
  end.

End HTTPMethod.

(** ** Python values ([Any])

    A [float] is held as the rational number the double denotes. *)

#[warnings="-register-all"]
Inductive value : Type :=
| VNone
| VBool (b : bool)
| VInt (z : Z)
| VFloat (q : Q)
| VStr (s : string)
| VBytes (bs : list byte)
| VList (l : list value)
| VDict (d : gmap string value)
| VDatetime (t : datetime)
| VMethod (m : HTTPMethod.t).

(** [len] on a [str] counts code points: the bytes of the UTF-8 encoding
    that are not continuation bytes ([10xxxxxx]). *)
Definition is_continuation (b : byte) : bool :=
  (128 <=? byte_val b) && (byte_val b <? 192).

Definition len (s : string) : nat :=
  length (List.filter (λ b, negb (is_continuation b)) (list_byte_of_string s)).

Fixpoint repeat_str (s : string) (n : nat) : string :=
  match n with
  | O => EmptyString
  | S n' => s +:+ repeat_str s n'
  end.

(** What [getattr(obj, name)] finds: a bound method that can be called with
    no argument (with the outcome of that call), a bound method that still
    needs positional arguments, or a value that is not callable. *)
Inductive attribute : Type :=
| Method0 (outcome : result value)
| MethodN (missing : string)
| Data (v : value).

(** Calling what [getattr] returned, with no argument. *)
Definition call0 (a : attribute) : result value :=
  match a with
  | Method0 outcome => outcome
  | MethodN missing => Raise (TypeError missing)
  | Data _ => Raise (TypeError "object is not callable")
  end.

(** ** [class Authorization] *)

Module Authorization.

Record t : Type := mk {
  _password : string;
  _username : string
}.

Definition __repr__ (self : t) : string :=
  "Authorization(password=" +:+ repeat_str "*" (len (_password self))
    +:+ ", username=" +:+ _username self +:+ ")".

Definition __str__ (self : t) : string := __repr__ self.

Definition password (self : t) : string := _password self.

Definition username (self : t) : string := _username self.

Definition basic (self : t) : string :=
  "Basic "
    +:+ string_of_list_byte
          (Base64.b64encode
             (list_byte_of_string (_username self +:+ ":" +:+ _password self))).

Definition bearer (self : t) : string :=
  "Bearer " +:+ _password self.

Definition custom (self : t) (scheme : string) : string :=
  scheme +:+ " " +:+ _password self.

Definition digest (self : t) : string :=
  "Digest " +:+ _password self.

Definition oauth (self : t) : string :=
  "OAuth " +:+ _password self.

Definition oauth2 (self : t) : string :=
  "OAuth2 " +:+ _password self.

Section Dispatch.

(** The attributes an instance inherits from the built-in base class
    [object] (such as [__hash__]); the module does not define them. *)
Variable inherited : t → string → option attribute.

(** [header()] with its default argument, [scheme = "basic"]. *)
Definition header_default (self : t) : gmap string value :=
  {[ "Authorization" := VStr (basic self) ]}.

(** The attributes the module itself gives an instance: the two set by
    [__init__], then the names bound in the class body. *)
Definition namespace (self : t) : list (string * attribute) :=
  [ ("_password", Data (VStr (_password self)));
    ("_username", Data (VStr (_username self)));
    ("__init__", MethodN "password");
    ("__repr__", Method0 (Ok (VStr (__repr__ self))));
    ("__str__", Method0 (Ok (VStr (__str__ self))));
    ("password", Data (VStr (password self)));
    ("username", Data (VStr (username self)));
    ("basic", Method0 (Ok (VStr (basic self))));
    ("bearer", Method0 (Ok (VStr (bearer self))));
    ("custom", MethodN "scheme");
    ("digest", Method0 (Ok (VStr (digest self))));
    ("header", Method0 (Ok (VDict (header_default self))));
    ("oauth", Method0 (Ok (VStr (oauth self))));
    ("oauth2", Method0 (Ok (VStr (oauth2 self)))) ].

(** [getattr(self, name)]: the attributes of [namespace], then the
    inherited ones, otherwise [AttributeError]. *)
Definition getattr (self : t) (name : string) : result attribute :=
  match (list_to_map (namespace self) : gmap string attribute) !! name with
  | Some a => Ok a
  | None =>
      match inherited self name with
      | Some a => Ok a
      | None => Raise (AttributeError name)
      end
  end.

(** [return {"Authorization": getattr(self, scheme)()}] *)
Definition header (self : t) (scheme : string)
  : result (gmap string value) :=
  a ← getattr self scheme;
  v ← call0 a;
  Ok {[ "Authorization" := v ]}.

End Dispatch.

(** The schemes the annotation of [header] lists. *)
Definition schemes : list string :=
  ["basic"; "bearer"; "custom"; "digest"; "oauth"; "oauth2"].

(** The renderer behind a scheme name, for the renderers that take no
    argument. *)
Definition renderer (scheme : string) : option (t → string) :=
  if String.eqb scheme "basic" then Some basic
  else if String.eqb scheme "bearer" then Some bearer
  else if String.eqb scheme "digest" then Some digest
  else if String.eqb scheme "oauth" then Some oauth
  else if String.eqb scheme "oauth2" then Some oauth2
  else None.

End Authorization.

(** ** [class HTTPResponse] *)

Module HTTPResponse.

Record t : Type := mk {
  _body : gmap string value;
  _end : datetime;
  _headers : gmap string value;
  _message : string;
  _method : HTTPMethod.t;
  _start : datetime;
  _status : Z;
  _type : string;
  _url : string;
  _duration : Q
}.

(** [body or {}]: an absent or empty (falsy) body gives a new empty dict. *)
Definition body_or_empty (body : option (gmap string value))
  : gmap string value :=
  match body with
  | None => ∅
  | Some b =>
      match map_to_list b with
      | [] => ∅
      | _ :: _ => b
      end
  end.

Definition __init__ (end_ : datetime) (headers : gmap string value)
    (message : string) (method : HTTPMethod.t) (start : datetime)
    (status : Z) (type : string) (url : string)
    (body : option (gmap string value)) : t :=
  {| _body := body_or_empty body;
     _end := end_;
     _headers := headers;
     _message := message;
     _method := method;
     _start := start;
     _status := status;
     _type := type;
     _url := url;
     _duration := total_seconds (datetime_sub end_ start) |}.

(** [self._body.get(key, None)] *)
Definition __getitem__ (self : t) (key : string) : value :=
  default VNone (_body self !! key).

Definition body (self : t) : gmap string value := _body self.
Definition duration (self : t) : Q := _duration self.
Definition end_ (self : t) : datetime := _end self.
Definition headers (self : t) : gmap string value := _headers self.
Definition message (self : t) : string := _message self.
Definition method (self : t) : HTTPMethod.t := _method self.
Definition start (self : t) : datetime := _start self.
Definition status (self : t) : Z := _status self.
Definition type (self : t) : string := _type self.
Definition url (self : t) : string := _url self.

(** The dict display of [dict()], its entries in the order written. *)
Definition dict (self : t) : gmap string value :=
  <[ "url" := VStr (_url self) ]>
  (<[ "type" := VStr (_type self) ]>
  (<[ "status" := VInt (_status self) ]>
  (<[ "start" := VStr (strftime (_start self) "%Y-%m-%d %H:%M:%S") ]>
  (<[ "method" := VStr (HTTPMethod.value (_method self)) ]>
  (<[ "message" := VStr (_message self) ]>
  (<[ "headers" := VDict (_headers self) ]>
  (<[ "end" := VStr (strftime (_end self) "%Y-%m-%d %H:%M:%S") ]>
  (<[ "duration" := VFloat (_duration self) ]>
  (<[ "body" := VDict (_body self) ]> ∅))))))))).

Definition empty (self : t) : bool := _status self =? 204.

Definition success (self : t) : bool :=
  (200 <=? _status self) && (_status self <? 300).

End HTTPResponse.

(** ** [class HTTPResponseFactory] *)

Module HTTPResponseFactory.

Definition create_response (end_ : datetime) (headers : gmap string value)
    (message : string) (method : HTTPMethod.t) (start : datetime)
    (status : Z) (type : string) (url : string)
    (body : option (gmap string value)) : HTTPResponse.t :=
  HTTPResponse.__init__ end_ headers message method start status type url body.

End HTTPResponseFactory.

(** ** [class HTTPResponseBuilder]

    The builder is its [_configuration], a [Dict[str, Any]]; each [with_]
    method returns the builder after the assignment. *)

Module HTTPResponseBuilder.

Definition __init__ : gmap string value := ∅.

(** [self._configuration[key]] *)
Definition getitem (self : gmap string value) (key : string) : result value :=
  match self !! key with
  | Some v => Ok v
  | None => Raise (KeyError key)
  end.

(** The parameters of [create_response] are annotated; a configuration
    value of another type than the annotation is outside the typed use of
    the builder and is reported as a [TypeError]. *)
Definition as_datetime (v : value) : result datetime :=
  match v with VDatetime t => Ok t | _ => Raise (TypeError "datetime") end.

Definition as_dict (v : value) : result (gmap string value) :=
  match v with VDict d => Ok d | _ => Raise (TypeError "dict") end.

Definition as_str (v : value) : result string :=
  match v with VStr s => Ok s | _ => Raise (TypeError "str") end.

Definition as_method (v : value) : result HTTPMethod.t :=
  match v with VMethod m => Ok m | _ => Raise (TypeError "HTTPMethod") end.

Definition as_int (v : value) : result Z :=
  match v with VInt z => Ok z | _ => Raise (TypeError "int") end.

Definition build (self : gmap string value) : result HTTPResponse.t :=
  end_ ← getitem self "end";
  headers ← getitem self "headers";
  message ← getitem self "message";
  method ← getitem self "method";
  start ← getitem self "start";
  status ← getitem self "status";
  type ← getitem self "type";
  url ← getitem self "url";
  let body := default (VDict ∅) (self !! "body") in
  end_ ← as_datetime end_;
  headers ← as_dict headers;
  message ← as_str message;
  method ← as_method method;
  start ← as_datetime start;
  status ← as_int status;
  type ← as_str type;
  url ← as_str url;
  body ← as_dict body;
  Ok (HTTPResponseFactory.create_response
        end_ headers message method start status type url (Some body)).

Definition with_body (v : value) (self : gmap string value)
  : gmap string value :=
  <[ "body" := match v with
               | VDict _ => v
               | _ => VDict {[ "body" := v ]}
               end ]> self.

Definition with_end (v : datetime) (self : gmap string value)
  : gmap string value := <[ "end" := VDatetime v ]> self.

Definition with_headers (v : gmap string value) (self : gmap string value)
  : gmap string value := <[ "headers" := VDict v ]> self.

Definition with_message (v : string) (self : gmap string value)
  : gmap string value := <[ "message" := VStr v ]> self.

Definition with_method (v : HTTPMethod.t) (self : gmap string value)
  : gmap string value := <[ "method" := VMethod v ]> self.

Definition with_start (v : datetime) (self : gmap string value)
  : gmap string value := <[ "start" := VDatetime v ]> self.

Definition with_status (v : Z) (self : gmap string value)
  : gmap string value := <[ "status" := VInt v ]> self.

Definition with_type (v : string) (self : gmap string value)
  : gmap string value := <[ "type" := VStr v ]> self.

Definition with_url (v : string) (self : gmap string value)
  : gmap string value := <[ "url" := VStr v ]> self.

(** The keys [build] reads with [[]], in the order it reads them. *)
Definition required : list string :=
  ["end"; "headers"; "message"; "method"; "start"; "status"; "type"; "url"].

End HTTPResponseBuilder.

(** ** The transport: what the module uses of aiohttp

    A [ClientResponse] is given by what the module reads from it: the
    status line, the declared content type, and the outcome of each of the
    three ways of reading the body. *)

Module aiohttp.

Record ClientResponse : Type := mk_response {
  status : Z;
  reason : string;
  content_type : string;
  json : result value;
  text : result string;
  read : result (list byte)
}.

(** [ClientResponse.ok] is [400 > self.status]. *)
Definition ok (response : ClientResponse) : bool := status response <? 400.

(** [raise_for_status()] raises [ClientResponseError] when the response is
    not [ok]. *)
Definition raise_for_status (response : ClientResponse) : result unit :=
  if ok response then Ok tt
  else Raise (ClientResponseError (status response) (reason response)).

(** The arguments of one request. *)
Record request : Type := mk_request {
  req_method : HTTPMethod.t;
  req_url : string;
  req_headers : option (gmap string value);
  req_data : option (gmap string value);
  req_kwargs : gmap string value
}.

(** [getattr(session, name)] for the verb methods of [ClientSession]:
    [get], [options], [head], [post], [put], [patch] and [delete], each
    sending its own HTTP method; there is no [trace]. *)
Definition session_verb (name : string) : result HTTPMethod.t :=
  if String.eqb name "get" then Ok HTTPMethod.GET
  else if String.eqb name "options" then Ok HTTPMethod.OPTIONS
  else if String.eqb name "head" then Ok HTTPMethod.HEAD
  else if String.eqb name "post" then Ok HTTPMethod.POST
  else if String.eqb name "put" then Ok HTTPMethod.PUT
  else if String.eqb name "patch" then Ok HTTPMethod.PATCH
  else if String.eqb name "delete" then Ok HTTPMethod.DELETE
  else Raise (AttributeError name).

End aiohttp.

(** ** Effects of a verb call

    A verb call reads the clock, talks to the transport and may raise.  The
    state records how many times the clock was read and, in order, what the
    call did. *)

Inductive decoding : Type := AsJson | AsText | AsBytes.

Inductive event : Type :=
| SessionOpened
| RequestSent (rq : aiohttp.request)
| StatusChecked
| BodyRead (how : decoding)
| ResponseReleased
| SessionClosed
| ResponseConstructed (r : HTTPResponse.t).

Record world : Type := mk_world {
  clock : nat;
  log : list event
}.

Definition M (A : Type) : Type := world → result A * world.

#[global] Instance M_ret : MRet M := λ A a w, (Ok a, w).

#[global] Instance M_bind : MBind M := λ A B k m w,
  match m w with
  | (Ok a, w') => k a w'
  | (Raise e, w') => (Raise e, w')
  end.

Definition emit (e : event) : M unit :=
  λ w, (Ok tt, {| clock := clock w; log := log w ++ [e] |}).

Definition lift {A} (r : result A) : M A := λ w, (r, w).

(** Runs [m], then [e] whether [m] returned or raised: the exit of an
    [async with] block. *)
Definition finally {A} (m : M A) (e : event) : M A :=
  λ w, let '(r, w') := m w in
       (r, {| clock := clock w'; log := log w' ++ [e] |}).

(** ** [class HTTPService] *)

Module HTTPService.

Import HTTPResponseBuilder.

Section Service.

(** The successive readings of [datetime.now()]. *)
Variable now_at : nat → datetime.

(** The network: the response to a request, or a transport failure. *)
Variable transport : aiohttp.request → result aiohttp.ClientResponse.

Definition now : M datetime :=
  λ w, (Ok (now_at (clock w)), {| clock := S (clock w); log := log w |}).

(** [async with aiohttp.ClientSession() as session: ...] *)
Definition with_session {A} (block : M A) : M A :=
  _ ← emit SessionOpened;
  finally block SessionClosed.

(** [async with session.<verb>(url, ...) as response: ...] *)
Definition with_response {A} (verb : string) (url : string)
    (headers data : option (gmap string value)) (kwargs : gmap string value)
    (block : aiohttp.ClientResponse → M A) : M A :=
  method ← lift (aiohttp.session_verb verb);
  let rq := aiohttp.mk_request method url headers data kwargs in
  _ ← emit (RequestSent rq);
  response ← lift (transport rq);
  finally (block response) ResponseReleased.

Definition raise_for_status (response : aiohttp.ClientResponse) : M unit :=
  _ ← emit StatusChecked;
  lift (aiohttp.raise_for_status response).

Definition response_json (response : aiohttp.ClientResponse) : M value :=
  _ ← emit (BodyRead AsJson);
  lift (aiohttp.json response).

Definition response_text (response : aiohttp.ClientResponse) : M value :=
  _ ← emit (BodyRead AsText);
  s ← lift (aiohttp.text response);
  mret (VStr s).

Definition response_read (response : aiohttp.ClientResponse) : M value :=
  _ ← emit (BodyRead AsBytes);
  bs ← lift (aiohttp.read response);
  mret (VBytes bs).

(** [str.JSON]: the built-in type [str] has no attribute [JSON]. *)
Definition str_JSON : result string := Raise (AttributeError "JSON").

(** [builder.build()], recording the response it constructs. *)
Definition builder_build (builder : gmap string value) : M HTTPResponse.t :=
  r ← lift (build builder);
  _ ← emit (ResponseConstructed r);
  mret r.

Definition _handle_content_type (content_type : string)
    (response : aiohttp.ClientResponse) : M value :=
  if String.eqb content_type "application/json" then response_json response
  else if String.eqb content_type "application/xml" then response_text response
  else if String.eqb content_type "application/octet-stream" then
    response_read response
  else if String.prefix "image/" content_type then response_read response
  else response_text response.

Definition get (url : string) (kwargs : gmap string value)
  : M HTTPResponse.t :=
  let builder := __init__ in
  let builder := with_method HTTPMethod.GET builder in
  let builder := with_url url builder in
  let builder := with_headers ∅ builder in
  t0 ← now;
  let builder := with_start t0 builder in
  builder ← with_session
    (with_response "get" url None None kwargs
       (λ response,
          _ ← raise_for_status response;
          let builder := with_status (aiohttp.status response) builder in
          let builder := with_message (aiohttp.reason response) builder in
          let builder := with_type (aiohttp.content_type response) builder in
          body ← _handle_content_type (aiohttp.content_type response) response;
          let builder := with_body body builder in
          t1 ← now;
          mret (with_end t1 builder)));
  builder_build builder.

Definition post (url : string) (data headers kwargs : gmap string value)
  : M HTTPResponse.t :=
  let builder := __init__ in
  let builder := with_method HTTPMethod.POST builder in
  let builder := with_url url builder in
  let builder := with_headers headers builder in
  t0 ← now;
  let builder := with_start t0 builder in
  builder ← with_session
    (with_response "post" url (Some headers) (Some data) kwargs
       (λ response,
          _ ← raise_for_status response;
          let builder := with_status (aiohttp.status response) builder in
          type ← lift str_JSON;
          let builder := with_type type builder in
          let builder := with_message (aiohttp.reason response) builder in
          body ← _handle_content_type (aiohttp.content_type response) response;
          let builder := with_body body builder in
          t1 ← now;
          mret (with_end t1 builder)));
  builder_build builder.

Definition put (url : string) (data headers kwargs : gmap string value)
  : M HTTPResponse.t :=
  let builder := __init__ in
  let builder := with_method HTTPMethod.PUT builder in
  let builder := with_url url builder in
  let builder := with_headers headers builder in
  t0 ← now;
  let builder := with_start t0 builder in
  builder ← with_session
    (with_response "put" url (Some headers) (Some data) kwargs
       (λ response,
          _ ← raise_for_status response;
          let builder := with_status (aiohttp.status response) builder in
          type ← lift str_JSON;
          let builder := with_type type builder in
          let builder := with_message (aiohttp.reason response) builder in
          body ← _handle_content_type (aiohttp.content_type response) response;
          let builder := with_body body builder in
          t1 ← now;
          mret (with_end t1 builder)));
  builder_build builder.

Definition delete (url : string) (data headers kwargs : gmap string value)
  : M HTTPResponse.t :=
  let builder := __init__ in
  let builder := with_method HTTPMethod.DELETE builder in
  let builder := with_url url builder in
  let builder := with_headers headers builder in
  t0 ← now;
  let builder := with_start t0 builder in
  builder ← with_session
    (with_response "delete" url (Some headers) (Some data) kwargs
       (λ response,
          _ ← raise_for_status response;
          let builder := with_status (aiohttp.status response) builder in
          type ← lift str_JSON;
          let builder := with_type type builder in
          let builder := with_message (aiohttp.reason response) builder in
          body ← _handle_content_type (aiohttp.content_type response) response;
          let builder := with_body body builder in
          t1 ← now;
          mret (with_end t1 builder)));
  builder_build builder.

Definition patch (url : string) (data headers kwargs : gmap string value)
  : M HTTPResponse.t :=
  let builder := __init__ in
  let builder := with_method HTTPMethod.PATCH builder in
  let builder := with_url url builder in
  let builder := with_headers headers builder in
  t0 ← now;
  let builder := with_start t0 builder in
  builder ← with_session
    (with_response "patch" url (Some headers) (Some data) kwargs
       (λ response,
          _ ← raise_for_status response;
          let builder := with_status (aiohttp.status response) builder in
          type ← lift str_JSON;
          let builder := with_type type builder in
          let builder := with_message (aiohttp.reason response) builder in
          body ← _handle_content_type (aiohttp.content_type response) response;
          let builder := with_body body builder in
          t1 ← now;
          mret (with_end t1 builder)));
  builder_build builder.

Definition options (url : string) (headers kwargs : gmap string value)
  : M HTTPResponse.t :=
  let builder := __init__ in
  let builder := with_method HTTPMethod.OPTIONS builder in
  let builder := with_url url builder in
  let builder := with_headers headers builder in
  t0 ← now;
  let builder := with_start t0 builder in
  builder ← with_session
    (with_response "options" url (Some headers) None kwargs
       (λ response,
          _ ← raise_for_status response;
          let builder := with_status (aiohttp.status response) builder in
          type ← lift str_JSON;
          let builder := with_type type builder in
          let builder := with_message (aiohttp.reason response) builder in
          body ← _handle_content_type (aiohttp.content_type response) response;
          let builder := with_body body builder in
          t1 ← now;
          mret (with_end t1 builder)));
  builder_build builder.

(** [trace] sets no headers on the builder. *)
Definition trace (url : string) (kwargs : gmap string value)
  : M HTTPResponse.t :=
  let builder := __init__ in
  let builder := with_method HTTPMethod.TRACE builder in
  let builder := with_url url builder in
  t0 ← now;
  let builder := with_start t0 builder in
  builder ← with_session
    (with_response "trace" url None None kwargs
       (λ response,
          _ ← raise_for_status response;
          let builder := with_status (aiohttp.status response) builder in
          type ← lift str_JSON;
          let builder := with_type type builder in
          let builder := with_message (aiohttp.reason response) builder in
          body ← _handle_content_type (aiohttp.content_type response) response;
          let builder := with_body body builder in
          t1 ← now;
          mret (with_end t1 builder)));
  builder_build builder.

End Service.

End HTTPService.

(** The state a verb call starts from. *)
Definition initial_world : world := {| clock := 0; log := [] |}.

(** ** Comparing datetimes

    [datetime.__lt__] and the other comparisons, on two naive datetimes,
    compare the tuples (year, month, day, hour, minute, second,
    microsecond). *)

Fixpoint tuple_cmp (a b : list Z) : comparison :=
  match a, b with
  | [], [] => Eq
  | [], _ :: _ => Lt
  | _ :: _, [] => Gt
  | x :: a', y :: b' =>
      match x ?= y with
      | Eq => tuple_cmp a' b'
      | c => c
      end
  end.

Definition datetime_tuple (t : datetime) : list Z :=
  [year t; month t; day t; hour t; minute t; second t; microsecond t].

Definition datetime_cmp (a b : datetime) : comparison :=
  tuple_cmp (datetime_tuple a) (datetime_tuple b).

Definition datetime_lt (a b : datetime) : bool :=
  match datetime_cmp a b with Lt => true | _ => false end.

Definition datetime_eq (a b : datetime) : bool :=
  match datetime_cmp a b with Eq => true | _ => false end.

(** ** [class HeaderBuilder]

    [add] changes the builder's dict in place and [build] returns that very
    dict, not a copy.  Dict objects therefore live in a store, and a
    builder holds the address of its [_configuration]. *)

Module HeaderBuilder.

Record t : Type := mk {
  _configuration : nat
}.

(** [self._configuration = {}]: a new, empty dict. *)
Definition __init__ (s : gmap nat (gmap string string))
  : t * gmap nat (gmap string string) :=
  let address := fresh (dom s) in
  ({| _configuration := address |}, <[ address := ∅ ]> s).

(** [self._configuration[key] = value; return self] *)
Definition add (self : t) (key value : string)
    (s : gmap nat (gmap string string))
  : t * gmap nat (gmap string string) :=
  (self, alter (λ d, <[ key := value ]> d) (_configuration self) s).

(** [return self._configuration] *)
Definition build (self : t) (s : gmap nat (gmap string string))
  : nat * gmap nat (gmap string string) :=
  (_configuration self, s).

End HeaderBuilder.

(** ** [class URLBuilder] *)

Module URLBuilder.

(** [self._configuration = {"url": url}] *)
Definition __init__ (url : string) : gmap string string :=
  {[ "url" := url ]}.

(** [return f"{self._configuration['url']}/{value}"] *)
Definition with_endpoint (self : gmap string string) (v : string)
  : result string :=
  match self !! "url" with
  | Some url => Ok (url +:+ "/" +:+ v)
  | None => Raise (KeyError "url")
  end.

End URLBuilder.

(** ** Vocabulary of the properties *)

(** The verbs [HTTPService] has a function for. *)
Definition service_verbs : list HTTPMethod.t :=
  [HTTPMethod.GET; HTTPMethod.POST; HTTPMethod.PUT; HTTPMethod.DELETE;
   HTTPMethod.PATCH; HTTPMethod.OPTIONS; HTTPMethod.TRACE].

(** The wire tokens of the members, in declaration order. *)
Definition wire_tokens : list string :=
  ["GET"; "POST"; "PUT"; "DELETE"; "PATCH"; "HEAD"; "OPTIONS"; "TRACE"].

(** The Gregorian calendar, by its rules: a year is a leap year when it is a
    multiple of 400, or a multiple of 4 that is not a multiple of 100;
    February has 29 days in a leap year and 28 otherwise. *)
Definition leap_year (y : Z) : bool :=
  if y mod 400 =? 0 then true
  else if y mod 100 =? 0 then false
  else y mod 4 =? 0.

Definition month_length (y m : Z) : Z :=
  match m with
  | 1 | 3 | 5 | 7 | 8 | 10 | 12 => 31
  | 4 | 6 | 9 | 11 => 30
  | 2 => if leap_year y then 29 else 28
  | _ => 0
  end.

Definition year_length (y : Z) : Z := if leap_year y then 366 else 365.

(** The days of the years 1 to [n], and of the months 1 to [n] of year
    [y]. *)
Fixpoint days_in_years (n : nat) : Z :=
  match n with
  | O => 0
  | S k => days_in_years k + year_length (Z.of_nat n)
  end.

Fixpoint days_in_months (y : Z) (n : nat) : Z :=
  match n with
  | O => 0
  | S k => days_in_months y k + month_length y (Z.of_nat n)
  end.

(** The number of a day, counting 0001-01-01 as day 1: the days of the
    years and of the months gone by, and the day of the month. *)
Definition day_number (t : datetime) : Z :=
  days_in_years (Z.to_nat (year t - 1))
  + days_in_months (year t) (Z.to_nat (month t - 1))
  + day t.

(** The instant of a datetime, in microseconds, counted from the start of
    the day before 0001-01-01. *)
Definition instant (t : datetime) : Z :=
  (((day_number t * 24 + hour t) * 60 + minute t) * 60 + second t) * 1000000
  + microsecond t.

(** The binary64 numbers: a significand of at most 53 bits times a power of
    two within the exponent range of the format. *)
Definition is_double (q : Q) : Prop :=
  ∃ m e : Z, Z.abs m < 2 ^ 53 ∧ -1074 <= e <= 971
             ∧ (q == inject_Z m * 2 ^ e)%Q.

Definition is_digit (c : ascii) : bool :=
  (48 <=? Z.of_N (N_of_ascii c)) && (Z.of_N (N_of_ascii c) <=? 57).

(** The shape [YYYY-MM-DD HH:MM:SS]: nineteen characters, digits except for
    the two dashes, the space and the two colons. *)
Definition timestamp_pattern (s : string) : bool :=
  match list_ascii_of_string s with
  | [y1; y2; y3; y4; a; m1; m2; b; d1; d2; c; h1; h2; d; n1; n2; e; s1; s2] =>
      forallb is_digit
        [y1; y2; y3; y4; m1; m2; d1; d2; h1; h2; n1; n2; s1; s2]
      && Ascii.eqb a "-" && Ascii.eqb b "-" && Ascii.eqb c " "
      && Ascii.eqb d ":" && Ascii.eqb e ":"
  | _ => false
  end.

(** The number a string of decimal digits denotes. *)
Definition digits_value (s : string) : Z :=
  fold_left (λ acc c, acc * 10 + (Z.of_N (N_of_ascii c) - 48))
            (list_ascii_of_string s) 0.

Definition all_digits (s : string) : bool :=
  forallb is_digit (list_ascii_of_string s).

(** [s] writes [n] on exactly [width] decimal digits. *)
Definition numeral (width : nat) (n : Z) (s : string) : Prop :=
  String.length s = width ∧ all_digits s = true ∧ digits_value s = n.

(** [s] writes [n] in decimal without leading zeros. *)
Definition plain_numeral (n : Z) (s : string) : Prop :=
  all_digits s = true ∧ digits_value s = n
  ∧ (1 <= String.length s)%nat ∧ String.prefix "0" s = false.

(** [s] gives the date and time of [t] down to the second: the year as a
    plain number, the other fields on two digits each. *)
Definition rendered_to_the_second (t : datetime) (s : string) : Prop :=
  ∃ Y m d H M S : string,
    s = Y +:+ "-" +:+ m +:+ "-" +:+ d +:+ " " +:+ H +:+ ":" +:+ M
        +:+ ":" +:+ S
    ∧ plain_numeral (year t) Y
    ∧ numeral 2 (month t) m ∧ numeral 2 (day t) d
    ∧ numeral 2 (hour t) H ∧ numeral 2 (minute t) M
    ∧ numeral 2 (second t) S.

(** The calls a client can make on a builder, and the builder after a
    sequence of them. *)
Inductive setter : Type :=
| WithBody (v : value)
| WithEnd (v : datetime)
| WithHeaders (v : gmap string value)
| WithMessage (v : string)
| WithMethod (v : HTTPMethod.t)
| WithStart (v : datetime)
| WithStatus (v : Z)
| WithType (v : string)
| WithUrl (v : string).

Definition apply_setter (self : gmap string value) (c : setter)
  : gmap string value :=
  match c with
  | WithBody v => HTTPResponseBuilder.with_body v self
  | WithEnd v => HTTPResponseBuilder.with_end v self
  | WithHeaders v => HTTPResponseBuilder.with_headers v self
  | WithMessage v => HTTPResponseBuilder.with_message v self
  | WithMethod v => HTTPResponseBuilder.with_method v self
  | WithStart v => HTTPResponseBuilder.with_start v self
  | WithStatus v => HTTPResponseBuilder.with_status v self
  | WithType v => HTTPResponseBuilder.with_type v self
  | WithUrl v => HTTPResponseBuilder.with_url v self
  end.

Definition configured (calls : list setter) : gmap string value :=
  fold_left apply_setter calls HTTPResponseBuilder.__init__.

(** The type the setter of a key stores under it. *)
Definition has_annotated_type (key : string) (v : value) : Prop :=
  if String.eqb key "body" then ∃ d, v = VDict d
  else if String.eqb key "end" then ∃ t, v = VDatetime t
  else if String.eqb key "headers" then ∃ d, v = VDict d
  else if String.eqb key "message" then ∃ s, v = VStr s
  else if String.eqb key "method" then ∃ m, v = VMethod m
  else if String.eqb key "start" then ∃ t, v = VDatetime t
  else if String.eqb key "status" then ∃ z, v = VInt z
  else if String.eqb key "type" then ∃ s, v = VStr s
  else if String.eqb key "url" then ∃ s, v = VStr s
  else False.

Definition well_typed (self : gmap string value) : Prop :=
  ∀ key v, self !! key = Some v → has_annotated_type key v.

(** The first required key a configuration lacks, in the order [build]
    reads them. *)
Definition first_missing (self : gmap string value) : option string :=
  find (λ key, match self !! key with None => true | Some _ => false end)
       HTTPResponseBuilder.required.

(** Content-type dispatch as the specification words it. *)
Definition spec_strategy (content_type : string) : decoding :=
  if String.eqb content_type "application/json" then AsJson
  else if String.eqb content_type "application/xml" then AsText
  else if String.eqb content_type "application/octet-stream"
          || String.prefix "image/" content_type then AsBytes
  else AsText.

(** What a decoding makes of a response. *)
Definition decoded (how : decoding) (response : aiohttp.ClientResponse)
  : result value :=
  match how with
  | AsJson => aiohttp.json response
  | AsText => VStr <$> aiohttp.text response
  | AsBytes => VBytes <$> aiohttp.read response
  end.

(** What [with_body] stores for a value. *)
Definition stored_body (v : value) : gmap string value :=
  match v with
  | VDict d => d
  | _ => {[ "body" := v ]}
  end.

(** The seven entry points with their arguments. *)
Inductive verb_call : Type :=
| Get (url : string) (kwargs : gmap string value)
| Post (url : string) (data headers kwargs : gmap string value)
| Put (url : string) (data headers kwargs : gmap string value)
| Delete (url : string) (data headers kwargs : gmap string value)
| Patch (url : string) (data headers kwargs : gmap string value)
| Options (url : string) (headers kwargs : gmap string value)
| Trace (url : string) (kwargs : gmap string value).

Definition run_call (now_at : nat → datetime)
    (transport : aiohttp.request → result aiohttp.ClientResponse)
    (c : verb_call) : M HTTPResponse.t :=
  match c with
  | Get url kwargs => HTTPService.get now_at transport url kwargs
  | Post url data headers kwargs =>
      HTTPService.post now_at transport url data headers kwargs
  | Put url data headers kwargs =>
      HTTPService.put now_at transport url data headers kwargs
  | Delete url data headers kwargs =>
      HTTPService.delete now_at transport url data headers kwargs
  | Patch url data headers kwargs =>
      HTTPService.patch now_at transport url data headers kwargs
  | Options url headers kwargs =>
      HTTPService.options now_at transport url headers kwargs
  | Trace url kwargs => HTTPService.trace now_at transport url kwargs
  end.

(** The request a verb call hands to the session; [trace] reaches no
    request, the session having no such method. *)
Definition request_of (c : verb_call) : option aiohttp.request :=
  match c with
  | Get url kwargs =>
      Some (aiohttp.mk_request HTTPMethod.GET url None None kwargs)
  | Post url data headers kwargs =>
      Some (aiohttp.mk_request HTTPMethod.POST url (Some headers) (Some data) kwargs)
  | Put url data headers kwargs =>
      Some (aiohttp.mk_request HTTPMethod.PUT url (Some headers) (Some data) kwargs)
  | Delete url data headers kwargs =>
      Some (aiohttp.mk_request HTTPMethod.DELETE url (Some headers) (Some data) kwargs)
  | Patch url data headers kwargs =>
      Some (aiohttp.mk_request HTTPMethod.PATCH url (Some headers) (Some data) kwargs)
  | Options url headers kwargs =>
      Some (aiohttp.mk_request HTTPMethod.OPTIONS url (Some headers) None kwargs)
  | Trace _ _ => None
  end.

Definition is_body_read (e : event) : bool :=
  match e with BodyRead _ => true | _ => false end.

Definition is_constructed (e : event) : bool :=
  match e with ResponseConstructed _ => true | _ => false end.

(** The state after [ticks] more readings of the clock and the events
    [es]. *)
Definition logged (w : world) (ticks : nat) (es : list event) : world :=
  {| clock := ticks + clock w; log := log w ++ es |}.

(** What a verb call that stops at [str.JSON] comes to: the transport's
    failure, the status error, or the [AttributeError] of [str.JSON]. *)
Definition stops_at_type
    (transport : aiohttp.request → result aiohttp.ClientResponse)
    (rq : aiohttp.request) (w : world) : result HTTPResponse.t * world :=
  match transport rq with
  | Raise e => (Raise e, logged w 1 [SessionOpened; RequestSent rq; SessionClosed])
  | Ok response =>
      (if aiohttp.ok response then Raise (AttributeError "JSON")
       else Raise (ClientResponseError (aiohttp.status response)
                     (aiohttp.reason response)),
       logged w 1 [SessionOpened; RequestSent rq; StatusChecked;
                   ResponseReleased; SessionClosed])
  end.

(** The key a setter writes and the value it stores there. *)
Definition setter_key (c : setter) : string :=
  match c with
  | WithBody _ => "body"
  | WithEnd _ => "end"
  | WithHeaders _ => "headers"
  | WithMessage _ => "message"
  | WithMethod _ => "method"
  | WithStart _ => "start"
  | WithStatus _ => "status"
  | WithType _ => "type"
  | WithUrl _ => "url"
  end.

Definition setter_value (c : setter) : value :=
  match c with
  | WithBody v => VDict (stored_body v)
  | WithEnd v => VDatetime v
  | WithHeaders v => VDict v
  | WithMessage v => VStr v
  | WithMethod v => VMethod v
  | WithStart v => VDatetime v
  | WithStatus v => VInt v
  | WithType v => VStr v
  | WithUrl v => VStr v
  end.

(** What the last call for [key] stored, if there was one. *)
Fixpoint last_set (key : string) (calls : list setter) : option value :=
  match calls with
  | [] => None
  | c :: rest =>
      match last_set key rest with
      | Some v => Some v
      | None =>
          if String.eqb (setter_key c) key then Some (setter_value c)
          else None
      end
  end.

(** A chain of [add] calls on a header builder, and what the last call
    for [key] gave. *)
Definition add_all (self : HeaderBuilder.t) (adds : list (string * string))
    (s : gmap nat (gmap string string))
  : HeaderBuilder.t * gmap nat (gmap string string) :=
  fold_left (λ bs kv, HeaderBuilder.add bs.1 kv.1 kv.2 bs.2) adds (self, s).

Fixpoint last_added (key : string) (adds : list (string * string))
  : option string :=
  match adds with
  | [] => None
  | (k, v) :: rest =>
      match last_added key rest with
      | Some v' => Some v'
      | None => if String.eqb k key then Some v else None
      end
  end.

Definition is_opened (e : event) : bool :=
  match e with SessionOpened => true | _ => false end.

Definition is_closed (e : event) : bool :=
  match e with SessionClosed => true | _ => false end.

Definition is_request (e : event) : bool :=
  match e with RequestSent _ => true | _ => false end.

Definition is_released (e : event) : bool :=
  match e with ResponseReleased => true | _ => false end.

(** No colon in a text. *)
Definition colon_free (s : string) : bool :=
  forallb (λ c, negb (Ascii.eqb c ":")) (list_ascii_of_string s).

(** * Properties *)

(** ** Bytes *)

Lemma byte_val_range (b : byte) : 0 <= byte_val b < 256.
Proof.
  unfold byte_val. pose proof (Byte.to_N_bounded b). lia.
Qed.

Lemma byte_of_val_byte_val (b : byte) : byte_of_val (byte_val b) = b.
Proof.
  unfold byte_of_val, byte_val.
  rewrite N2Z.id, Byte.of_to_N. reflexivity.
Qed.

Lemma length_list_byte_of_string (s : string) :
  length (list_byte_of_string s) = String.length s.
Proof.
  induction s as [|c s IH]; [reflexivity|].
  cbn. f_equal. exact IH.
Qed.

(** ** Base64 *)

Section Base64Facts.

Import Base64.

Lemma sextet_cases (n : Z) :
  0 <= n < 64 → ∃ k : nat, (k < 64)%nat ∧ n = Z.of_nat k.
Proof.
  intros Hn. exists (Z.to_nat n). split; lia.
Qed.

Lemma index_char (n : Z) : 0 <= n < 64 → index (char n) = Some n.
Proof.
  intros Hn. destruct (sextet_cases n Hn) as (k & Hk & ->).
  do 64 (destruct k as [|k]; [vm_compute; reflexivity|]). lia.
Qed.

Lemma char_not_pad (n : Z) : 0 <= n < 64 → Byte.eqb (char n) pad = false.
Proof.
  intros Hn. destruct (sextet_cases n Hn) as (k & Hk & ->).
  do 64 (destruct k as [|k]; [vm_compute; reflexivity|]). lia.
Qed.

Lemma char_in_alphabet (n : Z) : 0 <= n < 64 → In (char n) alphabet.
Proof.
  intros Hn. unfold char. apply nth_In.
  change (length alphabet) with 64%nat. lia.
Qed.

(** The four 6-bit values of a group are in range. *)
Lemma sextets_range (a b c : Z) :
  0 <= a < 256 → 0 <= b < 256 → 0 <= c < 256 →
  0 <= a / 4 < 64
  ∧ 0 <= a mod 4 * 16 + b / 16 < 64
  ∧ 0 <= b mod 16 * 4 + c / 64 < 64
  ∧ 0 <= c mod 64 < 64
  ∧ 0 <= a mod 4 * 16 < 64
  ∧ 0 <= b mod 16 * 4 < 64.
Proof.
  intros Ha Hb Hc.
  pose proof (Z.div_mod a 4). pose proof (Z.mod_pos_bound a 4).
  pose proof (Z.div_mod b 16). pose proof (Z.mod_pos_bound b 16).
  pose proof (Z.div_mod c 64). pose proof (Z.mod_pos_bound c 64).
  lia.
Qed.

(** Putting the 6-bit values together gives the bytes back. *)
Lemma sextets_join (a b c : Z) :
  0 <= a < 256 → 0 <= b < 256 → 0 <= c < 256 →
  a / 4 * 4 + (a mod 4 * 16 + b / 16) / 16 = a
  ∧ (a mod 4 * 16 + b / 16) mod 16 * 16 + (b mod 16 * 4 + c / 64) / 4 = b
  ∧ (b mod 16 * 4 + c / 64) mod 4 * 64 + c mod 64 = c
  ∧ a / 4 * 4 + (a mod 4 * 16) / 16 = a
  ∧ (a mod 4 * 16 + b / 16) mod 16 * 16 + (b mod 16 * 4) / 4 = b.
Proof.
  intros Ha Hb Hc. repeat split; Z.div_mod_to_equations; lia.
Qed.

Lemma quad_full (x y z : byte) :
  let a := byte_val x in
  let b := byte_val y in
  let c := byte_val z in
  quad (char (a / 4)) (char (a mod 4 * 16 + b / 16))
       (char (b mod 16 * 4 + c / 64)) (char (c mod 64))
  = Some [x; y; z].
Proof.
  intros a b c.
  destruct (sextets_range a b c) as (H1 & H2 & H3 & H4 & _);
    try apply byte_val_range.
  destruct (sextets_join a b c) as (J1 & J2 & J3 & _);
    try apply byte_val_range.
  unfold quad.
  rewrite !index_char by assumption. cbn [mbind option_bind].
  rewrite !char_not_pad by assumption.
  rewrite J1, J2, J3. subst a b c.
  rewrite !byte_of_val_byte_val. reflexivity.
Qed.

Lemma quad_two (x y : byte) :
  let a := byte_val x in
  let b := byte_val y in
  quad (char (a / 4)) (char (a mod 4 * 16 + b / 16))
       (char (b mod 16 * 4)) pad
  = Some [x; y].
Proof.
  intros a b.
  destruct (sextets_range a b 0) as (H1 & H2 & _ & _ & _ & H6);
    try apply byte_val_range; try lia.
  destruct (sextets_join a b 0) as (J1 & _ & _ & _ & J5);
    try apply byte_val_range; try lia.
  unfold quad.
  rewrite !index_char by assumption. cbn [mbind option_bind].
  rewrite !char_not_pad by assumption.
  change (Byte.eqb pad pad) with true. cbn iota.
  rewrite J1, J5. subst a b.
  rewrite !byte_of_val_byte_val. reflexivity.
Qed.

Lemma quad_one (x : byte) :
  let a := byte_val x in
  quad (char (a / 4)) (char (a mod 4 * 16)) pad pad = Some [x].
Proof.
  intros a.
  destruct (sextets_range a 0 0) as (H1 & _ & _ & _ & H5 & _);
    try apply byte_val_range; try lia.
  destruct (sextets_join a 0 0) as (_ & _ & _ & J4 & _);
    try apply byte_val_range; try lia.
  unfold quad.
  rewrite !index_char by assumption. cbn [mbind option_bind].
  change (Byte.eqb pad pad) with true. cbn iota.
  rewrite J4. subst a.
  rewrite !byte_of_val_byte_val. reflexivity.
Qed.

(** Induction over a byte string three bytes at a time. *)
Lemma list_ind3 {A} (P : list A → Prop) :
  P [] → (∀ x, P [x]) → (∀ x y, P [x; y]) →
  (∀ x y z l, P l → P (x :: y :: z :: l)) →
  ∀ l, P l.
Proof.
  intros H0 H1 H2 H3.
  assert (∀ l, P l ∧ (∀ x, P (x :: l)) ∧ (∀ x y, P (x :: y :: l))) as H.
  { induction l as [|z l (IH0 & IH1 & IH2)]; [auto|].
    split; [apply IH1|]. split; [intros; apply IH2|].
    intros x y. apply H3, IH0. }
  intros l. apply H.
Qed.

Lemma b64decode_b64encode (bs : list byte) :
  b64decode (b64encode bs) = Some bs.
Proof.
  induction bs as [| x | x y | x y z l IH] using list_ind3.
  - reflexivity.
  - cbn [b64encode b64decode]. rewrite quad_one. reflexivity.
  - cbn [b64encode b64decode]. rewrite quad_two. reflexivity.
  - cbn [b64encode b64decode]. rewrite quad_full.
    cbn [mbind option_bind].
    rewrite char_not_pad
      by (apply (sextets_range 0 0 (byte_val z));
          try apply byte_val_range; lia).
    rewrite IH. reflexivity.
Qed.

(** Only characters of the standard alphabet and the padding character
    are produced. *)
Lemma b64encode_alphabet (bs : list byte) :
  Forall (λ c, In c alphabet ∨ c = pad) (b64encode bs).
Proof.
  induction bs as [| x | x y | x y z l IH] using list_ind3;
    cbn [b64encode].
  - constructor.
  - destruct (sextets_range (byte_val x) 0 0)
      as (H1 & _ & _ & _ & H5 & _); try apply byte_val_range; try lia.
    repeat (constructor; [first [left; apply char_in_alphabet; assumption
                                | right; reflexivity]|]).
    constructor.
  - destruct (sextets_range (byte_val x) (byte_val y) 0)
      as (H1 & H2 & _ & _ & _ & H6); try apply byte_val_range; try lia.
    repeat (constructor; [first [left; apply char_in_alphabet; assumption
                                | right; reflexivity]|]).
    constructor.
  - destruct (sextets_range (byte_val x) (byte_val y) (byte_val z))
      as (H1 & H2 & H3 & H4 & _); try apply byte_val_range.
    repeat (constructor; [left; apply char_in_alphabet; assumption|]).
    exact IH.
Qed.

(** Padding is kept: the output has four characters for every started
    group of three bytes. *)
Lemma b64encode_length (bs : list byte) :
  Z.of_nat (length (b64encode bs)) = 4 * ((Z.of_nat (length bs) + 2) / 3).
Proof.
  induction bs as [| x | x y | x y z l IH] using list_ind3;
    try reflexivity.
  cbn [b64encode length]. rewrite !Nat2Z.inj_succ, IH.
  Z.div_mod_to_equations. lia.
Qed.

End Base64Facts.

(** ** Authorization *)

(** C6.  For every username and password, [basic()] is the text ["Basic "]
    followed by the standard base64 encoding, padding kept, of the UTF-8
    bytes of [username:password]; decoding that suffix gives the bytes of
    [username:password] back, and so the text itself. *)
Theorem basic_is_base64_of_credentials (username password : string) :
  let self := Authorization.mk password username in
  let credentials := username +:+ ":" +:+ password in
  let suffix :=
    string_of_list_byte (Base64.b64encode (list_byte_of_string credentials)) in
  Authorization.basic self = "Basic " +:+ suffix
  ∧ Forall (λ c, In c Base64.alphabet ∨ c = Base64.pad)
           (list_byte_of_string suffix)
  ∧ Z.of_nat (String.length suffix)
    = 4 * ((Z.of_nat (String.length credentials) + 2) / 3)
  ∧ Base64.b64decode (list_byte_of_string suffix)
    = Some (list_byte_of_string credentials)
  ∧ string_of_list_byte <$> Base64.b64decode (list_byte_of_string suffix)
    = Some credentials.
Proof.
  intros self credentials suffix. subst suffix.
  rewrite list_byte_of_string_of_list_byte.
  split; [reflexivity|].
  split; [apply b64encode_alphabet|].
  split.
  { rewrite <- (length_list_byte_of_string credentials).
    rewrite <- b64encode_length.
    rewrite <- (length_list_byte_of_string (string_of_list_byte _)).
    rewrite list_byte_of_string_of_list_byte. reflexivity. }
  rewrite b64decode_b64encode.
  split; [reflexivity|].
  cbn. rewrite string_of_list_byte_of_string. reflexivity.
Qed.

Section AuthorizationFacts.

Import Authorization.

Variable inherited : t → string → option attribute.

Lemma header_custom (self : t) :
  header inherited self "custom" = Raise (TypeError "scheme").
Proof. reflexivity. Qed.

Lemma getattr_unknown (self : t) (name : string) :
  name ∉ (namespace self).*1 → inherited self name = None →
  getattr inherited self name = Raise (AttributeError name).
Proof.
  intros Hname Hinh. unfold getattr.
  rewrite (not_elem_of_list_to_map_1 _ _ Hname), Hinh. reflexivity.
Qed.

Lemma renderer_cases (scheme : string) (render : t → string) :
  renderer scheme = Some render →
  (scheme = "basic" ∧ render = basic)
  ∨ (scheme = "bearer" ∧ render = bearer)
  ∨ (scheme = "digest" ∧ render = digest)
  ∨ (scheme = "oauth" ∧ render = oauth)
  ∨ (scheme = "oauth2" ∧ render = oauth2).
Proof.
  unfold renderer.
  repeat match goal with
         | |- context [String.eqb scheme ?lit] =>
             destruct (String.eqb_spec scheme lit) as [->|_];
             [intros H; injection H as <-; tauto|]
         end.
  intros H. discriminate H.
Qed.

End AuthorizationFacts.

(** C1 (amended).  For every scheme among basic, bearer, digest, oauth and
    oauth2, [header(scheme)] is the single-entry mapping from
    ["Authorization"] to the value of the scheme's renderer; for every name
    that is no attribute of the object, [header] fails with an
    [AttributeError] that carries the name. *)
Theorem header_dispatch
    (inherited : Authorization.t → string → option attribute)
    (self : Authorization.t) (scheme : string) :
  (∀ render, Authorization.renderer scheme = Some render →
     Authorization.header inherited self scheme
     = Ok {[ "Authorization" := VStr (render self) ]})
  ∧ (scheme ∉ (Authorization.namespace self).*1 →
     inherited self scheme = None →
     Authorization.header inherited self scheme
     = Raise (AttributeError scheme)).
Proof.
  split.
  - intros render Hr.
    destruct (renderer_cases _ _ Hr)
      as [[-> ->]|[[-> ->]|[[-> ->]|[[-> ->]|[-> ->]]]]]; reflexivity.
  - intros Hname Hinh. unfold Authorization.header.
    rewrite getattr_unknown by assumption. reflexivity.
Qed.

Lemma header_dispatch_witness :
  Authorization.header (λ _ _, None) (Authorization.mk "pw" "user") "bearer"
  = Ok {[ "Authorization" := VStr "Bearer pw" ]}
  ∧ Authorization.header (λ _ _, None) (Authorization.mk "pw" "user") "token"
    = Raise (AttributeError "token").
Proof.
  split.
  - apply (proj1 (header_dispatch (λ _ _, None)
                    (Authorization.mk "pw" "user") "bearer")
             Authorization.bearer).
    reflexivity.
  - apply (proj2 (header_dispatch (λ _ _, None)
                    (Authorization.mk "pw" "user") "token")).
    + vm_compute. intros H. repeat (inversion H as [|? ? ? H']; clear H; rename H' into H).
    + reflexivity.
Defined.

(** C1, as stated, fails: [header] is not among the six schemes, yet
    [header("header")] returns a mapping. *)
Lemma header_accepts_attribute_names :
  ¬ In "header" Authorization.schemes
  ∧ Authorization.header (λ _ _, None) (Authorization.mk "pw" "user") "header"
    = Ok {[ "Authorization" :=
              VDict {[ "Authorization" := VStr "Basic dXNlcjpwdw==" ]} ]}.
Proof.
  split.
  - cbn. intros H. repeat destruct H as [H|H]; try discriminate H. exact H.
  - reflexivity.
Qed.

(** ** HTTPMethod *)

Lemma call_value (m : HTTPMethod.t) :
  HTTPMethod.call (HTTPMethod.value m) = Ok m.
Proof. destruct m; reflexivity. Qed.

Lemma call_unknown (v : string) :
  ¬ In v wire_tokens → HTTPMethod.call v = Raise (ValueError v).
Proof.
  intros Hv. unfold HTTPMethod.call, HTTPMethod.members. cbn [find].
  repeat match goal with
         | |- context [String.eqb (HTTPMethod.value ?m) v] =>
             destruct (String.eqb_spec (HTTPMethod.value m) v) as [<-|_];
             [exfalso; apply Hv; cbn; tauto|]
         end.
  reflexivity.
Qed.

(** C9 (amended).  [HTTPMethod] is a closed enumeration of eight members,
    the seven verbs [HTTPService] serves and [HEAD]; each member's string
    is its wire token, the token gives the member back, and no other value
    makes a member. *)
Theorem HTTPMethod_closed_enumeration :
  (∀ m : HTTPMethod.t, In m HTTPMethod.members)
  ∧ NoDup HTTPMethod.members
  ∧ length HTTPMethod.members = 8%nat
  ∧ (∀ m : HTTPMethod.t, In m service_verbs ∨ m = HTTPMethod.HEAD)
  ∧ map HTTPMethod.__str__ HTTPMethod.members = wire_tokens
  ∧ (∀ m : HTTPMethod.t, HTTPMethod.call (HTTPMethod.__str__ m) = Ok m)
  ∧ (∀ v : string, ¬ In v wire_tokens →
       HTTPMethod.call v = Raise (ValueError v)).
Proof.
  split; [intros m; destruct m; cbn; tauto|].
  split; [compute_done|].
  split; [reflexivity|].
  split; [intros m; destruct m; cbn; tauto|].
  split; [reflexivity|].
  split; [exact call_value|exact call_unknown].
Qed.

Lemma HTTPMethod_closed_enumeration_witness :
  HTTPMethod.call "CONNECT" = Raise (ValueError "CONNECT").
Proof.
  apply (proj2 (proj2 (proj2 (proj2 (proj2 (proj2
           HTTPMethod_closed_enumeration)))))).
  cbn. intros H. repeat destruct H as [H|H]; try discriminate H. exact H.
Defined.

(** C9, as stated, fails: [HEAD] is a member and is none of the seven
    verbs. *)
Lemma HEAD_is_a_member :
  ¬ In HTTPMethod.HEAD service_verbs
  ∧ In HTTPMethod.HEAD HTTPMethod.members
  ∧ HTTPMethod.call "HEAD" = Ok HTTPMethod.HEAD.
Proof.
  split.
  - cbn. intros H. repeat destruct H as [H|H]; try discriminate H. exact H.
  - split; [cbn; tauto|reflexivity].
Qed.

(** ** Dates and durations *)

Section CalendarFacts.

(** Day numbers follow the calendar: the first day is number 1, and each
    day has the number after that of the day before it. *)
Lemma ord_first_day : _ymd2ord 1 1 1 = 1.
Proof. reflexivity. Qed.

Lemma ord_next_day (y m d : Z) : _ymd2ord y m (d + 1) = _ymd2ord y m d + 1.
Proof. unfold _ymd2ord. lia. Qed.

Lemma days_before_next_month (y m : Z) :
  1 <= m < 12 →
  _days_before_month y (m + 1) = _days_before_month y m + _days_in_month y m.
Proof.
  intros Hm.
  assert (m = 1 ∨ m = 2 ∨ m = 3 ∨ m = 4 ∨ m = 5 ∨ m = 6 ∨ m = 7 ∨ m = 8
          ∨ m = 9 ∨ m = 10 ∨ m = 11) as Hcases by lia.
  unfold _days_before_month, _days_in_month.
  destruct (_is_leap y);
    repeat (destruct Hcases as [->|Hcases]; [reflexivity|]);
    subst m; reflexivity.
Qed.

Lemma ord_next_month (y m : Z) :
  1 <= m < 12 → _ymd2ord y (m + 1) 1 = _ymd2ord y m (_days_in_month y m) + 1.
Proof.
  intros Hm. unfold _ymd2ord. rewrite days_before_next_month by assumption.
  lia.
Qed.

Lemma days_before_next_year (y : Z) :
  _days_before_year (y + 1)
  = _days_before_year y + (if _is_leap y then 366 else 365).
Proof.
  unfold _days_before_year, _is_leap. cbv zeta.
  replace (y + 1 - 1) with y by lia.
  assert (y / 100 = y / 4 / 25) as ->
    by (rewrite Z.div_div by lia; reflexivity).
  assert (y / 400 = y / 4 / 25 / 4) as ->
    by (rewrite !Z.div_div by lia; reflexivity).
  assert ((y - 1) / 100 = (y - 1) / 4 / 25) as ->
    by (rewrite Z.div_div by lia; reflexivity).
  assert ((y - 1) / 400 = (y - 1) / 4 / 25 / 4) as ->
    by (rewrite !Z.div_div by lia; reflexivity).
  destruct (Z.eqb_spec (y mod 4) 0), (Z.eqb_spec (y mod 100) 0),
    (Z.eqb_spec (y mod 400) 0); cbn [andb orb negb];
    Z.div_mod_to_equations; lia.
Qed.

Lemma ord_next_year (y : Z) : _ymd2ord (y + 1) 1 1 = _ymd2ord y 12 31 + 1.
Proof.
  unfold _ymd2ord. rewrite days_before_next_year.
  unfold _days_before_month.
  change (nth (Z.to_nat 1) _DAYS_BEFORE_MONTH 0) with 0.
  change (nth (Z.to_nat 12) _DAYS_BEFORE_MONTH 0) with 334.
  change (2 <? 1) with false. change (2 <? 12) with true.
  cbn [andb]. destruct (_is_leap y); lia.
Qed.

Lemma days_before_year_mono (y y' : Z) :
  y <= y' → _days_before_year y <= _days_before_year y'.
Proof.
  intros Hle. unfold _days_before_year. cbv zeta.
  assert ((y - 1) / 100 = (y - 1) / 4 / 25) as ->
    by (rewrite Z.div_div by lia; reflexivity).
  assert ((y - 1) / 400 = (y - 1) / 4 / 25 / 4) as ->
    by (rewrite !Z.div_div by lia; reflexivity).
  assert ((y' - 1) / 100 = (y' - 1) / 4 / 25) as ->
    by (rewrite Z.div_div by lia; reflexivity).
  assert ((y' - 1) / 400 = (y' - 1) / 4 / 25 / 4) as ->
    by (rewrite !Z.div_div by lia; reflexivity).
  Z.div_mod_to_equations. lia.
Qed.

Ltac month_tables :=
  cbv [nth Z.to_nat Pos.to_nat Pos.iter_op Init.Nat.add _DAYS_BEFORE_MONTH
       _DAYS_IN_MONTH Z.eqb Pos.eqb Z.ltb Z.compare Pos.compare
       Pos.compare_cont andb] in *.

(** The day of the year of a valid date is within the year. *)
Lemma day_of_year_range (y m d : Z) :
  1 <= m <= 12 → 1 <= d <= _days_in_month y m →
  1 <= _days_before_month y m + d <= (if _is_leap y then 366 else 365).
Proof.
  intros Hm Hd.
  assert (m = 1 ∨ m = 2 ∨ m = 3 ∨ m = 4 ∨ m = 5 ∨ m = 6 ∨ m = 7 ∨ m = 8
          ∨ m = 9 ∨ m = 10 ∨ m = 11 ∨ m = 12) as Hcases by lia.
  unfold _days_before_month, _days_in_month in *.
  destruct (_is_leap y);
    repeat (destruct Hcases as [->|Hcases]; [month_tables; lia|]);
    subst m; month_tables; lia.
Qed.

Lemma days_before_month_step (y m m' d : Z) :
  1 <= m → m < m' → m' <= 12 → d <= _days_in_month y m →
  _days_before_month y m + d <= _days_before_month y m'.
Proof.
  intros H1 Hlt H12 Hd.
  assert (m = 1 ∨ m = 2 ∨ m = 3 ∨ m = 4 ∨ m = 5 ∨ m = 6 ∨ m = 7 ∨ m = 8
          ∨ m = 9 ∨ m = 10 ∨ m = 11) as Hcases by lia.
  assert (m' = 2 ∨ m' = 3 ∨ m' = 4 ∨ m' = 5 ∨ m' = 6 ∨ m' = 7 ∨ m' = 8
          ∨ m' = 9 ∨ m' = 10 ∨ m' = 11 ∨ m' = 12) as Hcases' by lia.
  unfold _days_before_month, _days_in_month in *.
  destruct (_is_leap y);
    repeat (destruct Hcases as [->|Hcases]);
    try subst m;
    repeat (destruct Hcases' as [->|Hcases']);
    try subst m';
    try lia; month_tables; lia.
Qed.

Lemma ymd2ord_lt (y m d y' m' d' : Z) :
  1 <= m <= 12 → 1 <= d <= _days_in_month y m →
  1 <= m' <= 12 → 1 <= d' <= _days_in_month y' m' →
  y < y' ∨ (y = y' ∧ m < m') ∨ (y = y' ∧ m = m' ∧ d < d') →
  _ymd2ord y m d < _ymd2ord y' m' d'.
Proof.
  intros Hm Hd Hm' Hd' [Hy|[[<- Hlt]|(<- & <- & Hlt)]]; unfold _ymd2ord.
  - pose proof (day_of_year_range y m d Hm Hd).
    pose proof (day_of_year_range y' m' d' Hm' Hd').
    pose proof (days_before_next_year y).
    pose proof (days_before_year_mono (y + 1) y' ltac:(lia)).
    destruct (_is_leap y); lia.
  - pose proof (days_before_month_step y m m' d ltac:(lia) Hlt ltac:(lia)
                  ltac:(lia)).
    lia.
  - lia.
Qed.

Lemma datetime_valid (t : datetime) :
  1 <= month t <= 12 ∧ 1 <= day t <= _days_in_month (year t) (month t)
  ∧ 0 <= hour t <= 23 ∧ 0 <= minute t <= 59 ∧ 0 <= second t <= 59
  ∧ 0 <= microsecond t <= 999999.
Proof.
  destruct t as [y m d h mi s us Hok]. cbn.
  unfold _check_date_fields, _check_time_fields in Hok.
  repeat rewrite andb_true_iff in Hok. repeat rewrite Z.leb_le in Hok.
  lia.
Qed.

Lemma datetime_ranges (t : datetime) :
  1 <= year t <= 9999 ∧ 1 <= month t <= 12 ∧ 1 <= day t <= 31
  ∧ 0 <= hour t <= 23 ∧ 0 <= minute t <= 59 ∧ 0 <= second t <= 59
  ∧ 0 <= microsecond t <= 999999.
Proof.
  destruct t as [y m d h mi s us Hok]. cbn.
  unfold _check_date_fields, _check_time_fields, MINYEAR, MAXYEAR in Hok.
  repeat rewrite andb_true_iff in Hok. repeat rewrite Z.leb_le in Hok.
  assert (_days_in_month y m <= 31) as Hdim.
  { unfold _days_in_month.
    assert (m = 1 ∨ m = 2 ∨ m = 3 ∨ m = 4 ∨ m = 5 ∨ m = 6 ∨ m = 7 ∨ m = 8
            ∨ m = 9 ∨ m = 10 ∨ m = 11 ∨ m = 12) as Hcases by lia.
    destruct (_is_leap y);
      repeat (destruct Hcases as [->|Hcases];
              [apply Z.leb_le; reflexivity|]);
      subst m; apply Z.leb_le; reflexivity. }
  lia.
Qed.

(** The day numbers of the library are those of the calendar. *)
Lemma is_leap_leap_year (y : Z) : _is_leap y = leap_year y.
Proof.
  unfold _is_leap, leap_year.
  destruct (Z.eqb_spec (y mod 400) 0), (Z.eqb_spec (y mod 100) 0),
    (Z.eqb_spec (y mod 4) 0); cbn [andb orb negb]; try reflexivity;
    exfalso; Z.div_mod_to_equations; lia.
Qed.

Lemma days_before_year_calendar (n : nat) :
  _days_before_year (Z.of_nat n + 1) = days_in_years n.
Proof.
  induction n as [|n IH]; [reflexivity|].
  cbn [days_in_years]. rewrite <- IH.
  replace (Z.of_nat (S n)) with (Z.of_nat n + 1) by lia.
  rewrite days_before_next_year, is_leap_leap_year. reflexivity.
Qed.

Lemma days_before_month_calendar (y m : Z) :
  1 <= m <= 12 →
  _days_before_month y m = days_in_months y (Z.to_nat (m - 1)).
Proof.
  intros Hm.
  assert (m = 1 ∨ m = 2 ∨ m = 3 ∨ m = 4 ∨ m = 5 ∨ m = 6 ∨ m = 7 ∨ m = 8
          ∨ m = 9 ∨ m = 10 ∨ m = 11 ∨ m = 12) as Hcases by lia.
  unfold _days_before_month. rewrite is_leap_leap_year.
  repeat (destruct Hcases as [->|Hcases];
          [cbv -[leap_year]; destruct (leap_year y); reflexivity|]).
  subst m. cbv -[leap_year]. destruct (leap_year y); reflexivity.
Qed.

Lemma toordinal_day_number (t : datetime) : toordinal t = day_number t.
Proof.
  destruct (datetime_ranges t) as (Hy & Hm & _).
  unfold toordinal, day_number, _ymd2ord.
  rewrite (days_before_month_calendar _ _ Hm).
  rewrite <- days_before_year_calendar.
  rewrite Z2Nat.id by lia.
  replace (year t - 1 + 1) with (year t) by lia. reflexivity.
Qed.

Lemma day_number_range (t : datetime) : 1 <= day_number t <= 3652059.
Proof.
  rewrite <- toordinal_day_number. unfold toordinal, _ymd2ord.
  destruct (datetime_ranges t) as (Hy & _).
  destruct (datetime_valid t) as (Hm & Hd & _).
  pose proof (day_of_year_range _ _ _ Hm Hd) as Hdoy.
  pose proof (days_before_year_mono 1 (year t) ltac:(lia)) as Hlo.
  pose proof (days_before_year_mono (year t + 1) 10000 ltac:(lia)) as Hhi.
  rewrite days_before_next_year in Hhi.
  change (_days_before_year 1) with 0 in Hlo.
  change (_days_before_year 10000) with 3652059 in Hhi.
  destruct (_is_leap (year t)); lia.
Qed.

Lemma instant_range (t : datetime) : 0 <= instant t < 2 ^ 59.
Proof.
  pose proof (day_number_range t) as Hd.
  destruct (datetime_valid t) as (_ & _ & Hh & Hmi & Hs & Hus).
  unfold instant. change (2 ^ 59) with 576460752303423488. lia.
Qed.

(** The constructor of [timedelta] keeps the length of time. *)
Lemma timedelta_new_microseconds (d s us : Z) :
  let td := timedelta_new d s us in
  (days td * 86400 + seconds td) * 1000000 + microseconds td
  = (d * 86400 + s) * 1000000 + us.
Proof.
  cbn [timedelta_new days seconds microseconds].
  Z.div_mod_to_equations. lia.
Qed.

Lemma timedelta_new_normal (d s us : Z) :
  let td := timedelta_new d s us in
  0 <= seconds td < 86400 ∧ 0 <= microseconds td < 1000000.
Proof.
  cbn [timedelta_new days seconds microseconds].
  split; apply Z.mod_pos_bound; lia.
Qed.

(** The float [total_seconds] returns for the difference of two datetimes
    is the quotient of the microseconds between their instants. *)
Lemma total_seconds_sub (e s : datetime) :
  total_seconds (datetime_sub e s)
  = long_true_divide (instant e - instant s) 1000000.
Proof.
  unfold total_seconds, datetime_sub. rewrite timedelta_new_microseconds.
  rewrite !toordinal_day_number. unfold instant. f_equal. lia.
Qed.

End CalendarFacts.

(** ** Division of integers into a float *)

Section RoundingFacts.

(** The rounded quotient is within half a unit of the exact one, and even
    when it is exactly half a unit away. *)
Lemma round_half_even_error (N D : Z) :
  0 < D →
  let M := round_half_even N D in
  2 * Z.abs (M * D - N) <= D
  ∧ (2 * Z.abs (M * D - N) = D → Z.even M = true).
Proof.
  intros HD. unfold round_half_even. cbv zeta.
  pose proof (Z.div_mod N D ltac:(lia)) as Hdm.
  pose proof (Z.mod_pos_bound N D HD) as Hr.
  set (q := N / D) in *. set (r := N mod D) in *.
  destruct (Z.ltb_spec D (2 * r)) as [Hlt|Hge]; cbn [orb].
  - split; [nia|]. intros H. exfalso. nia.
  - destruct (Z.eqb_spec (2 * r) D) as [Heq|Hne]; cbn [andb].
    + destruct (Z.odd q) eqn:Hodd.
      * split; [nia|]. intros _.
        rewrite Z.add_1_r, Z.even_succ. exact Hodd.
      * split; [nia|]. intros _.
        rewrite <- Z.negb_odd, Hodd. reflexivity.
    + split; [nia|]. intros H. exfalso. nia.
Qed.

Lemma round_half_even_nearest (N D J : Z) :
  0 < D →
  Z.abs (round_half_even N D * D - N) <= Z.abs (J * D - N).
Proof.
  intros HD. destruct (round_half_even_error N D HD) as [He _].
  set (M := round_half_even N D) in *.
  destruct (Z.eq_dec J M) as [->|Hne]; [lia|]. nia.
Qed.

Lemma round_half_even_strict (N D J : Z) :
  0 < D → 2 * Z.abs (round_half_even N D * D - N) ≠ D →
  J ≠ round_half_even N D →
  Z.abs (round_half_even N D * D - N) < Z.abs (J * D - N).
Proof.
  intros HD Htie Hne. destruct (round_half_even_error N D HD) as [He _].
  set (M := round_half_even N D) in *. nia.
Qed.

Lemma round_half_even_range (N D lo hi : Z) :
  0 < D → lo * D <= N → N <= hi * D →
  lo <= round_half_even N D <= hi.
Proof.
  intros HD Hlo Hhi.
  pose proof (round_half_even_nearest N D lo HD).
  pose proof (round_half_even_nearest N D hi HD).
  set (M := round_half_even N D) in *. nia.
Qed.

End RoundingFacts.

Section DivisionFacts.

Lemma pow2_pos (k : Z) : 0 <= k → 0 < 2 ^ k.
Proof. intros Hk. apply Z.pow_pos_nonneg; lia. Qed.

Lemma pow2_split (j k : Z) : 0 <= j → 0 <= k → 2 ^ (j + k) = 2 ^ j * 2 ^ k.
Proof. intros Hj Hk. apply Z.pow_add_r; assumption. Qed.

(** The exponent [long_true_divide] settles on puts the scaled quotient in
    the range of 53-bit significands.  Stated for quotients below [2 ^ 52],
    where the exponent is negative. *)
Lemma long_true_divide_cases (a b : Z) :
  0 < b → a ≠ 0 → Z.log2 (Z.abs a) - Z.log2 b < 52 →
  ∃ k : Z,
    0 < k
    ∧ Z.log2 b + 52 - Z.log2 (Z.abs a) <= k
    ∧ k <= Z.log2 b + 53 - Z.log2 (Z.abs a)
    ∧ 2 ^ 52 * b <= Z.abs a * 2 ^ k < 2 ^ 53 * b
    ∧ long_true_divide a b
      = Qred (Z.sgn a * round_half_even (Z.abs a * 2 ^ k) b
              # Z.to_pos (2 ^ k)).
Proof.
  intros Hb Ha Hlog. unfold long_true_divide.
  destruct (Z.eqb_spec a 0) as [|_]; [contradiction|]. cbv zeta.
  set (n := Z.abs a) in *.
  assert (0 < n) as Hn by (subst n; lia).
  destruct (Z.log2_spec n Hn) as [Hn1 Hn2].
  destruct (Z.log2_spec b Hb) as [Hb1 Hb2].
  pose proof (Z.log2_nonneg n) as Hln. pose proof (Z.log2_nonneg b) as Hlb.
  set (ln := Z.log2 n) in *. set (lb := Z.log2 b) in *.
  set (c := ln - lb - 53).
  assert (c < 0) as Hc by (subst c; lia).
  destruct (Z.leb_spec 0 c) as [|_]; [lia|]. cbn [fst snd].
  assert (2 ^ (- c) = 2 * 2 ^ (- (c + 1))) as Hstep.
  { replace (- c) with (1 + - (c + 1)) by lia.
    rewrite pow2_split by lia. reflexivity. }
  assert (0 < 2 ^ (- (c + 1))) as Hp by (apply pow2_pos; lia).
  assert (2 ^ ln * 2 ^ (- c) = 2 ^ 53 * 2 ^ lb) as Hlo.
  { rewrite <- !pow2_split by lia. f_equal. subst c. lia. }
  rewrite Z.pow_succ_r in Hn2, Hb2 by assumption.
  destruct (Z.ltb_spec (n * 2 ^ (- c)) (2 ^ 53 * b)) as [Hlt|Hge].
  - destruct (Z.leb_spec 0 c) as [|_]; [lia|]. cbn [fst snd].
    exists (- c). repeat split; try (subst c; lia); try assumption.
    nia.
  - destruct (Z.leb_spec 0 (c + 1)) as [|_]; [lia|]. cbn [fst snd].
    exists (- (c + 1)). repeat split; try (subst c; lia); nia.
Qed.

End DivisionFacts.

Section NearestFacts.

Lemma Qpower_2_nonneg (e : Z) : 0 <= e → (2 ^ e == inject_Z (2 ^ e))%Q.
Proof. intros He. symmetry. apply (Zpower_Qpower 2 e He). Qed.

Lemma Qpower_2_neg (k : Z) : 0 < k → (2 ^ (- k) == 1 # Z.to_pos (2 ^ k))%Q.
Proof.
  intros Hk. rewrite Qpower_opp, Qpower_2_nonneg by lia.
  pose proof (pow2_pos k ltac:(lia)) as Hp.
  destruct (2 ^ k) as [|p|p] eqn:E; try lia. reflexivity.
Qed.

(** Every number [m * 2 ^ e] is a fraction over a power of two. *)
Lemma dyadic_fraction (m e : Z) :
  ∃ P j : Z,
    0 <= j ∧ (inject_Z m * 2 ^ e == P # Z.to_pos (2 ^ j))%Q
    ∧ (0 < j → P = m).
Proof.
  destruct (Z.leb_spec 0 e) as [He|He].
  - exists (m * 2 ^ e), 0. split; [lia|]. split; [|lia].
    rewrite Qpower_2_nonneg by assumption.
    unfold Qeq, Qmult, inject_Z. cbn. lia.
  - exists m, (- e). split; [lia|]. split; [|reflexivity].
    replace e with (- - e) at 1 by lia. rewrite Qpower_2_neg by lia.
    unfold Qeq, Qmult, inject_Z. cbn. lia.
Qed.

Lemma nearest_dyadic (n D k P j s : Z) :
  0 < D → 0 < n → 0 <= k → 0 <= j → s = 1 ∨ s = -1 →
  let M := round_half_even (n * 2 ^ k) D in
  2 * Z.abs (M * D - n * 2 ^ k) ≠ D →
  2 ^ 52 * D <= n * 2 ^ k →
  (k < j → Z.abs P < 2 ^ 53) →
  P * 2 ^ k ≠ s * M * 2 ^ j →
  Z.abs (s * M * D - s * n * 2 ^ k) * 2 ^ j
  < Z.abs (P * D - s * n * 2 ^ j) * 2 ^ k.
Proof.
  intros HD Hn Hk Hj Hs M Htie Hlo HP Hne.
  set (N := n * 2 ^ k) in *.
  assert (Z.abs (s * M * D - s * n * 2 ^ k) = Z.abs (M * D - N)) as ->
    by (subst N; destruct Hs as [-> | ->]; lia).
  set (P' := s * P).
  assert (Z.abs (P * D - s * n * 2 ^ j) = Z.abs (P' * D - n * 2 ^ j)) as ->
    by (subst P'; destruct Hs as [-> | ->]; lia).
  assert (P' * 2 ^ k ≠ M * 2 ^ j) as Hne'
    by (subst P'; destruct Hs as [-> | ->]; lia).
  assert (Z.abs P' = Z.abs P) as HabsP
    by (subst P'; destruct Hs as [-> | ->]; lia).
  pose proof (pow2_pos k Hk) as HB. pose proof (pow2_pos j Hj) as HA.
  destruct (Z.le_gt_cases j k) as [Hjk|Hjk].
  - (* the other number is a multiple of the unit in the last place *)
    assert (2 ^ k = 2 ^ j * 2 ^ (k - j)) as HC.
    { rewrite <- pow2_split by lia. f_equal. lia. }
    pose proof (pow2_pos (k - j) ltac:(lia)) as HCpos.
    set (A := 2 ^ j) in *. set (C := 2 ^ (k - j)) in *.
    assert (P' * C ≠ M) as HJ.
    { intros E. apply Hne'. rewrite HC, <- E. ring. }
    pose proof (round_half_even_strict N D (P' * C) HD Htie HJ) as Hst.
    fold M in Hst.
    assert (Z.abs (P' * D - n * A) * 2 ^ k
            = Z.abs (P' * C * D - N) * A) as ->.
    { subst N. rewrite HC.
      replace (P' * C * D - n * (A * C)) with ((P' * D - n * A) * C) by ring.
      rewrite Z.abs_mul, (Z.abs_eq C) by lia. ring. }
    apply Z.mul_lt_mono_pos_r; assumption.
  - (* the other number has a smaller exponent, so it lies below 2^52 units *)
    assert (2 ^ j = 2 ^ k * 2 ^ (j - k)) as HC.
    { rewrite <- pow2_split by lia. f_equal. lia. }
    assert (2 <= 2 ^ (j - k)) as HC2.
    { change 2 with (2 ^ 1) at 1. apply Z.pow_le_mono_r; lia. }
    specialize (HP Hjk). rewrite <- HabsP in HP.
    pose proof (round_half_even_nearest N D (2 ^ 52) HD) as Hnear.
    fold M in Hnear.
    change (2 ^ 53) with (2 * 2 ^ 52) in HP.
    assert (0 < 2 ^ 52) as HT by reflexivity.
    set (T := 2 ^ 52) in *.
    set (B := 2 ^ k) in *. set (C := 2 ^ (j - k)) in *. rewrite HC.
    assert (Z.abs (M * D - N) <= N - T * D) as Hm by lia.
    assert (N * C - P' * D <= Z.abs (P' * D - n * (B * C))) as Hy.
    { subst N. replace (n * (B * C)) with (n * B * C) by ring. lia. }
    assert (T * 2 <= T * C) as HTC
      by (apply Z.mul_le_mono_nonneg_l; lia).
    assert (P' * D < T * C * D) as HPD
      by (apply Z.mul_lt_mono_pos_r; lia).
    assert (Z.abs (M * D - N) * C <= (N - T * D) * C) as Hm'
      by (apply Z.mul_le_mono_nonneg_r; lia).
    assert (Z.abs (M * D - N) * C < Z.abs (P' * D - n * (B * C))) as Hlt.
    { replace ((N - T * D) * C) with (N * C - T * C * D) in Hm' by ring.
      lia. }
    replace (Z.abs (M * D - N) * (B * C))
      with (Z.abs (M * D - N) * C * B) by ring.
    apply Z.mul_lt_mono_pos_r; assumption.
Qed.

End NearestFacts.

Section MicrosecondFacts.

(** The quotients [timedelta.total_seconds] computes: a number of
    microseconds below [2 ^ 59] in size, divided by [10 ** 6]. *)
Lemma long_true_divide_micro (us : Z) :
  us ≠ 0 → Z.abs us < 2 ^ 59 →
  ∃ k M : Z,
    13 <= k <= 72
    ∧ M = round_half_even (Z.abs us * 2 ^ k) 1000000
    ∧ 2 ^ 52 <= M <= 2 ^ 53
    ∧ 2 ^ 52 * 1000000 <= Z.abs us * 2 ^ k
    ∧ (long_true_divide us 1000000 == Z.sgn us * M # Z.to_pos (2 ^ k))%Q.
Proof.
  intros Hus Hsize.
  assert (Z.log2 (Z.abs us) < 59) as Hlog
    by (apply Z.log2_lt_pow2; lia).
  pose proof (Z.log2_nonneg (Z.abs us)) as Hlog0.
  destruct (long_true_divide_cases us 1000000) as (k & Hk & Hk1 & Hk2 & Hr & E).
  - lia.
  - assumption.
  - change (Z.log2 1000000) with 19. lia.
  - change (Z.log2 1000000) with 19 in Hk1, Hk2.
    exists k, (round_half_even (Z.abs us * 2 ^ k) 1000000).
    split; [lia|]. split; [reflexivity|]. split.
    + apply round_half_even_range; lia.
    + split; [lia|]. rewrite E. apply Qred_correct.
Qed.

(** No quotient of that kind lies half-way between two doubles. *)
Lemma micro_no_tie (n k M : Z) :
  6 <= k → 2 * Z.abs (M * 1000000 - n * 2 ^ k) ≠ 1000000.
Proof.
  intros Hk.
  replace k with (6 + (k - 6)) by lia. rewrite pow2_split by lia.
  change (2 ^ 6) with 64. set (C := 2 ^ (k - 6)).
  replace (n * (64 * C)) with (64 * (n * C)) by ring.
  set (X := n * C). lia.
Qed.

Lemma long_true_divide_sign (us : Z) :
  Z.abs us < 2 ^ 59 →
  let d := long_true_divide us 1000000 in
  ((0 < d)%Q ↔ 0 < us) ∧ ((d == 0)%Q ↔ us = 0) ∧ ((d < 0)%Q ↔ us < 0).
Proof.
  intros Hsize d. subst d.
  destruct (Z.eq_dec us 0) as [->|Hus].
  - cbn. unfold Qlt, Qeq. cbn. lia.
  - destruct (long_true_divide_micro us Hus Hsize)
      as (k & M & _ & _ & HM & _ & ->).
    unfold Qlt, Qeq. cbn [Qnum Qden].
    change (2 ^ 52) with 4503599627370496 in HM.
    assert (0 < M) as HMpos by lia. clear HM.
    rewrite !Z.mul_1_r, !Z.mul_0_l.
    destruct (Z.sgn_spec us) as [[? ->]|[[? ->]|[? ->]]]; lia.
Qed.

Lemma long_true_divide_double (us : Z) :
  Z.abs us < 2 ^ 59 → is_double (long_true_divide us 1000000).
Proof.
  intros Hsize. destruct (Z.eq_dec us 0) as [->|Hus].
  - exists 0, 0. split; [reflexivity|]. split; [lia|]. reflexivity.
  - destruct (long_true_divide_micro us Hus Hsize)
      as (k & M & Hk & _ & HM & _ & E).
    assert (Z.abs (Z.sgn us) = 1) as Hs by lia.
    destruct (Z.eq_dec M (2 ^ 53)) as [HM53|HM53].
    + exists (Z.sgn us * 2 ^ 52), (- (k - 1)).
      split; [rewrite Z.abs_mul, Hs; reflexivity|]. split; [lia|].
      rewrite E, Qpower_2_neg by lia. rewrite HM53.
      pose proof (pow2_pos k ltac:(lia)) as HB.
      pose proof (pow2_pos (k - 1) ltac:(lia)) as HB'.
      assert (2 ^ k = 2 * 2 ^ (k - 1)) as HBB.
      { replace k with (1 + (k - 1)) at 1 by lia.
        rewrite pow2_split by lia. reflexivity. }
      unfold Qeq, Qmult, inject_Z. cbn [Qnum Qden].
      rewrite Pos.mul_1_l, !Z2Pos.id by assumption.
      rewrite HBB. change (2 ^ 53) with (2 * 2 ^ 52). ring.
    + exists (Z.sgn us * M), (- k).
      split; [rewrite Z.abs_mul, Hs; lia|]. split; [lia|].
      rewrite E, Qpower_2_neg by lia.
      unfold Qeq, Qmult, inject_Z. cbn [Qnum Qden].
      rewrite Pos.mul_1_l. ring.
Qed.

(** The quotient is rounded to the nearest double: every other double is
    strictly further from the exact quotient. *)
Lemma long_true_divide_nearest (us : Z) (y : Q) :
  Z.abs us < 2 ^ 59 → is_double y →
  ¬ (y == long_true_divide us 1000000)%Q →
  (Qabs (long_true_divide us 1000000 - (us # 1000000))
   < Qabs (y - (us # 1000000)))%Q.
Proof.
  intros Hsize (m & e & Hm & _ & Hy) Hne.
  destruct (dyadic_fraction m e) as (P & j & Hj & HP & HPm).
  rewrite HP in Hy. clear HP.
  rewrite Hy in Hne |- *. clear Hy y.
  pose proof (pow2_pos j Hj) as HA.
  destruct (Z.eq_dec us 0) as [->|Hus].
  - change (long_true_divide 0 1000000) with 0%Q in *.
    unfold Qlt, Qabs, Qminus, Qplus, Qopp, Qeq in *. cbn [Qnum Qden] in *.
    lia.
  - destruct (long_true_divide_micro us Hus Hsize)
      as (k & M & Hk & HM & HMr & Hlo & E).
    rewrite E in Hne |- *. clear E.
    pose proof (pow2_pos k ltac:(lia)) as HB.
    unfold Qlt, Qabs, Qminus, Qplus, Qopp, Qeq in *. cbn [Qnum Qden] in *.
    rewrite !Pos2Z.inj_mul, !Z2Pos.id in * by assumption.
    pose proof (nearest_dyadic (Z.abs us) 1000000 k P j (Z.sgn us)
                  ltac:(lia) ltac:(lia) ltac:(lia) Hj ltac:(lia)) as Hnear.
    cbv zeta in Hnear. rewrite <- HM in Hnear.
    specialize (Hnear (micro_no_tie (Z.abs us) k M ltac:(lia)) Hlo).
    assert (Z.sgn us * Z.abs us = us) as Hsgn by lia.
    rewrite <- Z.mul_assoc, Hsgn in Hnear.
    replace (Z.sgn us * Z.abs us * 2 ^ k) with (us * 2 ^ k) in Hnear
      by (rewrite Hsgn; reflexivity).
    replace (Z.sgn us * Z.abs us * 2 ^ j) with (us * 2 ^ j) in Hnear
      by (rewrite Hsgn; reflexivity).
    specialize (Hnear ltac:(intros Hjk; rewrite HPm by lia; exact Hm)).
    specialize (Hnear ltac:(intros E; apply Hne; rewrite E; ring)).
    set (B := 2 ^ k) in *. set (A := 2 ^ j) in *.
    replace (Z.sgn us * M * 1000000 + - us * B)
      with (Z.sgn us * M * 1000000 - us * B) by ring.
    replace (P * 1000000 + - us * A) with (P * 1000000 - us * A) by ring.
    set (L := Z.abs (Z.sgn us * M * 1000000 - us * B)) in *.
    set (R := Z.abs (P * 1000000 - us * A)) in *.
    replace (L * (A * 1000000)) with (L * A * 1000000) by ring.
    replace (R * (B * 1000000)) with (R * B * 1000000) by ring.
    apply Z.mul_lt_mono_pos_r; [lia|exact Hnear].
Qed.

End MicrosecondFacts.

(** ** HTTPResponse *)

(** C7.  For every response, [duration] is the time from [start] to [end]
    in seconds, as a float: it is the double nearest to the exact number of
    seconds (every other double is strictly further away), hence that
    number itself whenever it is a double, as for an [end] 1.5 seconds
    after [start], which gives 1.5; [empty()] holds exactly when the status
    is 204, and [success()] exactly when the status is at least 200 and
    below 300. *)
Theorem response_observables
    (end_ : datetime) (headers : gmap string value) (message : string)
    (method : HTTPMethod.t) (start : datetime) (status : Z)
    (type url : string) (body : option (gmap string value)) :
  let r := HTTPResponse.__init__ end_ headers message method start status
             type url body in
  let elapsed : Q := Qmake (instant end_ - instant start) 1000000 in
  is_double (HTTPResponse.duration r)
  ∧ (∀ y : Q, is_double y → ¬ (y == HTTPResponse.duration r)%Q →
       (Qabs (HTTPResponse.duration r - elapsed) < Qabs (y - elapsed))%Q)
  ∧ (is_double elapsed → (HTTPResponse.duration r == elapsed)%Q)
  ∧ (instant end_ = instant start + 1500000 →
     HTTPResponse.duration r = 3 # 2)
  ∧ (HTTPResponse.empty r = true ↔ status = 204)
  ∧ (HTTPResponse.success r = true ↔ 200 <= status < 300).
Proof.
  intros r elapsed.
  assert (HTTPResponse.duration r
          = long_true_divide (instant end_ - instant start) 1000000) as Hd
    by apply total_seconds_sub.
  assert (Z.abs (instant end_ - instant start) < 2 ^ 59) as Hsize.
  { pose proof (instant_range end_). pose proof (instant_range start). lia. }
  assert (∀ y : Q, is_double y → ¬ (y == HTTPResponse.duration r)%Q →
            (Qabs (HTTPResponse.duration r - elapsed)
             < Qabs (y - elapsed))%Q) as Hnear.
  { intros y Hy Hne. rewrite Hd in Hne |- *.
    apply long_true_divide_nearest; assumption. }
  split; [rewrite Hd; apply long_true_divide_double; exact Hsize|].
  split; [exact Hnear|]. split; [|split; [|split]].
  - intros Hx.
    destruct (Qeq_dec elapsed (HTTPResponse.duration r)) as [E|Hne];
      [symmetry; exact E|].
    specialize (Hnear elapsed Hx Hne). exfalso.
    assert (elapsed - elapsed == 0)%Q as Hz by ring.
    rewrite Hz in Hnear. change (Qabs 0) with 0%Q in Hnear.
    apply (Qlt_not_le _ _ Hnear), Qabs_nonneg.
  - intros H. rewrite Hd, H.
    replace (instant start + 1500000 - instant start) with 1500000 by lia.
    reflexivity.
  - unfold HTTPResponse.empty.
    cbn [r HTTPResponse.__init__ HTTPResponse._status].
    apply Z.eqb_eq.
  - unfold HTTPResponse.success.
    cbn [r HTTPResponse.__init__ HTTPResponse._status].
    rewrite andb_true_iff, Z.leb_le, Z.ltb_lt. reflexivity.
Qed.

Lemma response_observables_witness :
  HTTPResponse.duration
    (HTTPResponse.__init__
       (mk_datetime 2024 1 1 0 0 0 750000 eq_refl) ∅ "OK"
       HTTPMethod.GET
       (mk_datetime 2023 12 31 23 59 59 250000 eq_refl) 200
       "text/plain" "https://example.org" None)
  = 3 # 2.
Proof.
  apply (response_observables
           (mk_datetime 2024 1 1 0 0 0 750000 eq_refl) ∅ "OK"
           HTTPMethod.GET
           (mk_datetime 2023 12 31 23 59 59 250000 eq_refl) 200
           "text/plain" "https://example.org" None).
  vm_compute. reflexivity.
Defined.

(** ** Texts *)

Section TextFacts.

Lemma append_cons (x : ascii) (a b : string) :
  String x a +:+ b = String x (a +:+ b).
Proof. reflexivity. Qed.

Lemma append_nil (b : string) : EmptyString +:+ b = b.
Proof. reflexivity. Qed.

Lemma append_assoc (a b c : string) : (a +:+ b) +:+ c = a +:+ (b +:+ c).
Proof.
  induction a as [|x a IH]; [reflexivity|].
  rewrite !append_cons, IH. reflexivity.
Qed.

Lemma append_inj_r (a b c : string) : a +:+ b = a +:+ c → b = c.
Proof.
  induction a as [|x a IH]; intros H; [exact H|].
  rewrite !append_cons in H. injection H as H. apply IH, H.
Qed.

Lemma length_append (a b : string) :
  String.length (a +:+ b) = (String.length a + String.length b)%nat.
Proof.
  induction a as [|x a IH]; [reflexivity|].
  rewrite append_cons. cbn [String.length Nat.add]. rewrite IH. reflexivity.
Qed.

Lemma prefix_append (a b : string) : String.prefix a (a +:+ b) = true.
Proof.
  induction a as [|x a IH]; [destruct b; reflexivity|].
  rewrite append_cons. cbn [String.prefix].
  destruct (ascii_dec x x) as [_|Hne]; [exact IH|contradiction].
Qed.

(** A text is cut at its first colon in one way only. *)
Lemma first_colon_unique (u u' p p' : string) :
  colon_free u = true → colon_free u' = true →
  u +:+ ":" +:+ p = u' +:+ ":" +:+ p' → u = u' ∧ p = p'.
Proof.
  revert u'. induction u as [|x u IH]; intros [|x' u'] Hu Hu' H;
    rewrite ?append_cons, ?append_nil in H.
  - injection H as H. auto.
  - injection H as <- _. cbn in Hu'. discriminate Hu'.
  - injection H as -> _. cbn in Hu. discriminate Hu.
  - injection H as <- H.
    cbn in Hu, Hu'. apply andb_true_iff in Hu as [_ Hu].
    apply andb_true_iff in Hu' as [_ Hu'].
    destruct (IH u' Hu Hu' H) as [<- <-]. auto.
Qed.

Lemma stars_then_comma (n m : nat) (r r' : string) :
  repeat_str "*" n +:+ String "," r = repeat_str "*" m +:+ String "," r' →
  n = m.
Proof.
  revert m. induction n as [|n IH]; intros [|m] H; try reflexivity;
    cbn [repeat_str] in H; rewrite ?append_cons, ?append_nil in H.
  - discriminate H.
  - discriminate H.
  - injection H as H. f_equal. apply IH, H.
Qed.

End TextFacts.

(** ** Rendering of datetimes *)

Section FormatFacts.

Lemma digit_cases (n : Z) :
  0 <= n <= 9 →
  is_digit (digit n) = true ∧ Z.of_N (N_of_ascii (digit n)) - 48 = n.
Proof.
  intros Hn.
  assert (n = 0 ∨ n = 1 ∨ n = 2 ∨ n = 3 ∨ n = 4 ∨ n = 5 ∨ n = 6 ∨ n = 7
          ∨ n = 8 ∨ n = 9) as Hcases by lia.
  repeat (destruct Hcases as [->|Hcases]; [split; reflexivity|]).
  subst n. split; reflexivity.
Qed.

Lemma digit_not_zero (n : Z) (rest : string) :
  1 <= n <= 9 → String.prefix "0" (String (digit n) rest) = false.
Proof.
  intros Hn. cbn [String.prefix].
  destruct (ascii_dec "0" (digit n)) as [E|_]; [|reflexivity].
  destruct (digit_cases n ltac:(lia)) as [_ V]. rewrite <- E in V.
  cbn in V. lia.
Qed.

Lemma pad2_digits (n : Z) :
  0 <= n <= 99 →
  ∃ a b, pad2 n = String a (String b EmptyString)
         ∧ is_digit a = true ∧ is_digit b = true
         ∧ digits_value (pad2 n) = n.
Proof.
  intros Hn. exists (digit (n / 10)), (digit (n mod 10)).
  assert (0 <= n / 10 <= 9) as H1 by (Z.div_mod_to_equations; lia).
  assert (0 <= n mod 10 <= 9) as H2 by (Z.div_mod_to_equations; lia).
  destruct (digit_cases _ H1) as [D1 V1], (digit_cases _ H2) as [D2 V2].
  repeat split; try assumption.
  unfold pad2, digits_value. cbn [list_ascii_of_string fold_left].
  rewrite V1, V2. Z.div_mod_to_equations. lia.
Qed.

Lemma pad2_numeral (n : Z) : 0 <= n <= 99 → numeral 2 n (pad2 n).
Proof.
  intros Hn. destruct (pad2_digits n Hn) as (a & b & E & Da & Db & V).
  split; [reflexivity|]. split; [|exact V].
  rewrite E. unfold all_digits. cbn [list_ascii_of_string forallb].
  rewrite Da, Db. reflexivity.
Qed.

(** The year comes out on as many digits as it has. *)
Lemma decimal_cases (y : Z) :
  1 <= y <= 9999 →
  decimal y
  = if y <? 10 then String (digit y) EmptyString
    else if y <? 100 then
      String (digit (y / 10)) (String (digit (y mod 10)) EmptyString)
    else if y <? 1000 then
      String (digit (y / 100))
        (String (digit (y / 10 mod 10))
           (String (digit (y mod 10)) EmptyString))
    else
      String (digit (y / 1000))
        (String (digit (y / 100 mod 10))
           (String (digit (y / 10 mod 10))
              (String (digit (y mod 10)) EmptyString))).
Proof.
  intros Hy. unfold decimal.
  destruct (Z.ltb_spec y 10) as [H1|H1].
  { cbn [decimal_from]. rewrite (proj2 (Z.ltb_lt y 10) H1).
    rewrite Z.mod_small by lia. reflexivity. }
  replace (Z.to_nat y) with (S (Z.to_nat (y - 1))) by lia.
  cbn [decimal_from]. rewrite (proj2 (Z.ltb_ge y 10) H1).
  destruct (Z.ltb_spec y 100) as [H2|H2].
  { assert (y / 10 < 10) as Hq by (Z.div_mod_to_equations; lia).
    assert (0 <= y / 10) as Hq0 by (Z.div_mod_to_equations; lia).
    rewrite (proj2 (Z.ltb_lt _ 10) Hq), (Z.mod_small (y / 10)) by lia.
    reflexivity. }
  assert (10 <= y / 10) as Hq by (Z.div_mod_to_equations; lia).
  replace (Z.to_nat (y - 1)) with (S (Z.to_nat (y - 2))) by lia.
  cbn [decimal_from]. rewrite (proj2 (Z.ltb_ge _ 10) Hq).
  rewrite Z.div_div by lia. change (10 * 10) with 100.
  destruct (Z.ltb_spec y 1000) as [H3|H3].
  { assert (0 <= y / 100 < 10) as Hq2 by (Z.div_mod_to_equations; lia).
    rewrite (proj2 (Z.ltb_lt _ 10) (proj2 Hq2)), (Z.mod_small (y / 100))
      by lia.
    reflexivity. }
  assert (10 <= y / 100 < 100) as Hq2 by (Z.div_mod_to_equations; lia).
  replace (Z.to_nat (y - 2)) with (S (Z.to_nat (y - 3))) by lia.
  cbn [decimal_from]. rewrite (proj2 (Z.ltb_ge _ 10) (proj1 Hq2)).
  rewrite Z.div_div by lia. change (100 * 10) with 1000.
  assert (0 <= y / 1000 < 10) as Hq3 by (Z.div_mod_to_equations; lia).
  rewrite (proj2 (Z.ltb_lt _ 10) (proj2 Hq3)), (Z.mod_small (y / 1000))
    by lia.
  reflexivity.
Qed.

Lemma decimal_numeral (y : Z) : 1 <= y <= 9999 → plain_numeral y (decimal y).
Proof.
  intros Hy. rewrite (decimal_cases y Hy).
  unfold plain_numeral, all_digits, digits_value.
  destruct (Z.ltb_spec y 10) as [H1|H1];
    [|destruct (Z.ltb_spec y 100) as [H2|H2];
      [|destruct (Z.ltb_spec y 1000) as [H3|H3]]];
    cbn [list_ascii_of_string forallb fold_left String.length].
  - destruct (digit_cases y ltac:(lia)) as [D V].
    rewrite D, V, digit_not_zero by lia. repeat split; lia.
  - assert (1 <= y / 10 <= 9) as Ha by (Z.div_mod_to_equations; lia).
    assert (0 <= y mod 10 <= 9) as Hb by (Z.div_mod_to_equations; lia).
    destruct (digit_cases (y / 10)) as [Da Va]; [lia|].
    destruct (digit_cases _ Hb) as [Db Vb].
    rewrite Da, Db, Va, Vb, digit_not_zero by lia.
    repeat split; try lia. Z.div_mod_to_equations. lia.
  - assert (1 <= y / 100 <= 9) as Ha by (Z.div_mod_to_equations; lia).
    assert (0 <= y / 10 mod 10 <= 9) as Hb by (Z.div_mod_to_equations; lia).
    assert (0 <= y mod 10 <= 9) as Hc by (Z.div_mod_to_equations; lia).
    destruct (digit_cases (y / 100)) as [Da Va]; [lia|].
    destruct (digit_cases _ Hb) as [Db Vb].
    destruct (digit_cases _ Hc) as [Dc Vc].
    rewrite Da, Db, Dc, Va, Vb, Vc, digit_not_zero by lia.
    repeat split; try lia. Z.div_mod_to_equations. lia.
  - assert (1 <= y / 1000 <= 9) as Ha by (Z.div_mod_to_equations; lia).
    assert (0 <= y / 100 mod 10 <= 9) as Hb
      by (Z.div_mod_to_equations; lia).
    assert (0 <= y / 10 mod 10 <= 9) as Hc by (Z.div_mod_to_equations; lia).
    assert (0 <= y mod 10 <= 9) as Hd by (Z.div_mod_to_equations; lia).
    destruct (digit_cases (y / 1000)) as [Da Va]; [lia|].
    destruct (digit_cases _ Hb) as [Db Vb].
    destruct (digit_cases _ Hc) as [Dc Vc].
    destruct (digit_cases _ Hd) as [Dd Vd].
    rewrite Da, Db, Dc, Dd, Va, Vb, Vc, Vd, digit_not_zero by lia.
    repeat split; try lia. Z.div_mod_to_equations. lia.
Qed.

Lemma decimal_length (y : Z) :
  1 <= y <= 9999 →
  (1000 <= y → String.length (decimal y) = 4%nat)
  ∧ (y < 1000 → (String.length (decimal y) < 4)%nat).
Proof.
  intros Hy. rewrite (decimal_cases y Hy).
  destruct (Z.ltb_spec y 10) as [H1|H1];
    [|destruct (Z.ltb_spec y 100) as [H2|H2];
      [|destruct (Z.ltb_spec y 1000) as [H3|H3]]];
    cbn [String.length]; split; intros; lia.
Qed.

(** The format the module passes to [strftime]. *)
Lemma strftime_fields (t : datetime) :
  strftime t "%Y-%m-%d %H:%M:%S"
  = decimal (year t) +:+ "-" +:+ pad2 (month t) +:+ "-" +:+ pad2 (day t)
    +:+ " " +:+ pad2 (hour t) +:+ ":" +:+ pad2 (minute t)
    +:+ ":" +:+ pad2 (second t).
Proof. reflexivity. Qed.

Lemma strftime_rendered (t : datetime) :
  rendered_to_the_second t (strftime t "%Y-%m-%d %H:%M:%S").
Proof.
  destruct (datetime_ranges t) as (Hy & Hm & Hd & Hh & Hmi & Hs & _).
  exists (decimal (year t)), (pad2 (month t)), (pad2 (day t)),
    (pad2 (hour t)), (pad2 (minute t)), (pad2 (second t)).
  split; [apply strftime_fields|].
  split; [apply decimal_numeral; lia|].
  repeat split; apply pad2_numeral; lia.
Qed.

Lemma timestamp_pattern_length (s : string) :
  timestamp_pattern s = true → String.length s = 19%nat.
Proof.
  unfold timestamp_pattern. intros H.
  do 19 (destruct s as [|? s]; [discriminate H|]).
  destruct s; [reflexivity|discriminate H].
Qed.

(** The text has the shape [YYYY-MM-DD HH:MM:SS] exactly from the year 1000
    on. *)
Lemma strftime_pattern (t : datetime) :
  timestamp_pattern (strftime t "%Y-%m-%d %H:%M:%S") = true
  ↔ 1000 <= year t.
Proof.
  destruct (datetime_ranges t) as (Hy & Hm & Hd & Hh & Hmi & Hs & _).
  destruct (decimal_length (year t) Hy) as [Hlong Hshort].
  split.
  - intros H. apply timestamp_pattern_length in H.
    rewrite strftime_fields, !length_append in H.
    destruct (pad2_digits (month t)) as (? & ? & E2 & _); [lia|].
    destruct (pad2_digits (day t)) as (? & ? & E3 & _); [lia|].
    destruct (pad2_digits (hour t)) as (? & ? & E4 & _); [lia|].
    destruct (pad2_digits (minute t)) as (? & ? & E5 & _); [lia|].
    destruct (pad2_digits (second t)) as (? & ? & E6 & _); [lia|].
    rewrite E2, E3, E4, E5, E6 in H. cbn [String.length] in H.
    destruct (Z.le_gt_cases 1000 (year t)) as [|Hlt]; [assumption|].
    specialize (Hshort Hlt). lia.
  - intros Hge. rewrite strftime_fields, (decimal_cases _ Hy).
    destruct (Z.ltb_spec (year t) 10); [lia|].
    destruct (Z.ltb_spec (year t) 100); [lia|].
    destruct (Z.ltb_spec (year t) 1000); [lia|].
    destruct (digit_cases (year t / 1000)) as [D1 _];
      [Z.div_mod_to_equations; lia|].
    destruct (digit_cases (year t / 100 mod 10)) as [D2 _];
      [Z.div_mod_to_equations; lia|].
    destruct (digit_cases (year t / 10 mod 10)) as [D3 _];
      [Z.div_mod_to_equations; lia|].
    destruct (digit_cases (year t mod 10)) as [D4 _];
      [Z.div_mod_to_equations; lia|].
    revert D1 D2 D3 D4.
    generalize (digit (year t / 1000)), (digit (year t / 100 mod 10)),
      (digit (year t / 10 mod 10)), (digit (year t mod 10)).
    intros y1 y2 y3 y4 D1 D2 D3 D4.
    destruct (pad2_digits (month t)) as (m1 & m2 & -> & ? & ? & _); [lia|].
    destruct (pad2_digits (day t)) as (d1 & d2 & -> & ? & ? & _); [lia|].
    destruct (pad2_digits (hour t)) as (h1 & h2 & -> & ? & ? & _); [lia|].
    destruct (pad2_digits (minute t)) as (n1 & n2 & -> & ? & ? & _); [lia|].
    destruct (pad2_digits (second t)) as (s1 & s2 & -> & ? & ? & _); [lia|].
    unfold timestamp_pattern. cbv -[is_digit].
    repeat match goal with H : is_digit _ = true |- _ => rewrite H; clear H end.
    reflexivity.
Qed.

(** A text is cut at its first dash in one way only. *)
Lemma digits_then_dash (u u' p p' : string) :
  all_digits u = true → all_digits u' = true →
  u +:+ "-" +:+ p = u' +:+ "-" +:+ p' → u = u' ∧ p = p'.
Proof.
  unfold all_digits.
  revert u'. induction u as [|x u IH]; intros [|x' u'] Hu Hu' H;
    rewrite ?append_cons, ?append_nil in H.
  - injection H as H. auto.
  - injection H as <- _. cbn in Hu'. discriminate Hu'.
  - injection H as -> _. cbn in Hu. discriminate Hu.
  - injection H as <- H.
    cbn [list_ascii_of_string forallb] in Hu, Hu'.
    apply andb_true_iff in Hu as [_ Hu].
    apply andb_true_iff in Hu' as [_ Hu'].
    destruct (IH u' Hu Hu' H) as [<- <-]. auto.
Qed.

Lemma strftime_same_iff (a b : datetime) :
  strftime a "%Y-%m-%d %H:%M:%S" = strftime b "%Y-%m-%d %H:%M:%S"
  ↔ year a = year b ∧ month a = month b ∧ day a = day b
    ∧ hour a = hour b ∧ minute a = minute b ∧ second a = second b.
Proof.
  rewrite !strftime_fields. split.
  - intros H.
    destruct (datetime_ranges a) as (Hy & Hm & Hd & Hh & Hmi & Hs & _).
    destruct (datetime_ranges b) as (Hy' & Hm' & Hd' & Hh' & Hmi' & Hs' & _).
    destruct (decimal_numeral (year a) Hy) as (Da & Va & _).
    destruct (decimal_numeral (year b) Hy') as (Db & Vb & _).
    apply (digits_then_dash _ _ _ _ Da Db) in H as [Hyear H].
    assert (year a = year b) as Eyear by congruence. clear Hyear.
    destruct (pad2_digits (month a)) as (? & ? & E2 & _ & _ & V2); [lia|].
    destruct (pad2_digits (day a)) as (? & ? & E3 & _ & _ & V3); [lia|].
    destruct (pad2_digits (hour a)) as (? & ? & E4 & _ & _ & V4); [lia|].
    destruct (pad2_digits (minute a)) as (? & ? & E5 & _ & _ & V5); [lia|].
    destruct (pad2_digits (second a)) as (? & ? & E6 & _ & _ & V6); [lia|].
    destruct (pad2_digits (month b)) as (? & ? & F2 & _ & _ & W2); [lia|].
    destruct (pad2_digits (day b)) as (? & ? & F3 & _ & _ & W3); [lia|].
    destruct (pad2_digits (hour b)) as (? & ? & F4 & _ & _ & W4); [lia|].
    destruct (pad2_digits (minute b)) as (? & ? & F5 & _ & _ & W5); [lia|].
    destruct (pad2_digits (second b)) as (? & ? & F6 & _ & _ & W6); [lia|].
    rewrite E2, E3, E4, E5, E6, F2, F3, F4, F5, F6 in H.
    cbv [String.append] in H.
    injection H as -> -> -> -> -> -> -> -> -> ->.
    rewrite <- V2, <- V3, <- V4, <- V5, <- V6.
    rewrite <- W2, <- W3, <- W4, <- W5, <- W6.
    rewrite E2, E3, E4, E5, E6, F2, F3, F4, F5, F6.
    repeat split; [exact Eyear|..]; reflexivity.
  - intros (-> & -> & -> & -> & -> & ->). reflexivity.
Qed.

End FormatFacts.

(** C8.  For every response, [dict()] has exactly the ten keys body,
    duration, end, headers, message, method, start, status, type and url;
    [start] and [end] are texts that give the date and time down to the
    second, the year as a plain number and month, day, hour, minute and
    second on two digits each, so that they have the shape
    [YYYY-MM-DD HH:MM:SS] exactly when the year is 1000 or later; [method]
    is the wire token of the method; [duration] is the float of the
    response. *)
Theorem dict_view (r : HTTPResponse.t) :
  let d := HTTPResponse.dict r in
  let timestamp (t : datetime) (entry : option value) :=
    ∃ s : string,
      entry = Some (VStr s) ∧ rendered_to_the_second t s
      ∧ (timestamp_pattern s = true ↔ 1000 <= year t) in
  dom d = ({[ "body"; "duration"; "end"; "headers"; "message"; "method";
              "start"; "status"; "type"; "url" ]} : gset string)
  ∧ timestamp (HTTPResponse.start r) (d !! "start")
  ∧ timestamp (HTTPResponse.end_ r) (d !! "end")
  ∧ d !! "method"
    = Some (VStr match HTTPResponse.method r with
                 | HTTPMethod.GET => "GET"
                 | HTTPMethod.POST => "POST"
                 | HTTPMethod.PUT => "PUT"
                 | HTTPMethod.DELETE => "DELETE"
                 | HTTPMethod.PATCH => "PATCH"
                 | HTTPMethod.HEAD => "HEAD"
                 | HTTPMethod.OPTIONS => "OPTIONS"
                 | HTTPMethod.TRACE => "TRACE"
                 end)
  ∧ d !! "duration" = Some (VFloat (HTTPResponse.duration r))
  ∧ d !! "body" = Some (VDict (HTTPResponse.body r))
  ∧ d !! "headers" = Some (VDict (HTTPResponse.headers r))
  ∧ d !! "message" = Some (VStr (HTTPResponse.message r))
  ∧ d !! "status" = Some (VInt (HTTPResponse.status r))
  ∧ d !! "type" = Some (VStr (HTTPResponse.type r))
  ∧ d !! "url" = Some (VStr (HTTPResponse.url r)).
Proof.
  intros d timestamp. subst d timestamp. cbv beta.
  split.
  { unfold HTTPResponse.dict. rewrite !dom_insert_L, dom_empty_L. set_solver. }
  split.
  { exists (strftime (HTTPResponse.start r) "%Y-%m-%d %H:%M:%S").
    split; [reflexivity|].
    split; [apply strftime_rendered|apply strftime_pattern]. }
  split.
  { exists (strftime (HTTPResponse.end_ r) "%Y-%m-%d %H:%M:%S").
    split; [reflexivity|].
    split; [apply strftime_rendered|apply strftime_pattern]. }
  split.
  { change (HTTPResponse.dict r !! "method")
      with (Some (VStr (HTTPMethod.value (HTTPResponse.method r)))).
    destruct (HTTPResponse.method r); reflexivity. }
  repeat split; reflexivity.
Qed.

Lemma dict_view_witness :
  let r :=
    HTTPResponse.__init__
      (mk_datetime 2024 3 1 0 0 1 500000 eq_refl) ∅ "OK" HTTPMethod.GET
      (mk_datetime 2024 2 29 23 59 58 250000 eq_refl) 200
      "text/plain" "https://example.org" None in
  HTTPResponse.dict r !! "start" = Some (VStr "2024-02-29 23:59:58")
  ∧ timestamp_pattern "2024-02-29 23:59:58" = true
  ∧ HTTPResponse.dict r !! "method" = Some (VStr "GET").
Proof.
  intros r.
  destruct (dict_view r) as (_ & (s & Es & _ & Hs) & _ & Hm & _).
  assert (s = "2024-02-29 23:59:58") as -> by (injection Es as <-; reflexivity).
  split; [exact Es|]. split; [|exact Hm].
  apply Hs. vm_compute. discriminate.
Defined.

(** C8, as stated, fails for a response of the year 999: the [start] text
    has the year on three digits, and so not the shape
    [YYYY-MM-DD HH:MM:SS]. *)
Lemma dict_start_in_year_999 :
  let r :=
    HTTPResponse.__init__
      (mk_datetime 999 1 2 3 4 6 0 eq_refl) ∅ "OK" HTTPMethod.GET
      (mk_datetime 999 1 2 3 4 5 0 eq_refl) 200
      "text/plain" "https://example.org" None in
  HTTPResponse.dict r !! "start" = Some (VStr "999-01-02 03:04:05")
  ∧ timestamp_pattern "999-01-02 03:04:05" = false.
Proof. intros r. split; reflexivity. Qed.

(** ** HTTPResponseBuilder *)

Section BuilderFacts.

Import HTTPResponseBuilder.

Lemma body_or_empty_Some (b : gmap string value) :
  HTTPResponse.body_or_empty (Some b) = b.
Proof.
  unfold HTTPResponse.body_or_empty.
  destruct (map_to_list b) eqn:E; [|reflexivity].
  symmetry. apply map_to_list_empty_iff. exact E.
Qed.

Lemma first_missing_Some (self : gmap string value) (key : string) :
  first_missing self = Some key → In key required ∧ self !! key = None.
Proof.
  unfold first_missing. intros H.
  destruct (find_some _ _ H) as [Hin Hk]. split; [exact Hin|].
  destruct (self !! key); [discriminate Hk|reflexivity].
Qed.

Lemma first_missing_None (self : gmap string value) (key : string) :
  first_missing self = None → In key required → is_Some (self !! key).
Proof.
  unfold first_missing. intros H Hin.
  pose proof (find_none _ _ H key Hin) as Hk. cbn beta in Hk.
  destruct (self !! key); [eauto|discriminate Hk].
Qed.

(** [build] raises the [KeyError] of the first key it cannot read. *)
Lemma build_first_missing (self : gmap string value) (key : string) :
  first_missing self = Some key → build self = Raise (KeyError key).
Proof.
  intros H. unfold first_missing, required in H. cbn [find] in H.
  unfold build, getitem.
  repeat match type of H with
         | context [self !! ?k] =>
             destruct (self !! k) eqn:?;
             [|injection H as <-; reflexivity]
         end.
  discriminate H.
Qed.

(** With every required key present and of its annotated type, [build]
    returns the response made of the stored values. *)
Lemma build_complete (self : gmap string value) :
  well_typed self → first_missing self = None →
  ∃ end_ headers message method start status type url,
    self !! "end" = Some (VDatetime end_)
    ∧ self !! "headers" = Some (VDict headers)
    ∧ self !! "message" = Some (VStr message)
    ∧ self !! "method" = Some (VMethod method)
    ∧ self !! "start" = Some (VDatetime start)
    ∧ self !! "status" = Some (VInt status)
    ∧ self !! "type" = Some (VStr type)
    ∧ self !! "url" = Some (VStr url)
    ∧ ∃ body,
        default (VDict ∅) (self !! "body") = VDict body
        ∧ build self
          = Ok (HTTPResponse.__init__ end_ headers message method start
                  status type url (Some body)).
Proof.
  intros Hwt Hnone.
  assert (∀ key, In key required →
            ∃ v, self !! key = Some v ∧ has_annotated_type key v) as Hreq.
  { intros key Hin. destruct (first_missing_None _ _ Hnone Hin) as [v Hv].
    exists v. split; [exact Hv|]. apply Hwt, Hv. }
  destruct (Hreq "end") as (? & E1 & [end_ ->]); [cbn; tauto|].
  destruct (Hreq "headers") as (? & E2 & [headers ->]); [cbn; tauto|].
  destruct (Hreq "message") as (? & E3 & [message ->]); [cbn; tauto|].
  destruct (Hreq "method") as (? & E4 & [method ->]); [cbn; tauto|].
  destruct (Hreq "start") as (? & E5 & [start ->]); [cbn; tauto|].
  destruct (Hreq "status") as (? & E6 & [status ->]); [cbn; tauto|].
  destruct (Hreq "type") as (? & E7 & [type ->]); [cbn; tauto|].
  destruct (Hreq "url") as (? & E8 & [url ->]); [cbn; tauto|].
  exists end_, headers, message, method, start, status, type, url.
  repeat (split; [assumption|]).
  assert (∃ body, default (VDict ∅) (self !! "body") = VDict body)
    as [body Hbody].
  { destruct (self !! "body") as [v|] eqn:E9.
    - destruct (Hwt _ _ E9) as [d ->]. exists d. reflexivity.
    - exists ∅. reflexivity. }
  exists body. split; [exact Hbody|].
  unfold build, getitem. rewrite E1, E2, E3, E4, E5, E6, E7, E8, Hbody.
  reflexivity.
Qed.

(** The setters store values of the annotated types. *)
Lemma apply_setter_well_typed (self : gmap string value) (c : setter) :
  well_typed self → well_typed (apply_setter self c).
Proof.
  intros Hwt key v.
  destruct c as [b| | | | | | | |]; cbn [apply_setter];
    unfold with_body, with_end, with_headers, with_message, with_method,
      with_start, with_status, with_type, with_url;
    (rewrite lookup_insert; case_decide as Hk;
     [subst key; intros [= <-]|apply Hwt]).
  - destruct b; cbn; eauto.
  - cbn; eauto.
  - cbn; eauto.
  - cbn; eauto.
  - cbn; eauto.
  - cbn; eauto.
  - cbn; eauto.
  - cbn; eauto.
  - cbn; eauto.
Qed.

Lemma configured_well_typed (calls : list setter) :
  well_typed (configured calls).
Proof.
  unfold configured.
  assert (∀ self, well_typed self → well_typed (fold_left apply_setter calls self))
    as H.
  { induction calls as [|c calls IH]; intros self Hwt; [exact Hwt|].
    cbn [fold_left]. apply IH, apply_setter_well_typed, Hwt. }
  apply H. intros key v Hk. unfold __init__ in Hk.
  rewrite lookup_empty in Hk. discriminate Hk.
Qed.

(** A builder either builds or names a missing required key; it does not
    fail otherwise. *)
Lemma build_configured (calls : list setter) :
  (∃ r, build (configured calls) = Ok r)
  ∨ (∃ key, In key required ∧ configured calls !! key = None
            ∧ build (configured calls) = Raise (KeyError key)).
Proof.
  destruct (first_missing (configured calls)) as [key|] eqn:E.
  - right. exists key. destruct (first_missing_Some _ _ E) as [Hin Hk].
    auto using build_first_missing.
  - left.
    destruct (build_complete _ (configured_well_typed calls) E)
      as (? & ? & ? & ? & ? & ? & ? & ? & _ & _ & _ & _ & _ & _ & _ & _
          & ? & _ & Hb).
    eauto.
Qed.

Lemma with_body_lookup (v : value) (self : gmap string value) :
  with_body v self !! "body" = Some (VDict (stored_body v)).
Proof.
  unfold with_body. rewrite lookup_insert_eq. destruct v; reflexivity.
Qed.

(** What a successful [build] returns. *)
Lemma build_Ok (self : gmap string value) (r : HTTPResponse.t) :
  build self = Ok r →
  ∃ end_ headers message method start status type url body,
    default (VDict ∅) (self !! "body") = VDict body
    ∧ self !! "status" = Some (VInt status)
    ∧ self !! "type" = Some (VStr type)
    ∧ r = HTTPResponse.__init__ end_ headers message method start status
            type url (Some body).
Proof.
  intros Hb. unfold build, getitem in Hb.
  destruct (self !! "end") as [v1|]; [|discriminate Hb].
  destruct (self !! "headers") as [v2|]; [|discriminate Hb].
  destruct (self !! "message") as [v3|]; [|discriminate Hb].
  destruct (self !! "method") as [v4|]; [|discriminate Hb].
  destruct (self !! "start") as [v5|]; [|discriminate Hb].
  destruct (self !! "status") as [v6|] eqn:E6; [|discriminate Hb].
  destruct (self !! "type") as [v7|] eqn:E7; [|discriminate Hb].
  destruct (self !! "url") as [v8|]; [|discriminate Hb].
  cbn [mbind result_bind] in Hb.
  destruct v1; cbn [mbind result_bind as_datetime] in Hb; try discriminate Hb.
  destruct v2; cbn [mbind result_bind as_dict] in Hb; try discriminate Hb.
  destruct v3; cbn [mbind result_bind as_str] in Hb; try discriminate Hb.
  destruct v4; cbn [mbind result_bind as_method] in Hb; try discriminate Hb.
  destruct v5; cbn [mbind result_bind as_datetime] in Hb; try discriminate Hb.
  destruct v6; cbn [mbind result_bind as_int] in Hb; try discriminate Hb.
  destruct v7; cbn [mbind result_bind as_str] in Hb; try discriminate Hb.
  destruct v8; cbn [mbind result_bind as_str] in Hb; try discriminate Hb.
  destruct (default (VDict ∅) (self !! "body")) eqn:Ebody;
    cbn [mbind result_bind as_dict] in Hb; try discriminate Hb.
  injection Hb as <-. unfold HTTPResponseFactory.create_response.
  do 9 eexists. repeat split; reflexivity.
Qed.

Lemma build_with_body (v : value) (self : gmap string value)
    (r : HTTPResponse.t) :
  build (with_body v self) = Ok r → HTTPResponse.body r = stored_body v.
Proof.
  intros Hb.
  destruct (build_Ok _ _ Hb)
    as (? & ? & ? & ? & ? & ? & ? & ? & body & Hbody & _ & _ & ->).
  rewrite with_body_lookup in Hbody. cbn [default] in Hbody.
  injection Hbody as <-.
  cbn [HTTPResponse.body HTTPResponse.__init__ HTTPResponse._body].
  apply body_or_empty_Some.
Qed.

End BuilderFacts.

(** C3.  When a required field (end, headers, message, method, start,
    status, type, url) is missing from the configuration, [build()] fails
    with a [KeyError] that names a missing required field, the first one in
    the order [build] reads them, hence the missing field itself when it is
    the only one; with every required field set and no body, [build()]
    returns a response whose body is the empty mapping. *)
Theorem build_reports_missing_field (self : gmap string value) :
  (∀ field, In field HTTPResponseBuilder.required → self !! field = None →
     ∃ named,
       HTTPResponseBuilder.build self = Raise (KeyError named)
       ∧ In named HTTPResponseBuilder.required
       ∧ self !! named = None
       ∧ first_missing self = Some named)
  ∧ (∀ field, In field HTTPResponseBuilder.required → self !! field = None →
     (∀ other, In other HTTPResponseBuilder.required → other ≠ field →
        is_Some (self !! other)) →
     HTTPResponseBuilder.build self = Raise (KeyError field))
  ∧ (well_typed self →
     (∀ field, In field HTTPResponseBuilder.required →
        is_Some (self !! field)) →
     self !! "body" = None →
     ∃ r, HTTPResponseBuilder.build self = Ok r ∧ HTTPResponse.body r = ∅).
Proof.
  assert (∀ field, In field HTTPResponseBuilder.required →
            self !! field = None →
            ∃ named,
              HTTPResponseBuilder.build self = Raise (KeyError named)
              ∧ In named HTTPResponseBuilder.required
              ∧ self !! named = None
              ∧ first_missing self = Some named) as Hfirst.
  { intros field Hin Hnone.
    destruct (first_missing self) as [named|] eqn:E.
    - exists named. destruct (first_missing_Some _ _ E) as [Hreq Hmiss].
      auto using build_first_missing.
    - destruct (first_missing_None _ _ E Hin) as [v Hv]. congruence. }
  split; [exact Hfirst|]. split.
  - intros field Hin Hnone Hothers.
    destruct (Hfirst field Hin Hnone) as (named & Hb & Hreq & Hmiss & _).
    destruct (String.eqb_spec named field) as [<-|Hne]; [exact Hb|].
    destruct (Hothers named Hreq Hne) as [v Hv]. congruence.
  - intros Hwt Hall Hbody.
    assert (first_missing self = None) as Hnone.
    { destruct (first_missing self) as [key|] eqn:E; [|reflexivity].
      destruct (first_missing_Some _ _ E) as [Hreq Hmiss].
      destruct (Hall key Hreq) as [v Hv]. congruence. }
    destruct (build_complete self Hwt Hnone)
      as (? & ? & ? & ? & ? & ? & ? & ? & _ & _ & _ & _ & _ & _ & _ & _
          & body & Hdefault & Hb).
    rewrite Hbody in Hdefault. cbn [default] in Hdefault.
    injection Hdefault as <-.
    eexists. split; [exact Hb|].
    cbn [HTTPResponse.body HTTPResponse.__init__ HTTPResponse._body].
    apply body_or_empty_Some.
Qed.

Lemma build_reports_missing_field_witness :
  let t0 := mk_datetime 2025 8 8 12 0 0 0 eq_refl in
  let t1 := mk_datetime 2025 8 8 12 0 1 500000 eq_refl in
  let partial :=
    configured [WithMethod HTTPMethod.GET; WithUrl "https://example.org";
                WithHeaders ∅; WithStart t0; WithMessage "OK";
                WithType "text/plain"; WithEnd t1] in
  HTTPResponseBuilder.build partial = Raise (KeyError "status")
  ∧ ∃ r, HTTPResponseBuilder.build (apply_setter partial (WithStatus 200))
         = Ok r
         ∧ HTTPResponse.body r = ∅.
Proof.
  intros t0 t1 partial. split.
  - apply (proj1 (proj2 (build_reports_missing_field partial)) "status").
    + cbn. tauto.
    + reflexivity.
    + intros other Hin Hne. cbn in Hin.
      repeat (destruct Hin as [<-|Hin];
              [first [eexists; reflexivity | congruence]|]).
      contradiction.
  - apply (proj2 (proj2 (build_reports_missing_field
                           (apply_setter partial (WithStatus 200))))).
    + apply (configured_well_typed
               [WithMethod HTTPMethod.GET; WithUrl "https://example.org";
                WithHeaders ∅; WithStart t0; WithMessage "OK";
                WithType "text/plain"; WithEnd t1; WithStatus 200]).
    + intros field Hin. cbn in Hin.
      repeat (destruct Hin as [<-|Hin]; [eexists; reflexivity|]).
      contradiction.
    + reflexivity.
Defined.

(** C10.  [with_body] stores a mapping unchanged and any other value as the
    single-entry mapping from ["body"] to it; a response built after
    [with_body] has that mapping as its body, so a text or bytes value is
    found under the key ["body"]; and building from a builder fails only
    for a missing required field, never for its body. *)
Theorem with_body_stores_mapping (v : value) (self : gmap string value) :
  (∀ d, v = VDict d →
     HTTPResponseBuilder.with_body v self !! "body" = Some (VDict d))
  ∧ ((∀ d, v ≠ VDict d) →
     HTTPResponseBuilder.with_body v self !! "body"
     = Some (VDict {[ "body" := v ]}))
  ∧ (∀ r, HTTPResponseBuilder.build (HTTPResponseBuilder.with_body v self)
          = Ok r →
       (∀ d, v = VDict d → HTTPResponse.body r = d)
       ∧ ((∀ d, v ≠ VDict d) →
          HTTPResponse.body r = {[ "body" := v ]}
          ∧ HTTPResponse.__getitem__ r "body" = v))
  ∧ (∀ calls,
       (∃ r, HTTPResponseBuilder.build (configured calls) = Ok r)
       ∨ (∃ key, In key HTTPResponseBuilder.required
                 ∧ configured calls !! key = None
                 ∧ HTTPResponseBuilder.build (configured calls)
                   = Raise (KeyError key))).
Proof.
  assert (∀ d, v = VDict d → stored_body v = d) as Hdict
    by (intros d ->; reflexivity).
  assert ((∀ d, v ≠ VDict d) → stored_body v = {[ "body" := v ]}) as Hother.
  { intros Hv. destruct v; try reflexivity. exfalso. eapply Hv. reflexivity. }
  split; [|split; [|split]].
  - intros d Hv. rewrite with_body_lookup, (Hdict d Hv). reflexivity.
  - intros Hv. rewrite with_body_lookup, (Hother Hv). reflexivity.
  - intros r Hb. pose proof (build_with_body _ _ _ Hb) as Hbody. split.
    + intros d Hv. rewrite Hbody. apply Hdict, Hv.
    + intros Hv. rewrite <- (Hother Hv). split; [exact Hbody|].
      unfold HTTPResponse.__getitem__.
      change (HTTPResponse._body r) with (HTTPResponse.body r).
      rewrite Hbody, (Hother Hv), lookup_singleton_eq. reflexivity.
  - exact build_configured.
Qed.

Lemma with_body_stores_mapping_witness :
  HTTPResponseBuilder.with_body (VStr "<html/>") ∅ !! "body"
  = Some (VDict {[ "body" := VStr "<html/>" ]})
  ∧ HTTPResponseBuilder.with_body (VDict {[ "id" := VInt 1 ]}) ∅ !! "body"
    = Some (VDict {[ "id" := VInt 1 ]}).
Proof.
  split.
  - apply (proj1 (proj2 (with_body_stores_mapping (VStr "<html/>") ∅))).
    intros d H. discriminate H.
  - apply (proj1 (with_body_stores_mapping (VDict {[ "id" := VInt 1 ]}) ∅)).
    reflexivity.
Defined.

(** ** HTTPService *)

Section ServiceFacts.

Import HTTPResponseBuilder HTTPService.

Variable now_at : nat → datetime.
Variable transport : aiohttp.request → result aiohttp.ClientResponse.

Lemma logged_logged (w : world) (n m : nat) (es fs : list event) :
  logged (logged w n es) m fs = logged w (m + n) (es ++ fs).
Proof.
  unfold logged. cbn [clock log]. f_equal; [lia|].
  symmetry. apply app_assoc.
Qed.

Lemma emit_run (e : event) (w : world) : emit e w = (Ok tt, logged w 0 [e]).
Proof. reflexivity. Qed.

Lemma now_run (w : world) :
  now now_at w = (Ok (now_at (clock w)), logged w 1 []).
Proof.
  unfold now, logged. cbn [Nat.add]. rewrite app_nil_r. reflexivity.
Qed.

(** The code's dispatch is the one the specification words. *)
Lemma handle_content_type_run (content_type : string)
    (response : aiohttp.ClientResponse) (w : world) :
  _handle_content_type content_type response w
  = (decoded (spec_strategy content_type) response,
     logged w 0 [BodyRead (spec_strategy content_type)]).
Proof.
  unfold _handle_content_type, spec_strategy.
  destruct (String.eqb content_type "application/json").
  { unfold response_json. reflexivity. }
  destruct (String.eqb content_type "application/xml").
  { unfold response_text. cbn. destruct (aiohttp.text response); reflexivity. }
  destruct (String.eqb content_type "application/octet-stream").
  { unfold response_read. cbn. destruct (aiohttp.read response); reflexivity. }
  destruct (String.prefix "image/" content_type).
  { unfold response_read. cbn. destruct (aiohttp.read response); reflexivity. }
  unfold response_text. cbn. destruct (aiohttp.text response); reflexivity.
Qed.

Lemma build_after_setters (end_ : datetime) (headers : gmap string value)
    (message : string) (method : HTTPMethod.t) (start : datetime)
    (status : Z) (type url : string) (v : value) :
  build (with_end end_ (with_body v (with_type type (with_message message
           (with_status status (with_start start (with_headers headers
              (with_url url (with_method method __init__)))))))))
  = Ok (HTTPResponse.__init__ end_ headers message method start status type
          url (Some (stored_body v))).
Proof. destruct v; reflexivity. Qed.

Lemma bind_run {A B} (m : M A) (k : A → M B) (w : world) :
  (m ≫= k) w
  = match m w with
    | (Ok a, w') => k a w'
    | (Raise e, w') => (Raise e, w')
    end.
Proof. reflexivity. Qed.

Lemma lift_run {A} (r : result A) (w : world) : lift r w = (r, w).
Proof. reflexivity. Qed.

Lemma ret_run {A} (a : A) (w : world) : (mret a : M A) w = (Ok a, w).
Proof. reflexivity. Qed.

Lemma with_session_run {A} (block : M A) (w : world) :
  with_session block w
  = let '(r, w') := block (logged w 0 [SessionOpened]) in
    (r, logged w' 0 [SessionClosed]).
Proof. reflexivity. Qed.

Lemma with_response_run {A} (verb url : string)
    (headers data : option (gmap string value)) (kwargs : gmap string value)
    (block : aiohttp.ClientResponse → M A) (w : world) :
  with_response transport verb url headers data kwargs block w
  = match aiohttp.session_verb verb with
    | Raise e => (Raise e, w)
    | Ok method =>
        let rq := aiohttp.mk_request method url headers data kwargs in
        match transport rq with
        | Raise e => (Raise e, logged w 0 [RequestSent rq])
        | Ok response =>
            let '(r, w') := block response (logged w 0 [RequestSent rq]) in
            (r, logged w' 0 [ResponseReleased])
        end
    end.
Proof.
  unfold with_response. rewrite bind_run, lift_run.
  destruct (aiohttp.session_verb verb) as [method|e]; [|reflexivity].
  cbv zeta. rewrite bind_run, emit_run, bind_run, lift_run.
  destruct (transport _); reflexivity.
Qed.

Lemma raise_for_status_run (response : aiohttp.ClientResponse) (w : world) :
  raise_for_status response w
  = (aiohttp.raise_for_status response, logged w 0 [StatusChecked]).
Proof. reflexivity. Qed.

(** A complete account of [get] on a response. *)
Lemma get_run (url : string) (kwargs : gmap string value) (w : world)
    (response : aiohttp.ClientResponse) :
  let rq := aiohttp.mk_request HTTPMethod.GET url None None kwargs in
  let how := spec_strategy (aiohttp.content_type response) in
  transport rq = Ok response →
  get now_at transport url kwargs w
  = if aiohttp.ok response then
      match decoded how response with
      | Ok v =>
          let r := HTTPResponse.__init__ (now_at (S (clock w))) ∅
                     (aiohttp.reason response) HTTPMethod.GET
                     (now_at (clock w)) (aiohttp.status response)
                     (aiohttp.content_type response) url
                     (Some (stored_body v)) in
          (Ok r,
           logged w 2 [SessionOpened; RequestSent rq; StatusChecked;
                       BodyRead how; ResponseReleased; SessionClosed;
                       ResponseConstructed r])
      | Raise e =>
          (Raise e,
           logged w 1 [SessionOpened; RequestSent rq; StatusChecked;
                       BodyRead how; ResponseReleased; SessionClosed])
      end
    else
      (Raise (ClientResponseError (aiohttp.status response)
                (aiohttp.reason response)),
       logged w 1 [SessionOpened; RequestSent rq; StatusChecked;
                   ResponseReleased; SessionClosed]).
Proof.
  intros rq how Ht. subst rq how. unfold get.
  rewrite bind_run, now_run. cbv beta iota.
  rewrite bind_run, with_session_run, with_response_run.
  change (aiohttp.session_verb "get") with (@Ok HTTPMethod.t HTTPMethod.GET).
  cbv beta iota zeta. rewrite Ht. cbv beta iota.
  rewrite bind_run, raise_for_status_run. unfold aiohttp.raise_for_status.
  destruct (aiohttp.ok response); cbv beta iota.
  - rewrite bind_run, handle_content_type_run.
    destruct (decoded _ response) as [v|e]; cbv beta iota.
    + rewrite bind_run, now_run. cbv beta iota. rewrite ret_run.
      unfold builder_build.
      rewrite bind_run, lift_run, build_after_setters. cbv beta iota.
      rewrite bind_run, emit_run. cbv beta iota. rewrite ret_run.
      rewrite !logged_logged. reflexivity.
    + rewrite !logged_logged. reflexivity.
  - rewrite !logged_logged. reflexivity.
Qed.

Ltac stops_at_type_run verb m :=
  rewrite bind_run, now_run; cbv beta iota;
  rewrite bind_run, with_session_run, with_response_run;
  change (aiohttp.session_verb verb) with (@Ok HTTPMethod.t m);
  cbv beta iota zeta; unfold stops_at_type;
  destruct (transport _) as [response|e]; cbv beta iota;
  [ rewrite bind_run, raise_for_status_run; unfold aiohttp.raise_for_status;
    destruct (aiohttp.ok response); cbv beta iota;
    [ rewrite bind_run, lift_run; unfold str_JSON; cbv beta iota |];
    rewrite !logged_logged; reflexivity
  | rewrite !logged_logged; reflexivity ].

Lemma post_run (url : string) (data headers kwargs : gmap string value)
    (w : world) :
  post now_at transport url data headers kwargs w
  = stops_at_type transport
      (aiohttp.mk_request HTTPMethod.POST url (Some headers) (Some data) kwargs)
      w.
Proof. unfold post. stops_at_type_run "post" HTTPMethod.POST. Qed.

Lemma put_run (url : string) (data headers kwargs : gmap string value)
    (w : world) :
  put now_at transport url data headers kwargs w
  = stops_at_type transport
      (aiohttp.mk_request HTTPMethod.PUT url (Some headers) (Some data) kwargs)
      w.
Proof. unfold put. stops_at_type_run "put" HTTPMethod.PUT. Qed.

Lemma delete_run (url : string) (data headers kwargs : gmap string value)
    (w : world) :
  delete now_at transport url data headers kwargs w
  = stops_at_type transport
      (aiohttp.mk_request HTTPMethod.DELETE url (Some headers) (Some data) kwargs)
      w.
Proof. unfold delete. stops_at_type_run "delete" HTTPMethod.DELETE. Qed.

Lemma patch_run (url : string) (data headers kwargs : gmap string value)
    (w : world) :
  patch now_at transport url data headers kwargs w
  = stops_at_type transport
      (aiohttp.mk_request HTTPMethod.PATCH url (Some headers) (Some data) kwargs)
      w.
Proof. unfold patch. stops_at_type_run "patch" HTTPMethod.PATCH. Qed.

Lemma options_run (url : string) (headers kwargs : gmap string value)
    (w : world) :
  options now_at transport url headers kwargs w
  = stops_at_type transport
      (aiohttp.mk_request HTTPMethod.OPTIONS url (Some headers) None kwargs)
      w.
Proof. unfold options. stops_at_type_run "options" HTTPMethod.OPTIONS. Qed.

(** [trace] stops at [session.trace]: no request is sent. *)
Lemma trace_run (url : string) (kwargs : gmap string value) (w : world) :
  trace now_at transport url kwargs w
  = (Raise (AttributeError "trace"), logged w 1 [SessionOpened; SessionClosed]).
Proof.
  unfold trace. rewrite bind_run, now_run. cbv beta iota.
  rewrite bind_run, with_session_run, with_response_run.
  change (aiohttp.session_verb "trace")
    with (@Raise HTTPMethod.t (AttributeError "trace")).
  cbv beta iota. rewrite !logged_logged. reflexivity.
Qed.

(** A failure of the transport reaches the caller of [get]. *)
Lemma get_run_error (url : string) (kwargs : gmap string value) (w : world)
    (e : exn) :
  let rq := aiohttp.mk_request HTTPMethod.GET url None None kwargs in
  transport rq = Raise e →
  get now_at transport url kwargs w
  = (Raise e, logged w 1 [SessionOpened; RequestSent rq; SessionClosed]).
Proof.
  intros rq Ht. subst rq. unfold get.
  rewrite bind_run, now_run. cbv beta iota.
  rewrite bind_run, with_session_run, with_response_run.
  change (aiohttp.session_verb "get") with (@Ok HTTPMethod.t HTTPMethod.GET).
  cbv beta iota zeta. rewrite Ht. cbv beta iota.
  rewrite !logged_logged. reflexivity.
Qed.

Lemma stops_at_type_raises (rq : aiohttp.request) (w : world) :
  ∃ e w', stops_at_type transport rq w = (Raise e, w').
Proof.
  unfold stops_at_type. destruct (transport rq) as [response|e]; [|eauto].
  destruct (aiohttp.ok response); eauto.
Qed.

(** Every verb but [get] raises, whatever the transport answers. *)
Lemma placeholder_verbs_never_return (c : verb_call) (w : world) :
  (∀ url kwargs, c ≠ Get url kwargs) →
  ∃ e w', run_call now_at transport c w = (Raise e, w').
Proof.
  intros Hc. destruct c; cbn [run_call].
  - exfalso. eapply Hc. reflexivity.
  - rewrite post_run. apply stops_at_type_raises.
  - rewrite put_run. apply stops_at_type_raises.
  - rewrite delete_run. apply stops_at_type_raises.
  - rewrite patch_run. apply stops_at_type_raises.
  - rewrite options_run. apply stops_at_type_raises.
  - rewrite trace_run. eauto.
Qed.

(** What a verb call that returns has done. *)
Lemma run_call_Ok (c : verb_call) (w w' : world) (r : HTTPResponse.t) :
  run_call now_at transport c w = (Ok r, w') →
  ∃ url kwargs response v,
    let rq := aiohttp.mk_request HTTPMethod.GET url None None kwargs in
    let how := spec_strategy (aiohttp.content_type response) in
    c = Get url kwargs
    ∧ transport rq = Ok response
    ∧ aiohttp.ok response = true
    ∧ decoded how response = Ok v
    ∧ r = HTTPResponse.__init__ (now_at (S (clock w))) ∅
            (aiohttp.reason response) HTTPMethod.GET (now_at (clock w))
            (aiohttp.status response) (aiohttp.content_type response) url
            (Some (stored_body v))
    ∧ w' = logged w 2 [SessionOpened; RequestSent rq; StatusChecked;
                       BodyRead how; ResponseReleased; SessionClosed;
                       ResponseConstructed r].
Proof.
  intros Hrun.
  destruct c as [url kwargs| | | | | |];
    try (match type of Hrun with
         | run_call _ _ ?c' _ = _ =>
             destruct (placeholder_verbs_never_return c' w) as (e & w1 & He);
             [intros ? ? Heq; discriminate Heq|congruence]
         end).
  cbn [run_call] in Hrun.
  destruct (transport (aiohttp.mk_request HTTPMethod.GET url None None kwargs))
    as [response|e] eqn:Ht.
  - rewrite (get_run _ _ _ _ Ht) in Hrun.
    destruct (aiohttp.ok response) eqn:Hok; [|discriminate Hrun].
    destruct (decoded _ response) as [v|e] eqn:Hv; [|discriminate Hrun].
    cbv zeta in Hrun. injection Hrun as <- <-.
    exists url, kwargs, response, v. cbv zeta. auto 10.
  - rewrite (get_run_error _ _ _ _ Ht) in Hrun. discriminate Hrun.
Qed.

End ServiceFacts.


(** C2 (amended).  For every verb call whose request reaches the transport
    and is answered with a status of 400 or more, the call fails with the
    transport's status error, which carries the status and the reason; the
    error is raised right after the status check, so that the body is not
    read and no response is constructed. *)
Theorem status_error_before_body
    (now_at : nat → datetime)
    (transport : aiohttp.request → result aiohttp.ClientResponse)
    (c : verb_call) (w : world) (rq : aiohttp.request)
    (response : aiohttp.ClientResponse) :
  request_of c = Some rq →
  transport rq = Ok response →
  400 <= aiohttp.status response →
  let es := [SessionOpened; RequestSent rq; StatusChecked; ResponseReleased;
             SessionClosed] in
  run_call now_at transport c w
  = (Raise (ClientResponseError (aiohttp.status response)
              (aiohttp.reason response)),
     logged w 1 es)
  ∧ List.filter is_body_read es = []
  ∧ List.filter is_constructed es = [].
Proof.
  intros Hrq Ht Hstatus es.
  assert (aiohttp.ok response = false) as Hok
    by (unfold aiohttp.ok; apply Z.ltb_ge; exact Hstatus).
  split; [|split; reflexivity].
  destruct c; cbn [request_of] in Hrq; try discriminate Hrq;
    injection Hrq as <-; cbn [run_call].
  - rewrite (get_run _ _ _ _ _ _ Ht), Hok. reflexivity.
  - rewrite post_run. unfold stops_at_type. rewrite Ht, Hok. reflexivity.
  - rewrite put_run. unfold stops_at_type. rewrite Ht, Hok. reflexivity.
  - rewrite delete_run. unfold stops_at_type. rewrite Ht, Hok. reflexivity.
  - rewrite patch_run. unfold stops_at_type. rewrite Ht, Hok. reflexivity.
  - rewrite options_run. unfold stops_at_type. rewrite Ht, Hok. reflexivity.
Qed.

Lemma status_error_before_body_witness :
  let t0 := mk_datetime 2025 8 8 12 0 0 0 eq_refl in
  let response :=
    aiohttp.mk_response 404 "Not Found" "text/html"
      (Raise (ValueError "json")) (Ok "missing") (Ok []) in
  let rq :=
    aiohttp.mk_request HTTPMethod.GET "https://example.org/none" None None ∅ in
  HTTPService.get (λ _, t0) (λ _, Ok response) "https://example.org/none" ∅
    initial_world
  = (Raise (ClientResponseError 404 "Not Found"),
     logged initial_world 1
       [SessionOpened; RequestSent rq; StatusChecked; ResponseReleased;
        SessionClosed]).
Proof.
  intros t0 response rq.
  apply (status_error_before_body (λ _, t0) (λ _, Ok response)
           (Get "https://example.org/none" ∅) initial_world rq response).
  - reflexivity.
  - reflexivity.
  - cbn. lia.
Defined.

(** C2, as stated, fails: status 304 is not a 2xx status, yet [get]
    returns a response, one whose [success()] is false. *)
Lemma get_returns_response_for_304 :
  let t0 := mk_datetime 2025 8 8 12 0 0 0 eq_refl in
  let response :=
    aiohttp.mk_response 304 "Not Modified" "application/octet-stream"
      (Raise (ValueError "json")) (Ok "") (Ok []) in
  let r :=
    HTTPResponse.__init__ t0 ∅ "Not Modified" HTTPMethod.GET t0 304
      "application/octet-stream" "https://example.org"
      (Some {[ "body" := VBytes [] ]}) in
  ¬ (200 <= aiohttp.status response < 300)
  ∧ fst (HTTPService.get (λ _, t0) (λ _, Ok response) "https://example.org" ∅
           initial_world)
    = Ok r
  ∧ HTTPResponse.success r = false.
Proof.
  intros t0 response r. split; [cbn; lia|].
  split; [|reflexivity].
  rewrite (get_run (λ _, t0) (λ _, Ok response) "https://example.org" ∅
             initial_world response eq_refl).
  reflexivity.
Qed.

(** C4.  The way the body is read follows from the declared content type:
    [application/json] is decoded as JSON, [application/xml] read as text,
    [application/octet-stream] and every type starting with [image/] read
    as bytes, and every other type read as text; and a verb call that
    returns has read the body once, in that way, and carries what was
    read. *)
Theorem body_decoding_by_content_type
    (now_at : nat → datetime)
    (transport : aiohttp.request → result aiohttp.ClientResponse) :
  (∀ content_type response w,
     HTTPService._handle_content_type content_type response w
     = (decoded (spec_strategy content_type) response,
        logged w 0 [BodyRead (spec_strategy content_type)]))
  ∧ (∀ content_type,
       (content_type = "application/json" →
        spec_strategy content_type = AsJson)
       ∧ (content_type = "application/xml" →
          spec_strategy content_type = AsText)
       ∧ (content_type = "application/octet-stream"
          ∨ String.prefix "image/" content_type = true →
          spec_strategy content_type = AsBytes)
       ∧ (content_type ≠ "application/json" →
          content_type ≠ "application/octet-stream" →
          String.prefix "image/" content_type = false →
          spec_strategy content_type = AsText))
  ∧ (∀ c w r w',
       run_call now_at transport c w = (Ok r, w') →
       ∃ rq response v es,
         request_of c = Some rq
         ∧ transport rq = Ok response
         ∧ decoded (spec_strategy (aiohttp.content_type response)) response
           = Ok v
         ∧ HTTPResponse.body r = stored_body v
         ∧ log w' = log w ++ es
         ∧ List.filter is_body_read es
           = [BodyRead (spec_strategy (aiohttp.content_type response))]).
Proof.
  split; [exact handle_content_type_run|]. split.
  - intros content_type. unfold spec_strategy.
    split; [intros ->; reflexivity|].
    split; [intros ->; reflexivity|].
    split.
    + intros [->|Hp]; [reflexivity|].
      destruct (String.eqb_spec content_type "application/json") as [->|_];
        [discriminate Hp|].
      destruct (String.eqb_spec content_type "application/xml") as [->|_];
        [discriminate Hp|].
      rewrite Hp, orb_true_r. reflexivity.
    + intros Hj Ho Hp.
      destruct (String.eqb_spec content_type "application/json");
        [contradiction|].
      destruct (String.eqb_spec content_type "application/xml");
        [reflexivity|].
      destruct (String.eqb_spec content_type "application/octet-stream");
        [contradiction|].
      rewrite Hp. reflexivity.
  - intros c w r w' Hrun.
    destruct (run_call_Ok _ _ _ _ _ _ Hrun)
      as (url & kwargs & response & v & Hc & Ht & _ & Hv & Hr & Hw).
    cbv zeta in Ht, Hv, Hw. subst c.
    eexists _, response, v, _.
    split; [reflexivity|]. split; [exact Ht|]. split; [exact Hv|].
    split; [rewrite Hr; apply body_or_empty_Some|].
    split; [rewrite Hw; reflexivity|]. reflexivity.
Qed.

Lemma body_decoding_by_content_type_witness :
  let t0 := mk_datetime 2025 8 8 12 0 0 0 eq_refl in
  let response :=
    aiohttp.mk_response 200 "OK" "application/json"
      (Ok (VDict {[ "id" := VInt 1 ]})) (Ok "{id: 1}") (Ok []) in
  let transport := λ _ : aiohttp.request, Ok response in
  let rq :=
    aiohttp.mk_request HTTPMethod.GET "https://example.org" None None ∅ in
  let r :=
    HTTPResponse.__init__ t0 ∅ "OK" HTTPMethod.GET t0 200 "application/json"
      "https://example.org" (Some {[ "id" := VInt 1 ]}) in
  let w' :=
    logged initial_world 2
      [SessionOpened; RequestSent rq; StatusChecked; BodyRead AsJson;
       ResponseReleased; SessionClosed; ResponseConstructed r] in
  spec_strategy "image/png" = AsBytes
  ∧ spec_strategy "text/html" = AsText
  ∧ ∃ rq response v es,
      request_of (Get "https://example.org" ∅) = Some rq
      ∧ transport rq = Ok response
      ∧ decoded (spec_strategy (aiohttp.content_type response)) response
        = Ok v
      ∧ HTTPResponse.body r = stored_body v
      ∧ log w' = log initial_world ++ es
      ∧ List.filter is_body_read es
        = [BodyRead (spec_strategy (aiohttp.content_type response))].
Proof.
  intros t0 response transport rq r w'.
  pose proof (body_decoding_by_content_type (λ _, t0) transport)
    as (_ & Hstrategy & Hcalls).
  split; [|split].
  - apply (proj1 (proj2 (proj2 (Hstrategy "image/png")))).
    right. reflexivity.
  - apply (proj2 (proj2 (proj2 (Hstrategy "text/html"))));
      [intros H; discriminate H|intros H; discriminate H|reflexivity].
  - apply (Hcalls (Get "https://example.org" ∅) initial_world r w').
    vm_compute. reflexivity.
Defined.

(** C5, as the code has it.  A POST, PUT, DELETE, PATCH or OPTIONS call
    whose response passes the status check does not return a response with
    a placeholder type: it stops with the [AttributeError] of [str.JSON],
    before the type is set and before the body is read. *)
Theorem placeholder_verbs_stop_at_type
    (now_at : nat → datetime)
    (transport : aiohttp.request → result aiohttp.ClientResponse)
    (c : verb_call) (w : world) (rq : aiohttp.request)
    (response : aiohttp.ClientResponse) :
  (∀ url kwargs, c ≠ Get url kwargs) →
  request_of c = Some rq →
  transport rq = Ok response →
  aiohttp.status response < 400 →
  let es := [SessionOpened; RequestSent rq; StatusChecked; ResponseReleased;
             SessionClosed] in
  run_call now_at transport c w
  = (Raise (AttributeError "JSON"), logged w 1 es)
  ∧ List.filter is_body_read es = []
  ∧ List.filter is_constructed es = [].
Proof.
  intros Hc Hrq Ht Hstatus es.
  assert (aiohttp.ok response = true) as Hok
    by (unfold aiohttp.ok; apply Z.ltb_lt; exact Hstatus).
  split; [|split; reflexivity].
  destruct c; cbn [request_of] in Hrq; try discriminate Hrq;
    injection Hrq as <-; cbn [run_call].
  - exfalso. eapply Hc. reflexivity.
  - rewrite post_run. unfold stops_at_type. rewrite Ht, Hok. reflexivity.
  - rewrite put_run. unfold stops_at_type. rewrite Ht, Hok. reflexivity.
  - rewrite delete_run. unfold stops_at_type. rewrite Ht, Hok. reflexivity.
  - rewrite patch_run. unfold stops_at_type. rewrite Ht, Hok. reflexivity.
  - rewrite options_run. unfold stops_at_type. rewrite Ht, Hok. reflexivity.
Qed.

Lemma placeholder_verbs_stop_at_type_witness :
  let t0 := mk_datetime 2025 8 8 12 0 0 0 eq_refl in
  let response :=
    aiohttp.mk_response 200 "OK" "application/json"
      (Ok (VDict {[ "id" := VInt 1 ]})) (Ok "{id: 1}") (Ok []) in
  let rq :=
    aiohttp.mk_request HTTPMethod.POST "https://example.org" (Some ∅)
      (Some ∅) ∅ in
  HTTPService.post (λ _, t0) (λ _, Ok response) "https://example.org" ∅ ∅ ∅
    initial_world
  = (Raise (AttributeError "JSON"),
     logged initial_world 1
       [SessionOpened; RequestSent rq; StatusChecked; ResponseReleased;
        SessionClosed]).
Proof.
  intros t0 response rq.
  apply (placeholder_verbs_stop_at_type (λ _, t0) (λ _, Ok response)
           (Post "https://example.org" ∅ ∅ ∅) initial_world rq response).
  - intros url kwargs H. discriminate H.
  - reflexivity.
  - reflexivity.
  - cbn. lia.
Defined.

(** [get] does report the content type of the transport. *)
Lemma get_type_is_content_type
    (now_at : nat → datetime)
    (transport : aiohttp.request → result aiohttp.ClientResponse)
    (url : string) (kwargs : gmap string value) (w w' : world)
    (r : HTTPResponse.t) :
  HTTPService.get now_at transport url kwargs w = (Ok r, w') →
  ∃ response,
    transport (aiohttp.mk_request HTTPMethod.GET url None None kwargs)
    = Ok response
    ∧ HTTPResponse.type r = aiohttp.content_type response.
Proof.
  intros Hrun.
  destruct (run_call_Ok now_at transport (Get url kwargs) w w' r Hrun)
    as (url' & kwargs' & response & v & Hc & Ht & _ & _ & Hr & _).
  injection Hc as <- <-. exists response. split; [exact Ht|].
  rewrite Hr. reflexivity.
Qed.

(** * Further properties *)

(** ** The setters of HTTPResponseBuilder *)

Section SetterFacts.

Import HTTPResponseBuilder.

Lemma apply_setter_insert (self : gmap string value) (c : setter) :
  apply_setter self c = <[ setter_key c := setter_value c ]> self.
Proof. destruct c as [v| | | | | | | |]; try reflexivity. destruct v; reflexivity. Qed.

Lemma fold_setters_lookup (calls : list setter) (self : gmap string value)
    (key : string) :
  fold_left apply_setter calls self !! key
  = match last_set key calls with
    | Some v => Some v
    | None => self !! key
    end.
Proof.
  revert self. induction calls as [|c calls IH]; intros self; [reflexivity|].
  cbn [fold_left last_set]. rewrite IH.
  destruct (last_set key calls); [reflexivity|].
  rewrite apply_setter_insert, lookup_insert.
  destruct (String.eqb_spec (setter_key c) key) as [->|Hne].
  - rewrite decide_True by reflexivity. reflexivity.
  - rewrite decide_False by exact Hne. reflexivity.
Qed.

Lemma configured_lookup (calls : list setter) (key : string) :
  configured calls !! key = last_set key calls.
Proof.
  unfold configured. rewrite fold_setters_lookup.
  destruct (last_set key calls); [reflexivity|]. apply lookup_empty.
Qed.

End SetterFacts.

(** X1.  After any sequence of [with_] calls the configuration holds, under
    each key, what the last call for that key stored, and nothing under a
    key no call set; two calls for different keys can be swapped, and of
    two calls for the same key only the later one counts. *)
Theorem setters_last_write_wins (calls : list setter) :
  (∀ key, configured calls !! key = last_set key calls)
  ∧ (∀ self c1 c2, setter_key c1 ≠ setter_key c2 →
       apply_setter (apply_setter self c1) c2
       = apply_setter (apply_setter self c2) c1)
  ∧ (∀ self c1 c2, setter_key c1 = setter_key c2 →
       apply_setter (apply_setter self c1) c2 = apply_setter self c2).
Proof.
  split; [intros key; apply configured_lookup|]. split.
  - intros self c1 c2 Hne. rewrite !apply_setter_insert.
    apply insert_insert_ne. congruence.
  - intros self c1 c2 Heq. rewrite !apply_setter_insert, Heq.
    apply insert_insert_eq.
Qed.

Lemma setters_last_write_wins_witness :
  apply_setter (apply_setter ∅ (WithStatus 200)) (WithUrl "https://example.org")
  = apply_setter (apply_setter ∅ (WithUrl "https://example.org")) (WithStatus 200)
  ∧ apply_setter (apply_setter ∅ (WithStatus 500)) (WithStatus 200)
    = apply_setter ∅ (WithStatus 200).
Proof.
  split.
  - apply (proj1 (proj2 (setters_last_write_wins []))). intros H. discriminate H.
  - apply (proj2 (proj2 (setters_last_write_wins []))). reflexivity.
Defined.

(** X2.  [build()] after a sequence of [with_] calls: when every required
    field was set by some call, the response is built from the values of
    the last call for each field, its body being the last body set or the
    empty mapping, and its duration the time from start to end; when some
    required field was never set, [build()] fails with the [KeyError] of a
    required field that no call set. *)
Theorem build_after_calls (calls : list setter) :
  ((∀ key, In key HTTPResponseBuilder.required →
      is_Some (last_set key calls)) →
   ∃ r, HTTPResponseBuilder.build (configured calls) = Ok r
        ∧ last_set "end" calls = Some (VDatetime (HTTPResponse.end_ r))
        ∧ last_set "headers" calls = Some (VDict (HTTPResponse.headers r))
        ∧ last_set "message" calls = Some (VStr (HTTPResponse.message r))
        ∧ last_set "method" calls = Some (VMethod (HTTPResponse.method r))
        ∧ last_set "start" calls = Some (VDatetime (HTTPResponse.start r))
        ∧ last_set "status" calls = Some (VInt (HTTPResponse.status r))
        ∧ last_set "type" calls = Some (VStr (HTTPResponse.type r))
        ∧ last_set "url" calls = Some (VStr (HTTPResponse.url r))
        ∧ default (VDict ∅) (last_set "body" calls)
          = VDict (HTTPResponse.body r)
        ∧ HTTPResponse.duration r
          = total_seconds
              (datetime_sub (HTTPResponse.end_ r) (HTTPResponse.start r)))
  ∧ (∀ key, In key HTTPResponseBuilder.required →
       last_set key calls = None →
       ∃ named, HTTPResponseBuilder.build (configured calls)
                = Raise (KeyError named)
                ∧ In named HTTPResponseBuilder.required
                ∧ last_set named calls = None).
Proof.
  split.
  - intros Hall.
    assert (first_missing (configured calls) = None) as Hnone.
    { destruct (first_missing (configured calls)) as [key|] eqn:E;
        [|reflexivity].
      destruct (first_missing_Some _ _ E) as [Hreq Hmiss].
      rewrite configured_lookup in Hmiss.
      destruct (Hall key Hreq) as [v Hv]. congruence. }
    destruct (build_complete _ (configured_well_typed calls) Hnone)
      as (end_ & headers & message & method & start & status & type & url
          & E1 & E2 & E3 & E4 & E5 & E6 & E7 & E8 & body & Hbody & Hb).
    rewrite configured_lookup in E1, E2, E3, E4, E5, E6, E7, E8, Hbody.
    eexists. split; [exact Hb|].
    cbn [HTTPResponse.end_ HTTPResponse.headers HTTPResponse.message
         HTTPResponse.method HTTPResponse.start HTTPResponse.status
         HTTPResponse.type HTTPResponse.url HTTPResponse.body
         HTTPResponse.duration HTTPResponse.__init__ HTTPResponse._end
         HTTPResponse._headers HTTPResponse._message HTTPResponse._method
         HTTPResponse._start HTTPResponse._status HTTPResponse._type
         HTTPResponse._url HTTPResponse._body HTTPResponse._duration].
    rewrite body_or_empty_Some.
    repeat (split; [assumption|]). reflexivity.
  - intros key Hin Hnone.
    destruct (first_missing (configured calls)) as [named|] eqn:E.
    + exists named. destruct (first_missing_Some _ _ E) as [Hreq Hmiss].
      rewrite configured_lookup in Hmiss.
      auto using build_first_missing.
    + destruct (first_missing_None _ _ E Hin) as [v Hv].
      rewrite configured_lookup in Hv. congruence.
Qed.

Lemma build_after_calls_witness :
  let t0 := mk_datetime 2025 8 8 12 0 0 0 eq_refl in
  let calls := [WithMethod HTTPMethod.GET; WithUrl "https://example.org";
                WithHeaders ∅; WithStart t0; WithStatus 500;
                WithMessage "OK"; WithType "text/plain"; WithEnd t0;
                WithStatus 200] in
  (∃ r, HTTPResponseBuilder.build (configured calls) = Ok r
        ∧ last_set "status" calls = Some (VInt (HTTPResponse.status r)))
  ∧ ∃ named, HTTPResponseBuilder.build (configured [WithStatus 200])
             = Raise (KeyError named)
             ∧ In named HTTPResponseBuilder.required
             ∧ last_set named [WithStatus 200] = None.
Proof.
  intros t0 calls. split.
  - destruct (proj1 (build_after_calls calls)) as (r & Hb & H).
    + intros key Hin. cbn in Hin.
      repeat (destruct Hin as [<-|Hin]; [eexists; reflexivity|]).
      contradiction.
    + exists r. split; [exact Hb|]. apply H.
  - apply (proj2 (build_after_calls [WithStatus 200]) "url").
    + cbn. tauto.
    + reflexivity.
Defined.

(** ** Order of datetimes and sign of durations *)

Section OrderFacts.

Lemma tuple_cmp_antisym (a b : list Z) :
  tuple_cmp b a = CompOpp (tuple_cmp a b).
Proof.
  revert b. induction a as [|x a IH]; intros [|y b]; try reflexivity.
  cbn [tuple_cmp]. rewrite (Z.compare_antisym x y), IH.
  destruct (x ?= y); reflexivity.
Qed.

Lemma tuple_cmp_Eq (a b : list Z) : tuple_cmp a b = Eq → a = b.
Proof.
  revert b. induction a as [|x a IH]; intros [|y b] H;
    try reflexivity; try discriminate H.
  cbn [tuple_cmp] in H. destruct (Z.compare_spec x y) as [->|_|_];
    try discriminate H.
  f_equal. apply IH, H.
Qed.

Lemma instant_fields (a b : datetime) :
  datetime_tuple a = datetime_tuple b → instant a = instant b.
Proof.
  unfold datetime_tuple. intros H.
  injection H as Hy Hm Hd Hh Hmi Hs Hus.
  unfold instant, day_number. congruence.
Qed.

Lemma datetime_cmp_Lt (a b : datetime) :
  datetime_cmp a b = Lt → instant a < instant b.
Proof.
  unfold datetime_cmp, datetime_tuple. cbn [tuple_cmp]. intros H.
  destruct (datetime_valid a) as (Hm & Hd & Hh & Hmi & Hs & Hus).
  destruct (datetime_valid b) as (Hm' & Hd' & Hh' & Hmi' & Hs' & Hus').
  pose proof (ymd2ord_lt (year a) (month a) (day a)
                (year b) (month b) (day b) Hm Hd Hm' Hd') as Hord.
  unfold instant. rewrite <- !toordinal_day_number. unfold toordinal.
  destruct (Z.compare_spec (year a) (year b)) as [Hy|Hy|Hy];
    try discriminate H; [|specialize (Hord ltac:(lia)); lia].
  destruct (Z.compare_spec (month a) (month b)) as [Hmo|Hmo|Hmo];
    try discriminate H; [|specialize (Hord ltac:(lia)); lia].
  destruct (Z.compare_spec (day a) (day b)) as [Hda|Hda|Hda];
    try discriminate H; [|specialize (Hord ltac:(lia)); lia].
  clear Hord. rewrite Hy, Hmo, Hda.
  destruct (Z.compare_spec (hour a) (hour b)); try discriminate H; [|lia].
  destruct (Z.compare_spec (minute a) (minute b)); try discriminate H; [|lia].
  destruct (Z.compare_spec (second a) (second b)); try discriminate H; [|lia].
  destruct (Z.compare_spec (microsecond a) (microsecond b));
    try discriminate H.
  lia.
Qed.

(** The comparison of two datetimes is the comparison of their instants. *)
Lemma datetime_cmp_instant (a b : datetime) :
  datetime_cmp a b = (instant a ?= instant b).
Proof.
  destruct (datetime_cmp a b) eqn:E; symmetry.
  - apply Z.compare_eq_iff, instant_fields, tuple_cmp_Eq, E.
  - apply Z.compare_lt_iff, datetime_cmp_Lt, E.
  - apply Z.compare_gt_iff, datetime_cmp_Lt.
    unfold datetime_cmp in *. rewrite tuple_cmp_antisym, E. reflexivity.
Qed.

End OrderFacts.

(** X3.  The constructor does not order [start] and [end]: the duration of
    a response is positive exactly when [start < end] as Python compares
    datetimes, zero exactly when they are equal, and negative exactly when
    [end < start]. *)
Theorem duration_sign
    (end_ : datetime) (headers : gmap string value) (message : string)
    (method : HTTPMethod.t) (start : datetime) (status : Z)
    (type url : string) (body : option (gmap string value)) :
  let r := HTTPResponse.__init__ end_ headers message method start status
             type url body in
  (Qlt 0 (HTTPResponse.duration r) ↔ datetime_lt start end_ = true)
  ∧ (Qeq (HTTPResponse.duration r) 0 ↔ datetime_eq start end_ = true)
  ∧ (Qlt (HTTPResponse.duration r) 0 ↔ datetime_lt end_ start = true).
Proof.
  intros r.
  assert (HTTPResponse.duration r
          = long_true_divide (instant end_ - instant start) 1000000) as ->
    by apply total_seconds_sub.
  assert (Z.abs (instant end_ - instant start) < 2 ^ 59) as Hsize.
  { pose proof (instant_range end_). pose proof (instant_range start). lia. }
  destruct (long_true_divide_sign _ Hsize) as (-> & -> & ->).
  unfold datetime_lt, datetime_eq. rewrite !datetime_cmp_instant.
  split; [|split].
  - destruct (Z.compare_spec (instant start) (instant end_)) as [Hc|Hc|Hc];
      split; intros Hd; try discriminate Hd; try reflexivity; lia.
  - destruct (Z.compare_spec (instant start) (instant end_)) as [Hc|Hc|Hc];
      split; intros Hd; try discriminate Hd; try reflexivity; lia.
  - destruct (Z.compare_spec (instant end_) (instant start)) as [Hc|Hc|Hc];
      split; intros Hd; try discriminate Hd; try reflexivity; lia.
Qed.


(** ** Precision of the serialized timestamps *)

(** X4.  The serialized view keeps the timestamps to the second: the
    [start] entries of two responses are equal exactly when the two start
    times agree from the year down to the second, whatever their
    microseconds; likewise for [end]. *)
Theorem dict_timestamps_to_the_second (r1 r2 : HTTPResponse.t) :
  let same_second (a b : datetime) :=
    year a = year b ∧ month a = month b ∧ day a = day b
    ∧ hour a = hour b ∧ minute a = minute b ∧ second a = second b in
  (HTTPResponse.dict r1 !! "start" = HTTPResponse.dict r2 !! "start"
   ↔ same_second (HTTPResponse.start r1) (HTTPResponse.start r2))
  ∧ (HTTPResponse.dict r1 !! "end" = HTTPResponse.dict r2 !! "end"
     ↔ same_second (HTTPResponse.end_ r1) (HTTPResponse.end_ r2)).
Proof.
  intros same_second. subst same_second. cbv beta.
  change (HTTPResponse.dict r1 !! "start")
    with (Some (VStr (strftime (HTTPResponse.start r1) "%Y-%m-%d %H:%M:%S"))).
  change (HTTPResponse.dict r2 !! "start")
    with (Some (VStr (strftime (HTTPResponse.start r2) "%Y-%m-%d %H:%M:%S"))).
  change (HTTPResponse.dict r1 !! "end")
    with (Some (VStr (strftime (HTTPResponse.end_ r1) "%Y-%m-%d %H:%M:%S"))).
  change (HTTPResponse.dict r2 !! "end")
    with (Some (VStr (strftime (HTTPResponse.end_ r2) "%Y-%m-%d %H:%M:%S"))).
  split.
  - rewrite <- strftime_same_iff. split; intros H; congruence.
  - rewrite <- strftime_same_iff. split; intros H; congruence.
Qed.

(** ** HeaderBuilder *)

Section HeaderFacts.

Import HeaderBuilder.

Lemma add_all_cons (self : t) (key v : string) (adds : list (string * string))
    (s : gmap nat (gmap string string)) :
  add_all self ((key, v) :: adds) s
  = add_all self adds
      (alter (λ d, <[ key := v ]> d) (_configuration self) s).
Proof. reflexivity. Qed.

(** A chain of [add] calls changes the builder's dict, and only it. *)
Lemma add_all_store (adds : list (string * string)) (self : t)
    (s : gmap nat (gmap string string)) (d : gmap string string) :
  s !! _configuration self = Some d →
  ∃ d', add_all self adds s = (self, <[ _configuration self := d' ]> s)
        ∧ ∀ key, d' !! key = match last_added key adds with
                             | Some v => Some v
                             | None => d !! key
                             end.
Proof.
  revert s d. induction adds as [|[k v] adds IH]; intros s d Hd.
  - exists d. split; [|reflexivity].
    unfold add_all. cbn [fold_left]. rewrite insert_id by exact Hd.
    reflexivity.
  - rewrite add_all_cons.
    destruct (IH (alter (λ d, <[ k := v ]> d) (_configuration self) s)
                (<[ k := v ]> d)) as (d' & Hrun & Hd').
    { rewrite lookup_alter_eq, Hd. reflexivity. }
    exists d'. split.
    + rewrite Hrun. f_equal. apply map_eq. intros a.
      destruct (decide (a = _configuration self)) as [->|Hne].
      * rewrite !lookup_insert_eq. reflexivity.
      * rewrite !lookup_insert_ne by congruence.
        apply lookup_alter_ne. congruence.
    + intros key. rewrite Hd'. cbn [last_added].
      destruct (last_added key adds); [reflexivity|].
      rewrite lookup_insert.
      destruct (String.eqb_spec k key) as [->|Hne].
      * rewrite decide_True by reflexivity. reflexivity.
      * rewrite decide_False by exact Hne. reflexivity.
Qed.

End HeaderFacts.

(** X5.  For a new header builder and any chain of [add] calls, [build()]
    gives a dict that holds, for every key, the value of the last [add] for
    that key and nothing for a key never added; the chain returns the
    builder itself, and no other object is changed. *)
Theorem headers_last_write_wins
    (s : gmap nat (gmap string string)) (adds : list (string * string)) :
  let '(b, s1) := HeaderBuilder.__init__ s in
  let '(b', s2) := add_all b adds s1 in
  let '(d, s3) := HeaderBuilder.build b' s2 in
  b' = b
  ∧ (∃ m, s3 !! d = Some m ∧ ∀ key, m !! key = last_added key adds)
  ∧ (∀ a, a ≠ d → s3 !! a = s !! a).
Proof.
  unfold HeaderBuilder.__init__. cbv zeta.
  set (l := fresh (dom s)).
  destruct (add_all_store adds (HeaderBuilder.mk l) (<[ l := ∅ ]> s) ∅)
    as (d' & Hrun & Hd').
  { apply lookup_insert_eq. }
  rewrite Hrun. cbn [HeaderBuilder.build HeaderBuilder._configuration].
  split; [reflexivity|]. split.
  - exists d'. split; [apply lookup_insert_eq|].
    intros key. rewrite Hd'.
    destruct (last_added key adds); [reflexivity|apply lookup_empty].
  - intros a Ha. rewrite !lookup_insert_ne by congruence. reflexivity.
Qed.

(** X6.  [build()] returns the builder's own dict, not a copy: the dict
    obtained from [build()] is empty at that time and shows every [add]
    made on the builder afterwards; and a second builder has a dict of its
    own, which the [add] calls on the first leave empty. *)
Theorem build_returns_the_live_dict
    (s : gmap nat (gmap string string)) (adds : list (string * string)) :
  let '(b1, s1) := HeaderBuilder.__init__ s in
  let '(b2, s2) := HeaderBuilder.__init__ s1 in
  let '(d1, s3) := HeaderBuilder.build b1 s2 in
  let '(d2, s4) := HeaderBuilder.build b2 s3 in
  let '(_, s5) := add_all b1 adds s4 in
  d1 ≠ d2
  ∧ s4 !! d1 = Some ∅
  ∧ (∃ m, s5 !! d1 = Some m ∧ ∀ key, m !! key = last_added key adds)
  ∧ s5 !! d2 = Some ∅.
Proof.
  unfold HeaderBuilder.__init__. cbv zeta.
  cbn [HeaderBuilder.build HeaderBuilder._configuration].
  set (l1 := fresh (dom s)).
  set (s1 := <[ l1 := ∅ ]> s).
  set (l2 := fresh (dom s1)).
  assert (l1 ≠ l2) as Hne.
  { intros Heq. apply (is_fresh (dom s1)). fold l2. rewrite <- Heq.
    unfold s1. rewrite dom_insert_L. set_solver. }
  destruct (add_all_store adds (HeaderBuilder.mk l1) (<[ l2 := ∅ ]> s1) ∅)
    as (d' & Hrun & Hd').
  { cbn [HeaderBuilder._configuration].
    rewrite lookup_insert_ne by congruence. apply lookup_insert_eq. }
  rewrite Hrun. cbn [HeaderBuilder._configuration].
  split; [exact Hne|]. split.
  - rewrite lookup_insert_ne by congruence. apply lookup_insert_eq.
  - split.
    + exists d'. split; [apply lookup_insert_eq|].
      intros key. rewrite Hd'.
      destruct (last_added key adds); [reflexivity|apply lookup_empty].
    + rewrite lookup_insert_ne by congruence. apply lookup_insert_eq.
Qed.

(** ** URLBuilder *)

(** X7.  [with_endpoint] on a builder made from a base URL never fails: it
    returns the base URL, one slash and the segment, unchanged and not
    encoded, even when the segment is empty or the base already ends with a
    slash; different segments give different URLs, while a slash may sit
    in the base as well as in the segment. *)
Theorem with_endpoint_joins (url v : string) :
  URLBuilder.with_endpoint (URLBuilder.__init__ url) v
  = Ok (url +:+ "/" +:+ v)
  ∧ String.prefix (url +:+ "/") (url +:+ "/" +:+ v) = true
  ∧ String.length (url +:+ "/" +:+ v)
    = (String.length url + 1 + String.length v)%nat
  ∧ (∀ v', URLBuilder.with_endpoint (URLBuilder.__init__ url) v
           = URLBuilder.with_endpoint (URLBuilder.__init__ url) v' ↔ v = v')
  ∧ (∀ base, URLBuilder.with_endpoint (URLBuilder.__init__ (base +:+ "/" +:+ url)) v
             = URLBuilder.with_endpoint (URLBuilder.__init__ base)
                 (url +:+ "/" +:+ v)).
Proof.
  assert (∀ u w, URLBuilder.with_endpoint (URLBuilder.__init__ u) w
                 = Ok (u +:+ "/" +:+ w)) as Hrun.
  { intros u w. unfold URLBuilder.with_endpoint, URLBuilder.__init__.
    rewrite lookup_singleton_eq. reflexivity. }
  split; [apply Hrun|]. split.
  { rewrite <- (append_assoc url "/" v). apply prefix_append. }
  split.
  { rewrite !length_append. cbn. lia. }
  split.
  - intros v'. rewrite !Hrun. split; [|intros ->; reflexivity].
    intros H. injection H as H.
    apply append_inj_r in H. apply (append_inj_r "/") in H. exact H.
  - intros base. rewrite !Hrun. f_equal.
    rewrite !append_assoc. reflexivity.
Qed.

(** ** Authorization *)

(** X8.  The text of an Authorization shows the username and, of the
    password, its length only: two objects with the same username have the
    same text exactly when their passwords have the same number of
    characters. *)
Theorem repr_shows_password_length_only (username p1 p2 : string) :
  Authorization.__str__ (Authorization.mk p1 username)
  = Authorization.__str__ (Authorization.mk p2 username)
  ↔ len p1 = len p2.
Proof.
  unfold Authorization.__str__, Authorization.__repr__.
  cbn [Authorization._password Authorization._username].
  split.
  - intros H. apply append_inj_r in H.
    change (", username=" +:+ username +:+ ")")
      with (String "," (" username=" +:+ username +:+ ")")) in H.
    apply stars_then_comma in H. exact H.
  - intros ->. reflexivity.
Qed.

(** X9.  [basic()] is one-to-one on the text [username:password]: two
    objects give the same value exactly when that text is the same.  With
    no colon in the usernames the username and the password are both
    determined; a colon in a username is not told from the separator. *)
Theorem basic_determines_credentials (a b : Authorization.t) :
  (Authorization.basic a = Authorization.basic b
   ↔ Authorization.username a +:+ ":" +:+ Authorization.password a
     = Authorization.username b +:+ ":" +:+ Authorization.password b)
  ∧ (colon_free (Authorization.username a) = true →
     colon_free (Authorization.username b) = true →
     Authorization.basic a = Authorization.basic b →
     Authorization.username a = Authorization.username b
     ∧ Authorization.password a = Authorization.password b)
  ∧ (∀ u p q,
       Authorization.basic (Authorization.mk q (u +:+ ":" +:+ p))
       = Authorization.basic (Authorization.mk (p +:+ ":" +:+ q) u)).
Proof.
  assert (Authorization.basic a = Authorization.basic b →
          Authorization.username a +:+ ":" +:+ Authorization.password a
          = Authorization.username b +:+ ":" +:+ Authorization.password b)
    as Hinj.
  { unfold Authorization.basic, Authorization.username,
      Authorization.password. intros H.
    apply append_inj_r in H.
    apply (f_equal list_byte_of_string) in H.
    rewrite !list_byte_of_string_of_list_byte in H.
    apply (f_equal Base64.b64decode) in H.
    rewrite !b64decode_b64encode in H. injection H as H.
    apply (f_equal string_of_list_byte) in H.
    rewrite !string_of_list_byte_of_string in H. exact H. }
  split; [|split].
  - split; [exact Hinj|].
    unfold Authorization.basic, Authorization.username,
      Authorization.password. intros ->. reflexivity.
  - intros Ha Hb H. apply (first_colon_unique _ _ _ _ Ha Hb), Hinj, H.
  - intros u p q. unfold Authorization.basic.
    cbn [Authorization._username Authorization._password].
    rewrite append_assoc. reflexivity.
Qed.

Lemma basic_determines_credentials_witness :
  Authorization.username (Authorization.mk "pw" "user")
  = Authorization.username (Authorization.mk "pw" "user")
  ∧ Authorization.password (Authorization.mk "pw" "user")
    = Authorization.password (Authorization.mk "pw" "user").
Proof.
  apply (proj1 (proj2 (basic_determines_credentials
                         (Authorization.mk "pw" "user")
                         (Authorization.mk "pw" "user"))));
    reflexivity.
Defined.

(** ** The verb functions *)

Section VerbFacts.

Variable now_at : nat → datetime.
Variable transport : aiohttp.request → result aiohttp.ClientResponse.

Lemma ok_iff (response : aiohttp.ClientResponse) :
  aiohttp.ok response = true ↔ aiohttp.status response < 400.
Proof. unfold aiohttp.ok. apply Z.ltb_lt. Qed.

(** The events of a call that stops at [str.JSON] or before. *)
Lemma stops_at_type_events (rq : aiohttp.request) (w : world) :
  ∃ mid,
    log (stops_at_type transport rq w).2
    = log w ++ SessionOpened :: mid ++ [SessionClosed]
    ∧ List.filter is_opened mid = []
    ∧ List.filter is_closed mid = []
    ∧ List.filter is_request mid = [RequestSent rq]
    ∧ List.filter is_released mid
      = match transport rq with
        | Ok _ => [ResponseReleased]
        | Raise _ => []
        end
    ∧ List.filter is_constructed mid = [].
Proof.
  unfold stops_at_type. destruct (transport rq) as [response|e].
  - exists [RequestSent rq; StatusChecked; ResponseReleased].
    repeat split; reflexivity.
  - exists [RequestSent rq]. repeat split; reflexivity.
Qed.

End VerbFacts.

(** X10.  [get] returns a response exactly when the transport answers, the
    status is below 400 and the body can be read in the way its content
    type asks for.  The response then carries the status, reason and
    content type of the answer, the URL asked for, the method GET, empty
    headers, the clock readings taken before the request and after the
    body as start and end, and what was read as its body; the clock was
    read twice. *)
Theorem get_returns_exactly_when
    (now_at : nat → datetime)
    (transport : aiohttp.request → result aiohttp.ClientResponse)
    (url : string) (kwargs : gmap string value) (w : world) :
  let rq := aiohttp.mk_request HTTPMethod.GET url None None kwargs in
  (∀ r w',
     HTTPService.get now_at transport url kwargs w = (Ok r, w') →
     ∃ response v,
       transport rq = Ok response
       ∧ aiohttp.status response < 400
       ∧ decoded (spec_strategy (aiohttp.content_type response)) response
         = Ok v
       ∧ HTTPResponse.status r = aiohttp.status response
       ∧ HTTPResponse.message r = aiohttp.reason response
       ∧ HTTPResponse.type r = aiohttp.content_type response
       ∧ HTTPResponse.url r = url
       ∧ HTTPResponse.method r = HTTPMethod.GET
       ∧ HTTPResponse.headers r = ∅
       ∧ HTTPResponse.start r = now_at (clock w)
       ∧ HTTPResponse.end_ r = now_at (S (clock w))
       ∧ HTTPResponse.body r = stored_body v
       ∧ clock w' = S (S (clock w)))
  ∧ (∀ response v,
       transport rq = Ok response →
       aiohttp.status response < 400 →
       decoded (spec_strategy (aiohttp.content_type response)) response
       = Ok v →
       ∃ r w', HTTPService.get now_at transport url kwargs w = (Ok r, w')).
Proof.
  intros rq. split.
  - intros r w' Hrun.
    destruct (run_call_Ok now_at transport (Get url kwargs) w w' r Hrun)
      as (url' & kwargs' & response & v & Hc & Ht & Hok & Hv & Hr & Hw).
    injection Hc as <- <-. cbv zeta in Ht, Hv, Hw.
    exists response, v.
    split; [exact Ht|]. split; [apply ok_iff, Hok|]. split; [exact Hv|].
    rewrite Hr, Hw.
    cbn [HTTPResponse.status HTTPResponse.message HTTPResponse.type
         HTTPResponse.url HTTPResponse.method HTTPResponse.headers
         HTTPResponse.start HTTPResponse.end_ HTTPResponse.body
         HTTPResponse.__init__ HTTPResponse._status HTTPResponse._message
         HTTPResponse._type HTTPResponse._url HTTPResponse._method
         HTTPResponse._headers HTTPResponse._start HTTPResponse._end
         HTTPResponse._body].
    rewrite body_or_empty_Some. repeat split; reflexivity.
  - intros response v Ht Hstatus Hv.
    rewrite (get_run now_at transport url kwargs w response Ht).
    rewrite (proj2 (ok_iff response) Hstatus), Hv. cbv zeta. eauto.
Qed.

Lemma get_returns_exactly_when_witness :
  let t0 := mk_datetime 2025 8 8 12 0 0 0 eq_refl in
  let response :=
    aiohttp.mk_response 200 "OK" "text/html" (Raise (ValueError "json"))
      (Ok "<html/>") (Ok []) in
  ∃ r w',
    HTTPService.get (λ _, t0) (λ _, Ok response) "https://example.org" ∅
      initial_world
    = (Ok r, w').
Proof.
  intros t0 response.
  apply (proj2 (get_returns_exactly_when (λ _, t0) (λ _, Ok response)
                  "https://example.org" ∅ initial_world)
           response (VStr "<html/>")).
  - reflexivity.
  - cbn. lia.
  - reflexivity.
Defined.

(** X11.  [get] fails in three ways only, each time with the exception of
    the step that failed, unchanged: the transport's own failure, the
    status error for a status of 400 or more, or the failure of reading
    the body.  In each case the clock was read once and no response was
    constructed. *)
Theorem get_failure_modes
    (now_at : nat → datetime)
    (transport : aiohttp.request → result aiohttp.ClientResponse)
    (url : string) (kwargs : gmap string value) (w w' : world) (e : exn) :
  let rq := aiohttp.mk_request HTTPMethod.GET url None None kwargs in
  HTTPService.get now_at transport url kwargs w = (Raise e, w') →
  (transport rq = Raise e
   ∨ (∃ response,
        transport rq = Ok response
        ∧ 400 <= aiohttp.status response
        ∧ e = ClientResponseError (aiohttp.status response)
                (aiohttp.reason response))
   ∨ (∃ response,
        transport rq = Ok response
        ∧ aiohttp.status response < 400
        ∧ decoded (spec_strategy (aiohttp.content_type response)) response
          = Raise e))
  ∧ clock w' = S (clock w)
  ∧ ∃ es, log w' = log w ++ es ∧ List.filter is_constructed es = [].
Proof.
  intros rq Hrun. subst rq.
  destruct (transport (aiohttp.mk_request HTTPMethod.GET url None None kwargs))
    as [response|e'] eqn:Ht.
  - rewrite (get_run now_at transport url kwargs w response Ht) in Hrun.
    destruct (aiohttp.ok response) eqn:Hok.
    + destruct (decoded _ response) as [v|e'] eqn:Hv;
        [discriminate Hrun|].
      injection Hrun as <- <-.
      split; [|split; [reflexivity|eexists; split; reflexivity]].
      right. right. exists response.
      split; [reflexivity|]. split; [apply ok_iff, Hok|exact Hv].
    + injection Hrun as <- <-.
      split; [|split; [reflexivity|eexists; split; reflexivity]].
      right. left. exists response. split; [reflexivity|].
      split; [|reflexivity].
      unfold aiohttp.ok in Hok. apply Z.ltb_ge, Hok.
  - rewrite (get_run_error now_at transport url kwargs w e' Ht) in Hrun.
    injection Hrun as <- <-.
    split; [|split; [reflexivity|eexists; split; reflexivity]].
    left. reflexivity.
Qed.

Lemma get_failure_modes_witness :
  let t0 := mk_datetime 2025 8 8 12 0 0 0 eq_refl in
  let e := ClientError "no route to host" in
  let transport := λ _ : aiohttp.request, @Raise aiohttp.ClientResponse e in
  let rq :=
    aiohttp.mk_request HTTPMethod.GET "https://example.org" None None ∅ in
  let w' :=
    logged initial_world 1 [SessionOpened; RequestSent rq; SessionClosed] in
  (transport rq = Raise e
   ∨ (∃ response,
        transport rq = Ok response
        ∧ 400 <= aiohttp.status response
        ∧ e = ClientResponseError (aiohttp.status response)
                (aiohttp.reason response))
   ∨ (∃ response,
        transport rq = Ok response
        ∧ aiohttp.status response < 400
        ∧ decoded (spec_strategy (aiohttp.content_type response)) response
          = Raise e))
  ∧ clock w' = S (clock initial_world)
  ∧ ∃ es, log w' = log initial_world ++ es
          ∧ List.filter is_constructed es = [].
Proof.
  intros t0 e transport rq w'.
  apply (get_failure_modes (λ _, t0) transport "https://example.org" ∅
           initial_world w' e).
  reflexivity.
Defined.

(** X12.  Every verb call, whether it returns or raises, opens one session
    and closes it: its events are the opening of the session, then at most
    one request, whose response, if one came, is released, then the
    closing of the session, and only after that, when the call returns,
    the construction of the response it returns. *)
Theorem session_always_closed
    (now_at : nat → datetime)
    (transport : aiohttp.request → result aiohttp.ClientResponse)
    (c : verb_call) (w : world) :
  ∃ mid tail,
    log (run_call now_at transport c w).2
    = log w ++ SessionOpened :: mid ++ SessionClosed :: tail
    ∧ List.filter is_opened (mid ++ tail) = []
    ∧ List.filter is_closed (mid ++ tail) = []
    ∧ List.filter is_request mid
      = match request_of c with
        | Some rq => [RequestSent rq]
        | None => []
        end
    ∧ List.filter is_released mid
      = match request_of c with
        | Some rq =>
            match transport rq with
            | Ok _ => [ResponseReleased]
            | Raise _ => []
            end
        | None => []
        end
    ∧ List.filter is_constructed mid = []
    ∧ tail = match (run_call now_at transport c w).1 with
             | Ok r => [ResponseConstructed r]
             | Raise _ => []
             end.
Proof.
  assert (∀ rq,
            ∃ mid tail,
              log (stops_at_type transport rq w).2
              = log w ++ SessionOpened :: mid ++ SessionClosed :: tail
              ∧ List.filter is_opened (mid ++ tail) = []
              ∧ List.filter is_closed (mid ++ tail) = []
              ∧ List.filter is_request mid = [RequestSent rq]
              ∧ List.filter is_released mid
                = match transport rq with
                  | Ok _ => [ResponseReleased]
                  | Raise _ => []
                  end
              ∧ List.filter is_constructed mid = []
              ∧ tail = match (stops_at_type transport rq w).1 with
                       | Ok r => [ResponseConstructed r]
                       | Raise _ => []
                       end) as Hstops.
  { intros rq.
    destruct (stops_at_type_events transport rq w)
      as (mid & Hlog & Ho & Hc & Hrq & Hrel & Hcons).
    exists mid, []. rewrite app_nil_r.
    repeat (split; [assumption|]).
    destruct (stops_at_type_raises transport rq w) as (e & w1 & ->).
    reflexivity. }
  destruct c as [url kwargs| | | | | |url kwargs]; cbn [run_call request_of].
  - destruct (transport (aiohttp.mk_request HTTPMethod.GET url None None kwargs))
      as [response|e] eqn:Ht.
    + rewrite (get_run now_at transport url kwargs w response Ht).
      destruct (aiohttp.ok response).
      * destruct (decoded _ response) as [v|e]; cbv zeta.
        -- eexists [RequestSent _; StatusChecked; BodyRead _; ResponseReleased],
             [ResponseConstructed _].
           repeat split; reflexivity.
        -- eexists [RequestSent _; StatusChecked; BodyRead _; ResponseReleased],
             [].
           repeat split; reflexivity.
      * eexists [RequestSent _; StatusChecked; ResponseReleased], [].
        repeat split; reflexivity.
    + rewrite (get_run_error now_at transport url kwargs w e Ht).
      eexists [RequestSent _], []. repeat split; reflexivity.
  - rewrite post_run. apply Hstops.
  - rewrite put_run. apply Hstops.
  - rewrite delete_run. apply Hstops.
  - rewrite patch_run. apply Hstops.
  - rewrite options_run. apply Hstops.
  - rewrite trace_run. exists [], []. repeat split; reflexivity.
Qed.

(** X13.  Indexing the response of a [get]: when the body read is a
    mapping, [response[key]] is its value at [key], or None when it has
    none; when it is a text, bytes or any other value, that value is found
    at ["body"] and every other key gives None.  Indexing never raises. *)
Theorem getitem_of_get_response
    (now_at : nat → datetime)
    (transport : aiohttp.request → result aiohttp.ClientResponse)
    (url : string) (kwargs : gmap string value) (w w' : world)
    (r : HTTPResponse.t) :
  HTTPService.get now_at transport url kwargs w = (Ok r, w') →
  ∃ response v,
    transport (aiohttp.mk_request HTTPMethod.GET url None None kwargs)
    = Ok response
    ∧ decoded (spec_strategy (aiohttp.content_type response)) response = Ok v
    ∧ ∀ key,
        HTTPResponse.__getitem__ r key
        = match v with
          | VDict d => default VNone (d !! key)
          | _ => if String.eqb key "body" then v else VNone
          end.
Proof.
  intros Hrun.
  destruct (run_call_Ok now_at transport (Get url kwargs) w w' r Hrun)
    as (url' & kwargs' & response & v & Hc & Ht & _ & Hv & Hr & _).
  injection Hc as <- <-. cbv zeta in Ht, Hv.
  exists response, v. split; [exact Ht|]. split; [exact Hv|].
  intros key. rewrite Hr. unfold HTTPResponse.__getitem__.
  cbn [HTTPResponse.__init__ HTTPResponse._body].
  rewrite body_or_empty_Some.
  destruct v; cbn [stored_body]; try reflexivity;
    (destruct (String.eqb_spec key "body") as [->|Hne];
     [rewrite lookup_singleton_eq; reflexivity
     |rewrite lookup_singleton_ne by congruence; reflexivity]).
Qed.

Lemma getitem_of_get_response_witness :
  let t0 := mk_datetime 2025 8 8 12 0 0 0 eq_refl in
  let response :=
    aiohttp.mk_response 200 "OK" "text/html" (Raise (ValueError "json"))
      (Ok "<html/>") (Ok []) in
  let r :=
    HTTPResponse.__init__ t0 ∅ "OK" HTTPMethod.GET t0 200 "text/html"
      "https://example.org" (Some {[ "body" := VStr "<html/>" ]}) in
  ∃ response' v,
    (λ _ : aiohttp.request, Ok response)
      (aiohttp.mk_request HTTPMethod.GET "https://example.org" None None ∅)
    = Ok response'
    ∧ decoded (spec_strategy (aiohttp.content_type response')) response'
      = Ok v
    ∧ ∀ key,
        HTTPResponse.__getitem__ r key
        = match v with
          | VDict d => default VNone (d !! key)
          | _ => if String.eqb key "body" then v else VNone
          end.
Proof.
  intros t0 response r.
  apply (getitem_of_get_response (λ _, t0) (λ _, Ok response)
           "https://example.org" ∅ initial_world
           (logged initial_world 2
              [SessionOpened;
               RequestSent (aiohttp.mk_request HTTPMethod.GET
                              "https://example.org" None None ∅);
               StatusChecked; BodyRead AsText; ResponseReleased;
               SessionClosed; ResponseConstructed r])).
  vm_compute. reflexivity.
Defined.
